(** * Cookie consent widget (cookie-consent.js): model and properties

    The widget scans [document.cookie], classifies every cookie against a
    static pattern table, renders a banner and a preferences panel, persists
    the visitor's decision in the [cookie_consent] cookie and forwards it to
    the tag-management data layer.

    JavaScript strings are modelled as Rocq strings whose characters stand for
    code units 0..255; the browser (cookie store, clock, date formatting) is
    explicit state or an explicit parameter.  Wherever the behaviour of the
    host is not modelled, a computation ends in [OutOfModel] instead of
    inventing a result. *)

From Stdlib Require Import String Ascii List ZArith Bool Lia.
From Stdlib Require DecimalString DecimalFacts DecimalPos DecimalN.
Import ListNotations.

Set Warnings "-register-all".

Open Scope string_scope.

(** The double quote character. *)
Definition quoteChar : ascii := Ascii false true false false false true false false.

(** The backslash character. *)
Definition backslashChar : ascii := Ascii false false true true true false true false.

(** ** Completions: a call returns, throws, or leaves the model *)

Inductive JsError : Type := SyntaxError | TypeError.

Inductive Completion (A : Type) : Type :=
| Normal (a : A)
| Throw (e : JsError)
| OutOfModel.

Arguments Normal {A} a.
Arguments Throw {A} e.
Arguments OutOfModel {A}.

Definition bind {A B : Type} (c : Completion A) (k : A -> Completion B) : Completion B :=
  match c with
  | Normal a => k a
  | Throw e => Throw e
  | OutOfModel => OutOfModel
  end.

Notation "x <- c ;; k" := (bind c (fun x => k))
  (at level 61, c at next level, right associativity).

(** [Array.prototype.forEach] with a callback that may throw. *)
Fixpoint forEach {A S : Type} (f : S -> A -> Completion S) (l : list A) (s : S)
  : Completion S :=
  match l with
  | [] => Normal s
  | a :: l' => s' <- f s a ;; forEach f l' s'
  end.

(** ** String primitives of the host language *)

Module JsString.

(** [s.indexOf(p) === 0]. *)
Fixpoint startsWith (s p : string) {struct p} : bool :=
  match p with
  | EmptyString => true
  | String c p' =>
      match s with
      | EmptyString => false
      | String d s' => Ascii.eqb d c && startsWith s' p'
      end
  end.

(** [s.includes(p)]. *)
Fixpoint includes (s p : string) : bool :=
  startsWith s p ||
  match s with
  | EmptyString => false
  | String _ s' => includes s' p
  end.

(** [s.substring(n, s.length)]. *)
Fixpoint substringFrom (n : nat) (s : string) : string :=
  match n, s with
  | O, _ => s
  | S n', String _ s' => substringFrom n' s'
  | S _, EmptyString => EmptyString
  end.

(** [s.split(sep)] for a one-character separator; never the empty list. *)
Fixpoint split (sep : ascii) (s : string) : list string :=
  match s with
  | EmptyString => [EmptyString]
  | String c s' =>
      if Ascii.eqb c sep then EmptyString :: split sep s'
      else match split sep s' with
           | h :: t => String c h :: t
           | [] => [String c EmptyString]
           end
  end.

(** White space of [String.prototype.trim] among the code units 0..255. *)
Definition isWhiteSpace (c : ascii) : bool :=
  let n := nat_of_ascii c in
  (Nat.leb 9 n && Nat.leb n 13) || Nat.eqb n 32 || Nat.eqb n 160.

Fixpoint trimStart (s : string) : string :=
  match s with
  | EmptyString => EmptyString
  | String c s' => if isWhiteSpace c then trimStart s' else s
  end.

Fixpoint trimEnd (s : string) : string :=
  match s with
  | EmptyString => EmptyString
  | String c s' =>
      match trimEnd s' with
      | EmptyString => if isWhiteSpace c then EmptyString else String c EmptyString
      | t => String c t
      end
  end.

Definition trim (s : string) : string := trimEnd (trimStart s).

(** [a.join(sep)]. *)
Fixpoint join (sep : string) (l : list string) : string :=
  match l with
  | [] => EmptyString
  | [a] => a
  | a :: l' => a ++ sep ++ join sep l'
  end.

(** The character [c] occurs in [s]. *)
Fixpoint hasChar (c : ascii) (s : string) : bool :=
  match s with
  | EmptyString => false
  | String d s' => Ascii.eqb d c || hasChar c s'
  end.

(** Truthiness of a string: only the empty string is falsy. *)
Definition nonEmpty (s : string) : bool :=
  match s with EmptyString => false | _ => true end.

(** [p] occurs in [s] as a contiguous block. *)
Definition Substring (p s : string) : Prop :=
  exists a b : string, s = a ++ p ++ b.

End JsString.

(** ** JavaScript values and JSON *)

Module Json.

(** The values the widget handles.  A number [VNum m e] is the decimal
    [m * 10^e] (the double nearest to it); an object keeps its properties in
    insertion order. *)
Inductive value : Type :=
| VUndefined
| VNull
| VBool (b : bool)
| VNum (m e : Z)
| VStr (s : string)
| VDate (t : Z)
| VArr (items : list value)
| VObj (fields : list (string * value)).

(** The decimal [m * 10^e] rounds to the double zero: [|m * 10^e| <= 2^-1075]. *)
Definition roundsToZero (m e : Z) : bool :=
  (m =? 0)%Z ||
  ((e <? 0)%Z && (Z.abs m * 2 ^ 1075 <=? 10 ^ (- e))%Z).

(** ToBoolean. *)
Definition truthy (v : value) : bool :=
  match v with
  | VUndefined | VNull => false
  | VBool b => b
  | VNum m e => negb (roundsToZero m e)
  | VStr s => JsString.nonEmpty s
  | VDate _ | VArr _ | VObj _ => true
  end.

Fixpoint lookup (k : string) (fields : list (string * value)) : option value :=
  match fields with
  | [] => None
  | (k', v) :: rest => if String.eqb k' k then Some v else lookup k rest
  end.

(** Property read [v.k] for the property names the widget uses (none of them
    lives on a prototype): reading from [undefined] or [null] throws. *)
Definition get (v : value) (k : string) : Completion value :=
  match v with
  | VUndefined | VNull => Throw TypeError
  | VObj fields =>
      match lookup k fields with
      | Some x => Normal x
      | None => Normal VUndefined
      end
  | _ => Normal VUndefined
  end.

(** [v === "s"]. *)
Definition strictEqStr (v : value) (s : string) : bool :=
  match v with
  | VStr t => String.eqb t s
  | _ => false
  end.

(** Property write on a property list: an existing key keeps its place. *)
Fixpoint setField (fields : list (string * value)) (k : string) (v : value)
  : list (string * value) :=
  match fields with
  | [] => [(k, v)]
  | (k', v') :: rest =>
      if String.eqb k' k then (k', v) :: rest else (k', v') :: setField rest k v
  end.

(** *** JSON.parse *)

Definition isDigit (c : ascii) : bool :=
  let n := nat_of_ascii c in Nat.leb 48 n && Nat.leb n 57.

Definition digitVal (c : ascii) : N := N_of_ascii c - 48.

Definition isJsonWs (c : ascii) : bool :=
  let n := nat_of_ascii c in
  Nat.eqb n 9 || Nat.eqb n 10 || Nat.eqb n 13 || Nat.eqb n 32.

Fixpoint skipWs (s : string) : string :=
  match s with
  | EmptyString => EmptyString
  | String c s' => if isJsonWs c then skipWs s' else s
  end.

Fixpoint stripPrefix (p s : string) : option string :=
  match p with
  | EmptyString => Some s
  | String c p' =>
      match s with
      | EmptyString => None
      | String d s' => if Ascii.eqb d c then stripPrefix p' s' else None
      end
  end.

Definition hexVal (c : ascii) : option N :=
  let n := N_of_ascii c in
  if (48 <=? n)%N && (n <=? 57)%N then Some (n - 48)%N
  else if (65 <=? n)%N && (n <=? 70)%N then Some (n - 55)%N
  else if (97 <=? n)%N && (n <=? 102)%N then Some (n - 87)%N
  else None.

Definition hex4 (a b c d : ascii) : option N :=
  match hexVal a, hexVal b, hexVal c, hexVal d with
  | Some x, Some y, Some z, Some w => Some (((x * 16 + y) * 16 + z) * 16 + w)%N
  | _, _, _, _ => None
  end.

(** The character a two-character escape stands for. *)
Definition simpleEscape (c : ascii) : option ascii :=
  if Ascii.eqb c quoteChar then Some quoteChar
  else if Ascii.eqb c backslashChar then Some backslashChar
  else if Ascii.eqb c "/"%char then Some "/"%char
  else if Ascii.eqb c "b"%char then Some (ascii_of_nat 8)
  else if Ascii.eqb c "f"%char then Some (ascii_of_nat 12)
  else if Ascii.eqb c "n"%char then Some (ascii_of_nat 10)
  else if Ascii.eqb c "r"%char then Some (ascii_of_nat 13)
  else if Ascii.eqb c "t"%char then Some (ascii_of_nat 9)
  else None.

(** The characters of a string literal, after its opening quote.  An escape
    [\uXXXX] above 255 has no counterpart among the modelled code units. *)
Fixpoint parseChars (s : string) : Completion (string * string) :=
  match s with
  | EmptyString => Throw SyntaxError
  | String c r =>
      if Ascii.eqb c quoteChar then Normal (EmptyString, r)
      else if Ascii.eqb c backslashChar then
        match r with
        | EmptyString => Throw SyntaxError
        | String e r1 =>
            match simpleEscape e with
            | Some ch =>
                p <- parseChars r1 ;; Normal (String ch (fst p), snd p)
            | None =>
                if Ascii.eqb e "u"%char then
                  match r1 with
                  | String h1 (String h2 (String h3 (String h4 r2))) =>
                      match hex4 h1 h2 h3 h4 with
                      | Some n =>
                          if (n <? 256)%N then
                            p <- parseChars r2 ;;
                            Normal (String (ascii_of_N n) (fst p), snd p)
                          else OutOfModel
                      | None => Throw SyntaxError
                      end
                  | _ => Throw SyntaxError
                  end
                else Throw SyntaxError
            end
        end
      else if Nat.ltb (nat_of_ascii c) 32 then Throw SyntaxError
      else p <- parseChars r ;; Normal (String c (fst p), snd p)
  end.

(** A run of digits, read left to right: the number so far, how many digits
    were read, and what follows. *)
Fixpoint digitsLoop (acc : N) (count : nat) (s : string) : N * nat * string :=
  match s with
  | EmptyString => (acc, count, s)
  | String c r =>
      if isDigit c then digitsLoop (10 * acc + digitVal c)%N (S count) r
      else (acc, count, s)
  end.

(** int = "0" | digit1-9 digit* *)
Definition intPart (s : string) : option (N * string) :=
  match s with
  | EmptyString => None
  | String c r =>
      if Ascii.eqb c "0"%char then Some (0%N, r)
      else if isDigit c then
        let '(n, _, r') := digitsLoop 0 0 s in Some (n, r')
      else None
  end.

(** frac = "." digit+, folded into the mantissa. *)
Definition fracPart (m : N) (s : string) : option (N * nat * string) :=
  match s with
  | String c r =>
      if Ascii.eqb c "."%char then
        match r with
        | String d _ => if isDigit d then Some (digitsLoop m 0 r) else None
        | EmptyString => None
        end
      else Some (m, O, s)
  | EmptyString => Some (m, O, s)
  end.

Definition expDigits (s : string) : option (N * string) :=
  match s with
  | String d _ =>
      if isDigit d then let '(n, _, r') := digitsLoop 0 0 s in Some (n, r')
      else None
  | EmptyString => None
  end.

(** exp = ("e" | "E") ("+" | "-")? digit+ *)
Definition expPart (s : string) : option (Z * string) :=
  match s with
  | String c r =>
      if Ascii.eqb c "e"%char || Ascii.eqb c "E"%char then
        match r with
        | String sg r1 =>
            if Ascii.eqb sg "-"%char then
              option_map (fun p => (- Z.of_N (fst p), snd p)%Z) (expDigits r1)
            else if Ascii.eqb sg "+"%char then
              option_map (fun p => (Z.of_N (fst p), snd p)) (expDigits r1)
            else option_map (fun p => (Z.of_N (fst p), snd p)) (expDigits r)
        | EmptyString => None
        end
      else Some (0%Z, s)
  | EmptyString => Some (0%Z, s)
  end.

Definition parseNumber (s : string) : Completion (value * string) :=
  let '(negative, s1) :=
    match s with
    | String c r => if Ascii.eqb c "-"%char then (true, r) else (false, s)
    | EmptyString => (false, s)
    end in
  match intPart s1 with
  | None => Throw SyntaxError
  | Some (n, r1) =>
      match fracPart n r1 with
      | None => Throw SyntaxError
      | Some (m, k, r2) =>
          match expPart r2 with
          | None => Throw SyntaxError
          | Some (x, r3) =>
              let mz := Z.of_N m in
              Normal (VNum (if negative then - mz else mz) (x - Z.of_nat k), r3)
          end
      end
  end.

(** Recursive descent over the JSON grammar.  The fuel bounds the depth of
    the descent; running out of it is not a syntax error. *)
Fixpoint parseValue (fuel : nat) (s : string) : Completion (value * string) :=
  match fuel with
  | O => OutOfModel
  | S f =>
      let s0 := skipWs s in
      match stripPrefix "null" s0 with
      | Some r => Normal (VNull, r)
      | None =>
      match stripPrefix "true" s0 with
      | Some r => Normal (VBool true, r)
      | None =>
      match stripPrefix "false" s0 with
      | Some r => Normal (VBool false, r)
      | None =>
      match s0 with
      | EmptyString => Throw SyntaxError
      | String c r =>
          if Ascii.eqb c quoteChar then
            p <- parseChars r ;; Normal (VStr (fst p), snd p)
          else if Ascii.eqb c "["%char then
            match stripPrefix "]" (skipWs r) with
            | Some r' => Normal (VArr [], r')
            | None => p <- parseElements f r ;; Normal (VArr (fst p), snd p)
            end
          else if Ascii.eqb c "{"%char then
            match stripPrefix "}" (skipWs r) with
            | Some r' => Normal (VObj [], r')
            | None => p <- parseMembers f [] r ;; Normal (VObj (fst p), snd p)
            end
          else parseNumber s0
      end end end end
  end
with parseElements (fuel : nat) (s : string) : Completion (list value * string) :=
  match fuel with
  | O => OutOfModel
  | S f =>
      p <- parseValue f s ;;
      match skipWs (snd p) with
      | String c r =>
          if Ascii.eqb c ","%char then
            q <- parseElements f r ;; Normal (fst p :: fst q, snd q)
          else if Ascii.eqb c "]"%char then Normal ([fst p], r)
          else Throw SyntaxError
      | EmptyString => Throw SyntaxError
      end
  end
with parseMembers (fuel : nat) (acc : list (string * value)) (s : string)
  : Completion (list (string * value) * string) :=
  match fuel with
  | O => OutOfModel
  | S f =>
      match skipWs s with
      | String c r =>
          if Ascii.eqb c quoteChar then
            k <- parseChars r ;;
            match stripPrefix ":" (skipWs (snd k)) with
            | Some r2 =>
                p <- parseValue f r2 ;;
                let acc' := setField acc (fst k) (fst p) in
                match skipWs (snd p) with
                | String d r4 =>
                    if Ascii.eqb d ","%char then parseMembers f acc' r4
                    else if Ascii.eqb d "}"%char then Normal (acc', r4)
                    else Throw SyntaxError
                | EmptyString => Throw SyntaxError
                end
            | None => Throw SyntaxError
            end
          else Throw SyntaxError
      | EmptyString => Throw SyntaxError
      end
  end.

(** [JSON.parse(text)]: one value, then nothing but white space. *)
Definition parse (text : string) : Completion value :=
  p <- parseValue (2 * String.length text + 2) text ;;
  match skipWs (snd p) with
  | EmptyString => Normal (fst p)
  | String _ _ => Throw SyntaxError
  end.

End Json.

(** *** JSON.stringify *)

Module JsonPrint.
Import Json.

Definition hexDigit (n : N) : ascii :=
  if (n <? 10)%N then ascii_of_N (48 + n) else ascii_of_N (87 + n).

(** QuoteJSONString, one code unit at a time. *)
Definition escapeChar (c : ascii) : string :=
  let n := N_of_ascii c in
  if Ascii.eqb c quoteChar then String backslashChar (String quoteChar EmptyString)
  else if Ascii.eqb c backslashChar then "\\"
  else if (n =? 8)%N then "\b"
  else if (n =? 12)%N then "\f"
  else if (n =? 10)%N then "\n"
  else if (n =? 13)%N then "\r"
  else if (n =? 9)%N then "\t"
  else if (n <? 32)%N then
    "\u00" ++ String (hexDigit (n / 16)) (String (hexDigit (n mod 16)) EmptyString)
  else String c EmptyString.

Fixpoint escape (s : string) : string :=
  match s with
  | EmptyString => EmptyString
  | String c r => escapeChar c ++ escape r
  end.

Definition quote (s : string) : string :=
  String quoteChar (escape s ++ String quoteChar EmptyString).

Definition printN (n : N) : string :=
  DecimalString.NilZero.string_of_uint (N.to_uint n).

(** Number::toString on an integer: plain decimal digits. *)
Definition printZ (z : Z) : string :=
  if (z <? 0)%Z then String "-"%char (printN (Z.abs_N z)) else printN (Z.abs_N z).

(** Integers every double represents exactly; their [toString] is [printZ]. *)
Definition safeInteger (m : Z) : bool := (Z.abs m <=? 2 ^ 53)%Z.

Definition isUndefined (v : value) : bool :=
  match v with VUndefined => true | _ => false end.

(** The values whose JSON text the model determines: integers in the exact
    range, strings, booleans, [null], and arrays and objects of those, where
    [undefined] may stand as an array element or a property value. *)
Fixpoint renderable (v : value) : bool :=
  match v with
  | VNull | VBool _ | VStr _ => true
  | VNum m e => (e =? 0)%Z && safeInteger m
  | VArr items => forallb (fun x => isUndefined x || renderable x) items
  | VObj fields => forallb (fun p => isUndefined (snd p) || renderable (snd p)) fields
  | VUndefined | VDate _ => false
  end.

(** SerializeJSONProperty without indentation: an [undefined] property is
    left out, an [undefined] array element prints as [null]. *)
Fixpoint render (v : value) : string :=
  match v with
  | VNull => "null"
  | VBool true => "true"
  | VBool false => "false"
  | VNum m _ => printZ m
  | VStr s => quote s
  | VArr items =>
      "[" ++ JsString.join ","
               (map (fun x => if isUndefined x then "null" else render x) items)
          ++ "]"
  | VObj fields =>
      "{" ++ JsString.join ","
               ((fix members (l : list (string * value)) : list string :=
                   match l with
                   | [] => []
                   | (k, x) :: l' =>
                       if isUndefined x then members l'
                       else (quote k ++ ":" ++ render x) :: members l'
                   end) fields)
          ++ "}"
  | VUndefined | VDate _ => EmptyString
  end.

(** The text of each array element and of each property, as [render] joins
    them. *)
Definition renderElement (x : value) : string :=
  if isUndefined x then "null" else render x.

Fixpoint renderMembers (l : list (string * value)) : list string :=
  match l with
  | [] => []
  | (k, x) :: l' =>
      if isUndefined x then renderMembers l'
      else (quote k ++ ":" ++ render x) :: renderMembers l'
  end.

(** [JSON.stringify(v)] *)
Definition stringify (v : value) : Completion string :=
  if renderable v then Normal (render v) else OutOfModel.

(** Values that come back unchanged from their text: no escapes needed, no
    [undefined] inside, no repeated property name. *)
Definition plainChar (c : ascii) : bool :=
  negb (Ascii.eqb c quoteChar) && negb (Ascii.eqb c backslashChar) &&
  Nat.leb 32 (nat_of_ascii c).

Fixpoint plain (s : string) : bool :=
  match s with
  | EmptyString => true
  | String c s' => plainChar c && plain s'
  end.

Fixpoint distinct (l : list string) : bool :=
  match l with
  | [] => true
  | k :: l' => negb (existsb (String.eqb k) l') && distinct l'
  end.

Fixpoint printable (v : value) : bool :=
  match v with
  | VNull | VBool _ => true
  | VStr s => plain s
  | VNum m e => (e =? 0)%Z && safeInteger m
  | VArr items => forallb printable items
  | VObj fields =>
      forallb (fun p => plain (fst p) && printable (snd p)) fields &&
      distinct (map fst fields)
  | VUndefined | VDate _ => false
  end.

(** Fuel that suffices to parse the text of a value. *)
Fixpoint weight (v : value) : nat :=
  match v with
  | VArr items => S (list_sum (map (fun x => S (weight x)) items))
  | VObj fields => S (list_sum (map (fun p => S (weight (snd p))) fields))
  | _ => 1
  end.

(** The number a digit sequence denotes when read left to right from the
    number [acc] read so far. *)
Fixpoint accUint (u : Decimal.uint) (acc : N) : N :=
  match u with
  | Decimal.Nil => acc
  | Decimal.D0 u' => accUint u' (10 * acc + 0)
  | Decimal.D1 u' => accUint u' (10 * acc + 1)
  | Decimal.D2 u' => accUint u' (10 * acc + 2)
  | Decimal.D3 u' => accUint u' (10 * acc + 3)
  | Decimal.D4 u' => accUint u' (10 * acc + 4)
  | Decimal.D5 u' => accUint u' (10 * acc + 5)
  | Decimal.D6 u' => accUint u' (10 * acc + 6)
  | Decimal.D7 u' => accUint u' (10 * acc + 7)
  | Decimal.D8 u' => accUint u' (10 * acc + 8)
  | Decimal.D9 u' => accUint u' (10 * acc + 9)
  end%N.

(** What may follow a number without running into it. *)
Definition numberEnd (rest : string) : bool :=
  match rest with
  | EmptyString => true
  | String c _ =>
      negb (isDigit c || Ascii.eqb c "."%char || Ascii.eqb c "e"%char ||
            Ascii.eqb c "E"%char)
  end.

Definition noDigitAhead (rest : string) : bool :=
  match rest with
  | EmptyString => true
  | String c _ => negb (isDigit c)
  end.

(** The first character of a number. *)
Definition numberStart (c : ascii) : bool := isDigit c || Ascii.eqb c "-".

(** The first character of the text of a value: neither white space nor a
    closing bracket. *)
Definition valueStart (c : ascii) : bool :=
  numberStart c || Ascii.eqb c quoteChar || Ascii.eqb c "[" || Ascii.eqb c "{" ||
  Ascii.eqb c "n" || Ascii.eqb c "t" || Ascii.eqb c "f".

Definition elementsWeight (l : list value) : nat :=
  list_sum (map (fun x => S (weight x)) l).

Definition membersWeight (l : list (string * value)) : nat :=
  list_sum (map (fun p => S (weight (snd p))) l).

(** The property list after writing every property of [fields] in turn. *)
Definition setAll (acc fields : list (string * value)) : list (string * value) :=
  fold_left (fun a p => setField a (fst p) (snd p)) fields acc.

End JsonPrint.

(** ** The browser's cookie store behind [document.cookie]

    The cookies of one host that a script of the page can see, in the order
    the getter lists them: named cookies of path [/] that are not HttpOnly.
    The setter follows RFC 6265 (sections 5.2 and 5.3) and its revision: the
    name-value pair is the text before the first semicolon, name and value
    are trimmed; a cookie with the [Secure] attribute is refused on an origin
    that is not secure; a cookie whose [expires] date is read and is not in
    the future is removed; one whose date cannot be read has no expiry.  The
    setter knows the attributes this script writes ([expires], [path=/],
    [SameSite=Lax], [Secure]).  An assignment with any other attribute,
    without a name, with text other than printable ASCII, or with more than
    4096 characters of name and value, is outside the model.  The host
    holds no cookie hidden from scripts under a name a script assigns, and
    the store is below the browser's limit on the number of cookies. *)

Module CookieJar.
Import JsString.

Definition t : Type := list (string * string).

Definition isWsp (c : ascii) : bool :=
  Ascii.eqb c " "%char || Nat.eqb (nat_of_ascii c) 9.

Fixpoint trimWspStart (s : string) : string :=
  match s with
  | EmptyString => EmptyString
  | String c s' => if isWsp c then trimWspStart s' else s
  end.

Fixpoint trimWspEnd (s : string) : string :=
  match s with
  | EmptyString => EmptyString
  | String c s' =>
      match trimWspEnd s' with
      | EmptyString => if isWsp c then EmptyString else String c EmptyString
      | t => String c t
      end
  end.

Definition trimWsp (s : string) : string := trimWspEnd (trimWspStart s).

(** The text before the first [c], and the text after it when there is one. *)
Fixpoint breakAt (c : ascii) (s : string) : string * option string :=
  match s with
  | EmptyString => (EmptyString, None)
  | String d s' =>
      if Ascii.eqb d c then (EmptyString, Some s')
      else let '(a, b) := breakAt c s' in (String d a, b)
  end.

Fixpoint store (j : t) (name value : string) : t :=
  match j with
  | [] => [(name, value)]
  | (n, v) :: rest =>
      if String.eqb n name then (n, value) :: rest
      else (n, v) :: store rest name value
  end.

Fixpoint remove (name : string) (j : t) : t :=
  match j with
  | [] => []
  | (n, v) :: rest =>
      if String.eqb n name then remove name rest else (n, v) :: remove name rest
  end.

(** Printable ASCII: the code units 32..126. *)
Fixpoint printableAscii (s : string) : bool :=
  match s with
  | EmptyString => true
  | String c s' =>
      Nat.leb 32 (nat_of_ascii c) && Nat.leb (nat_of_ascii c) 126 && printableAscii s'
  end.

(** The attributes the setter knows. *)
Inductive Attribute : Type :=
| Expires (date : string)
| PathRoot
| SameSiteLax
| Secure.

Definition attributeOf (text : string) : option Attribute :=
  let a := trimWsp text in
  if String.eqb a "Secure" then Some Secure
  else if String.eqb a "SameSite=Lax" then Some SameSiteLax
  else if String.eqb a "path=/" then Some PathRoot
  else option_map (fun d => Expires (trimWsp d)) (Json.stripPrefix "expires=" a).

Fixpoint attributesOf (pieces : list string) : option (list Attribute) :=
  match pieces with
  | [] => Some []
  | p :: rest =>
      match attributeOf p, attributesOf rest with
      | Some a, Some l => Some (a :: l)
      | _, _ => None
      end
  end.

Definition isSecure (a : Attribute) : bool :=
  match a with Secure => true | _ => false end.

(** The expiry the attributes give: the last date that can be read. *)
Fixpoint expiryOf (readDate : string -> option Z) (l : list Attribute)
  (sofar : option Z) : option Z :=
  match l with
  | [] => sofar
  | Expires d :: l' =>
      match readDate d with
      | Some time => expiryOf readDate l' (Some time)
      | None => expiryOf readDate l' sofar
      end
  | _ :: l' => expiryOf readDate l' sofar
  end.

(** The setter: [document.cookie = text], on an origin that is secure or
    not, with the store's reading of dates and the clock. *)
Definition assign (secureOrigin : bool) (readDate : string -> option Z) (now : Z)
  (j : t) (text : string) : Completion t :=
  let '(nameValue, rest) := breakAt ";"%char text in
  match breakAt "="%char nameValue with
  | (_, None) => OutOfModel
  | (rawName, Some rawValue) =>
      let name := trimWsp rawName in
      let value := trimWsp rawValue in
      if negb (nonEmpty name) then OutOfModel
      else if negb (printableAscii name && printableAscii value) then OutOfModel
      else if Nat.ltb 4096 (String.length name + String.length value) then OutOfModel
      else
        match attributesOf (match rest with
                            | Some r => split ";"%char r
                            | None => []
                            end) with
        | None => OutOfModel
        | Some attributes =>
            if existsb isSecure attributes && negb secureOrigin then Normal j
            else
              match expiryOf readDate attributes None with
              | Some time =>
                  if (time <=? now)%Z then Normal (remove name j)
                  else Normal (store j name value)
              | None => Normal (store j name value)
              end
        end
  end.

(** The getter: [document.cookie]. *)
Definition read (j : t) : string :=
  join "; " (map (fun p => fst p ++ "=" ++ snd p) j).

Fixpoint find (name : string) (j : t) : option string :=
  match j with
  | [] => None
  | (n, v) :: rest => if String.eqb n name then Some v else find name rest
  end.

(** What the setter guarantees of every stored cookie. *)
Definition wfEntry (p : string * string) : bool :=
  negb (hasChar ";"%char (fst p)) && negb (hasChar "="%char (fst p)) &&
  negb (startsWith (fst p) " ") && negb (hasChar ";"%char (snd p)).

Definition wf (j : t) : bool := forallb wfEntry j.

End CookieJar.

(** ** Host services the widget calls *)

(** Date formatting and parsing are the host's: [toUTCString] and
    [toISOString] render a time value, [dateParse] is the time value of
    [new Date(text)] ([None] for an invalid date), [cookieDate] is the time
    the cookie store reads from the text of an [expires] attribute ([None]
    when it reads no date).  Two facts relate them: the text [toUTCString]
    prints has no semicolon and no blank at either end, and when the store
    reads a date from it, that date is the printed time to the second. *)
Record Host : Type := {
  toUTCString : Z -> string;
  toISOString : Z -> string;
  dateParse : string -> option Z;
  cookieDate : string -> option Z;
  datePlain : forall time,
    negb (JsString.hasChar ";" (toUTCString time)) &&
    String.eqb (CookieJar.trimWspStart (toUTCString time)) (toUTCString time) &&
    String.eqb (CookieJar.trimWspEnd (toUTCString time)) (toUTCString time) = true;
  dateRead : forall time,
    match cookieDate (toUTCString time) with
    | Some seen => (time - 1000 <? seen)%Z && (seen <=? time)%Z
    | None => true
    end = true
}.

(** A host that renders every time value the same way, and whose cookie
    store reads no date from it. *)
Definition fixedHost : Host := {|
  toUTCString := fun _ => "Thu, 01 Jan 2026 00:00:00 GMT";
  toISOString := fun _ => "2025-01-01T00:00:00.000Z";
  dateParse := fun _ => None;
  cookieDate := fun _ => None;
  datePlain := fun _ => eq_refl;
  dateRead := fun _ => eq_refl
|}.

(** ** The two regular expressions of [getCookieDuration]

    The cookie name is spliced unescaped into the pattern text.  The model
    covers two kinds of names: those without any syntax character, where the
    name matches itself, and those whose only syntax characters are opening
    parentheses, where the pattern has an unterminated group and the
    constructor throws.  Every other name is outside the model. *)

Module RegExpModel.
Import JsString.

(** SyntaxCharacter of the pattern grammar. *)
Definition syntaxCharacter (c : ascii) : bool := hasChar c "^$\.*+?()[]{}|".

Fixpoint allChars (f : ascii -> bool) (s : string) : bool :=
  match s with
  | EmptyString => true
  | String c s' => f c && allChars f s'
  end.

Inductive Source : Type := Literal | UnterminatedGroup | Unmodelled.

Definition classify (name : string) : Source :=
  if allChars (fun c => negb (syntaxCharacter c)) name then Literal
  else if allChars (fun c => negb (syntaxCharacter c) || Ascii.eqb c "("%char) name
       then UnterminatedGroup
  else Unmodelled.

(** The longest prefix without a semicolon, and what follows it. *)
Fixpoint spanNotSemi (s : string) : string * string :=
  match s with
  | EmptyString => (EmptyString, EmptyString)
  | String c s' =>
      if Ascii.eqb c ";"%char then (EmptyString, s)
      else let '(a, b) := spanNotSemi s' in (String c a, b)
  end.

(** [name=[^;]+(;|$)] matched at the start of [s], for a literal name. *)
Definition cookieAt (name s : string) : option unit :=
  match Json.stripPrefix (name ++ "=") s with
  | Some r => if nonEmpty (fst (spanNotSemi r)) then Some tt else None
  | None => None
  end.

(** [name=[^;]+; expires=([^;]+)] matched at the start of [s]; the result is
    the capture. *)
Definition expiresAt (name s : string) : option string :=
  match Json.stripPrefix (name ++ "=") s with
  | Some r =>
      let '(run, rest) := spanNotSemi r in
      if nonEmpty run then
        match Json.stripPrefix "; expires=" rest with
        | Some r2 =>
            let capture := fst (spanNotSemi r2) in
            if nonEmpty capture then Some capture else None
        | None => None
        end
      else None
  | None => None
  end.

(** The leftmost position where [m] matches. *)
Fixpoint search {A : Type} (m : string -> option A) (s : string) : option A :=
  match m s with
  | Some a => Some a
  | None =>
      match s with
      | EmptyString => None
      | String _ s' => search m s'
      end
  end.

End RegExpModel.

(** ** Data model *)

Module Category.
Inductive t : Type := functional | analytics | performance | advertising | uncategorized.
End Category.

Module Cookie.
Record t : Type := { name : string; duration : string; description : string }.
End Cookie.

Module Snapshot.
Record t : Type := {
  functional : list Cookie.t;
  analytics : list Cookie.t;
  performance : list Cookie.t;
  advertising : list Cookie.t;
  uncategorized : list Cookie.t
}.

Definition empty : t := Build_t [] [] [] [] [].

(** [result[category]] *)
Definition get (r : t) (c : Category.t) : list Cookie.t :=
  match c with
  | Category.functional => functional r
  | Category.analytics => analytics r
  | Category.performance => performance r
  | Category.advertising => advertising r
  | Category.uncategorized => uncategorized r
  end.

(** [result[category].push(x)] *)
Definition push (r : t) (c : Category.t) (x : Cookie.t) : t :=
  match c with
  | Category.functional =>
      Build_t (functional r ++ [x]) (analytics r) (performance r) (advertising r) (uncategorized r)
  | Category.analytics =>
      Build_t (functional r) (analytics r ++ [x]) (performance r) (advertising r) (uncategorized r)
  | Category.performance =>
      Build_t (functional r) (analytics r) (performance r ++ [x]) (advertising r) (uncategorized r)
  | Category.advertising =>
      Build_t (functional r) (analytics r) (performance r) (advertising r ++ [x]) (uncategorized r)
  | Category.uncategorized =>
      Build_t (functional r) (analytics r) (performance r) (advertising r) (uncategorized r ++ [x])
  end.
End Snapshot.

Module Decision.
Inductive Status : Type := accepted | rejected | custom.
Inductive Signal : Type := G111 | G100 | G101.

Record Categories : Type := {
  functional : bool;
  analytics : bool;
  performance : bool;
  advertising : bool;
  uncategorized : bool
}.

(** A ConsentDecision: the object the three writers build. *)
Record t : Type := {
  status : Status;
  gcs : Signal;
  categories : Categories;
  timestamp : Z
}.

Definition statusName (s : Status) : string :=
  match s with
  | accepted => "accepted"
  | rejected => "rejected"
  | custom => "custom"
  end.

Definition signalName (g : Signal) : string :=
  match g with
  | G111 => "G111"
  | G100 => "G100"
  | G101 => "G101"
  end.

(** The object literal, property by property in source order. *)
Definition toValue (d : t) : Json.value :=
  Json.VObj [
    ("status", Json.VStr (statusName (status d)));
    ("gcs", Json.VStr (signalName (gcs d)));
    ("categories", Json.VObj [
       ("functional", Json.VBool (functional (categories d)));
       ("analytics", Json.VBool (analytics (categories d)));
       ("performance", Json.VBool (performance (categories d)));
       ("advertising", Json.VBool (advertising (categories d)));
       ("uncategorized", Json.VBool (uncategorized (categories d)))]);
    ("timestamp", Json.VNum (timestamp d) 0)].

(** Time values of [Date]: integers of magnitude at most 8.64e15. *)
Definition timeValue (z : Z) : bool := (Z.abs z <=? 8640000000000000)%Z.

(** The spec's table: accepted, rejected, custom to G111, G100, G101. *)
Definition signalFor (s : Status) : Signal :=
  match s with
  | accepted => G111
  | rejected => G100
  | custom => G101
  end.
End Decision.

(** ** The pattern database and the scanner *)

(** [cookieDatabase], in the insertion order [for ... in] enumerates. *)
Definition cookieDatabase : list (string * Category.t) := [
  ("_ga", Category.analytics);
  ("_gid", Category.analytics);
  ("_gat", Category.analytics);
  ("_ga_", Category.analytics);
  ("_dc_gtm_", Category.analytics);
  ("_gac_", Category.analytics);
  ("_fbp", Category.advertising);
  ("fr", Category.advertising);
  ("xs", Category.advertising);
  ("sb", Category.advertising);
  ("datr", Category.advertising);
  ("wordpress_", Category.functional);
  ("wp-settings", Category.functional);
  ("PHPSESSID", Category.functional);
  ("wordpress_logged_in", Category.functional);
  ("wordpress_test_cookie", Category.functional);
  ("wp-saving-post", Category.functional);
  ("__utma", Category.performance);
  ("__utmb", Category.performance);
  ("__utmc", Category.performance);
  ("__utmt", Category.performance);
  ("__utmz", Category.performance);
  ("__utmv", Category.performance);
  ("_hj", Category.performance);
  ("_gcl_au", Category.advertising);
  ("_gcl_aw", Category.advertising);
  ("_gcl_dc", Category.advertising);
  ("IDE", Category.advertising);
  ("test_cookie", Category.advertising);
  ("NID", Category.advertising)
].

(** The [for (const pattern in cookieDatabase)] loop with its [break]: the
    category of the first pattern the name includes. *)
Fixpoint firstMatch (db : list (string * Category.t)) (name : string)
  : option Category.t :=
  match db with
  | [] => None
  | (pattern, category) :: rest =>
      if JsString.includes name pattern then Some category
      else firstMatch rest name
  end.

(** [getCookieDuration(name)]: Session when the first expression finds
    nothing or the second finds no [expires] text, otherwise Persistent or
    Expired by comparing the date read from that text with the clock; an
    invalid date is not later than any date. *)
Definition getCookieDuration (h : Host) (now : Z) (documentCookie name : string)
  : Completion string :=
  match RegExpModel.classify name with
  | RegExpModel.Literal =>
      match RegExpModel.search (RegExpModel.cookieAt name) documentCookie with
      | None => Normal "Session"
      | Some _ =>
          match RegExpModel.search (RegExpModel.expiresAt name) documentCookie with
          | Some text =>
              match dateParse h text with
              | Some t => Normal (if (now <? t)%Z then "Persistent" else "Expired")
              | None => Normal "Expired"
              end
          | None => Normal "Session"
          end
      end
  | RegExpModel.UnterminatedGroup => Throw SyntaxError
  | RegExpModel.Unmodelled => OutOfModel
  end.

Definition descriptions : list (string * string) := [
  ("_ga", "Google Analytics cookie used to distinguish users (2 years)");
  ("_gid", "Google Analytics cookie used to distinguish users (24 hours)");
  ("_gat", "Google Analytics cookie used to throttle request rate (1 minute)");
  ("_fbp", "Facebook Pixel cookie used to track conversions (3 months)");
  ("fr", "Facebook cookie used to deliver a series of advertisement products (3 months)");
  ("wordpress_logged_in", "WordPress cookie indicating when you're logged in (session)");
  ("wordpress_test_cookie", "WordPress test cookie to check if cookies are enabled (session)");
  ("PHPSESSID", "PHP session cookie essential for website functionality (session)");
  ("NID", "Google advertising cookie used for user tracking (6 months)");
  ("IDE", "Google DoubleClick advertising cookie (1 year)")
].

(** [descriptions[name] || 'No description available']: every description
    is a non-empty string, and no name that contains a pattern of the database
    is the name of a property objects inherit. *)
Definition getCookieDescription (name : string) : string :=
  match CookieJar.find name descriptions with
  | Some d => d
  | None => "No description available"
  end.

(** The callback of [cookies.forEach]. *)
Definition scanCookie (h : Host) (now : Z) (documentCookie : string)
  (result : Snapshot.t) (cookie : string) : Completion Snapshot.t :=
  let name := hd EmptyString (JsString.split "="%char (JsString.trim cookie)) in
  match firstMatch cookieDatabase name with
  | Some category =>
      d <- getCookieDuration h now documentCookie name ;;
      Normal (Snapshot.push result category
                (Cookie.Build_t name d (getCookieDescription name)))
  | None =>
      if JsString.nonEmpty name then
        d <- getCookieDuration h now documentCookie name ;;
        Normal (Snapshot.push result Category.uncategorized
                  (Cookie.Build_t name d "Unknown cookie purpose"))
      else Normal result
  end.

(** [scanAndCategorizeCookies()] over the pieces of [document.cookie]. *)
Definition scanAndCategorizeCookies (h : Host) (now : Z) (documentCookie : string)
  : Completion Snapshot.t :=
  forEach (scanCookie h now documentCookie)
          (JsString.split ";"%char documentCookie) Snapshot.empty.

(** ** Page state

    The clock reads a time value of [Date], as [new Date().getTime()] does.
    [secureOrigin] tells whether the page comes from a secure origin;
    [scripts] lists the script elements of the document, in document order. *)

(** The elements [injectConsentHTML] creates, as far as the script reads or
    writes them.  The uncategorized toggle exists only when it was rendered. *)
Record Widget : Type := {
  bannerDisplay : string;
  modalDisplay : string;
  functionalChecked : bool;
  analyticsChecked : bool;
  performanceChecked : bool;
  advertisingChecked : bool;
  uncategorizedChecked : option bool;
  listening : bool
}.

Record World : Type := {
  jar : CookieJar.t;
  secureOrigin : bool;
  dataLayer : list Json.value;
  console : list (list Json.value);
  widget : option Widget;
  gaDefined : bool;
  fbq : option (list (list Json.value));
  scripts : list string;
  loaderCalls : list Category.t;
  now : Z;
  nowValid : Decision.timeValue now = true
}.

Definition withJar (w : World) (j : CookieJar.t) : World :=
  Build_World j (secureOrigin w) (dataLayer w) (console w) (widget w) (gaDefined w) (fbq w)
              (scripts w) (loaderCalls w) (now w) (nowValid w).

Definition withDataLayer (w : World) (d : list Json.value) : World :=
  Build_World (jar w) (secureOrigin w) d (console w) (widget w) (gaDefined w) (fbq w)
              (scripts w) (loaderCalls w) (now w) (nowValid w).

Definition withConsole (w : World) (c : list (list Json.value)) : World :=
  Build_World (jar w) (secureOrigin w) (dataLayer w) c (widget w) (gaDefined w) (fbq w)
              (scripts w) (loaderCalls w) (now w) (nowValid w).

Definition withWidget (w : World) (x : option Widget) : World :=
  Build_World (jar w) (secureOrigin w) (dataLayer w) (console w) x (gaDefined w) (fbq w)
              (scripts w) (loaderCalls w) (now w) (nowValid w).

Definition withFbq (w : World) (q : option (list (list Json.value))) (s : list string)
  : World :=
  Build_World (jar w) (secureOrigin w) (dataLayer w) (console w) (widget w) (gaDefined w) q
              s (loaderCalls w) (now w) (nowValid w).

Definition withLoaderCalls (w : World) (l : list Category.t) : World :=
  Build_World (jar w) (secureOrigin w) (dataLayer w) (console w) (widget w) (gaDefined w) (fbq w)
              (scripts w) l (now w) (nowValid w).

(** [console.log(...args)] *)
Definition consoleLog (w : World) (args : list Json.value) : World :=
  withConsole w (console w ++ [args]).

(** [function gtag() { dataLayer.push(arguments); }] *)
Definition gtag (w : World) (args : list Json.value) : World :=
  withDataLayer w (dataLayer w ++ [Json.VArr args]).

(** An element access on the widget; before the markup is injected
    [getElementById] and [querySelector] return [null] and the access throws. *)
Definition onWidget (w : World) (f : Widget -> Widget) : Completion World :=
  match widget w with
  | Some x => Normal (withWidget w (Some (f x)))
  | None => Throw TypeError
  end.

Definition setBannerDisplay (v : string) (x : Widget) : Widget :=
  Build_Widget v (modalDisplay x) (functionalChecked x) (analyticsChecked x)
               (performanceChecked x) (advertisingChecked x)
               (uncategorizedChecked x) (listening x).

Definition setModalDisplay (v : string) (x : Widget) : Widget :=
  Build_Widget (bannerDisplay x) v (functionalChecked x) (analyticsChecked x)
               (performanceChecked x) (advertisingChecked x)
               (uncategorizedChecked x) (listening x).

Definition setListening (x : Widget) : Widget :=
  Build_Widget (bannerDisplay x) (modalDisplay x) (functionalChecked x)
               (analyticsChecked x) (performanceChecked x) (advertisingChecked x)
               (uncategorizedChecked x) true.

Definition setToggles (a p d : bool) (u : option bool) (x : Widget) : Widget :=
  Build_Widget (bannerDisplay x) (modalDisplay x) (functionalChecked x) a p d
               u (listening x).

(** The elements of the markup as the parser builds them from a template
    whose interpolated texts hold no markup: the functional toggle checked,
    the others unchecked, the uncategorized row when it is rendered. *)
Definition plainWidget (uncategorizedRow : bool) : Widget := {|
  bannerDisplay := EmptyString;
  modalDisplay := EmptyString;
  functionalChecked := true;
  analyticsChecked := false;
  performanceChecked := false;
  advertisingChecked := false;
  uncategorizedChecked := if uncategorizedRow then Some false else None;
  listening := false
|}.

(** The three texts [generateCookieTable] pastes into a row hold no [<]:
    the parser reads them as text. *)
Definition plainText (cookie : Cookie.t) : bool :=
  negb (JsString.hasChar "<" (Cookie.name cookie)) &&
  negb (JsString.hasChar "<" (Cookie.duration cookie)) &&
  negb (JsString.hasChar "<" (Cookie.description cookie)).

Definition markupFree (detectedCookies : Snapshot.t) : bool :=
  forallb plainText (Snapshot.functional detectedCookies) &&
  forallb plainText (Snapshot.analytics detectedCookies) &&
  forallb plainText (Snapshot.performance detectedCookies) &&
  forallb plainText (Snapshot.advertising detectedCookies) &&
  forallb plainText (Snapshot.uncategorized detectedCookies).

(** The elements the markup of [injectConsentHTML] gives.  The cookie
    texts are pasted into it unescaped: one that holds a [<] changes the
    element tree in ways the model does not follow. *)
Definition freshWidget (detectedCookies : Snapshot.t) : Completion Widget :=
  if markupFree detectedCookies then
    Normal (plainWidget
              (Nat.ltb 0 (List.length (Snapshot.uncategorized detectedCookies))))
  else OutOfModel.

(** [injectConsentHTML(detectedCookies)] on a page without the markup: a
    document with a body that has no element with one of the ids, the class
    or the [data-category] attributes the script looks up.  On a page that
    has the markup already the new copy would stand behind the old one, with
    elements of the same ids: that page is outside the model. *)
Definition injectConsentHTML (w : World) (detectedCookies : Snapshot.t)
  : Completion World :=
  match widget w with
  | Some _ => OutOfModel
  | None =>
      x <- freshWidget detectedCookies ;;
      Normal (withWidget w (Some x))
  end.

(** ** The script *)

Import Json.

(** The statements that run when the script is loaded: the default consent. *)
Definition defaultConsent : value :=
  VObj [
    ("ad_storage", VStr "denied");
    ("analytics_storage", VStr "denied");
    ("ad_user_data", VStr "denied");
    ("ad_personalization", VStr "denied");
    ("personalization_storage", VStr "denied");
    ("functionality_storage", VStr "granted");
    ("security_storage", VStr "granted")].

Definition scriptStart (w : World) : World :=
  gtag w [VStr "consent"; VStr "default"; defaultConsent].

(** [setCookie(name, value, days)]: [value || ""] is [value], and the
    [expires] attribute is left out only for [days] zero. *)
Definition setCookie (h : Host) (w : World) (name value : string) (days : Z)
  : Completion World :=
  let expires :=
    if (days =? 0)%Z then EmptyString
    else "; expires=" ++ toUTCString h (now w + days * 24 * 60 * 60 * 1000) in
  j <- CookieJar.assign (secureOrigin w) (cookieDate h) (now w) (jar w)
         (name ++ "=" ++ value ++ expires ++ "; path=/; SameSite=Lax; Secure") ;;
  Normal (withJar w j).

(** [while (c.charAt(0) === ' ') c = c.substring(1, c.length)] *)
Fixpoint stripSpaces (c : string) : string :=
  match c with
  | EmptyString => EmptyString
  | String a c' => if Ascii.eqb a " "%char then stripSpaces c' else c
  end.

(** The [for] loop of [getCookie] over the pieces of [document.cookie]. *)
Fixpoint getCookieLoop (nameEQ : string) (ca : list string) : option string :=
  match ca with
  | [] => None
  | c :: rest =>
      let c' := stripSpaces c in
      if JsString.startsWith c' nameEQ
      then Some (JsString.substringFrom (String.length nameEQ) c')
      else getCookieLoop nameEQ rest
  end.

(** [getCookie(name)]; [None] is [null]. *)
Definition getCookie (w : World) (name : string) : option string :=
  getCookieLoop (name ++ "=") (JsString.split ";"%char (CookieJar.read (jar w))).

(** [consentData.categories.k] *)
Definition categoryOf (consentData : value) (k : string) : Completion value :=
  c <- get consentData "categories" ;; get c k.

(** [v ? 'granted' : 'denied'] *)
Definition grant (v : value) : value :=
  VStr (if truthy v then "granted" else "denied").

(** The [consentStates] literal of [updateConsentMode]; its property values
    are evaluated in source order. *)
Definition consentStatesOf (consentData : value) : Completion value :=
  ad_storage <- categoryOf consentData "advertising" ;;
  analytics_storage <- categoryOf consentData "analytics" ;;
  ad_user_data <- categoryOf consentData "advertising" ;;
  ad_personalization <- categoryOf consentData "advertising" ;;
  personalization_storage <- categoryOf consentData "performance" ;;
  Normal (VObj [
    ("ad_storage", grant ad_storage);
    ("analytics_storage", grant analytics_storage);
    ("ad_user_data", grant ad_user_data);
    ("ad_personalization", grant ad_personalization);
    ("personalization_storage", grant personalization_storage);
    ("functionality_storage", VStr "granted");
    ("security_storage", VStr "granted")]).

(** The [gcsSignal] variable: G100 unless the status is [accepted] or
    [custom]. *)
Definition gcsSignalOf (consentData : value) : Completion string :=
  s1 <- get consentData "status" ;;
  if strictEqStr s1 "accepted" then Normal "G111"
  else
    s2 <- get consentData "status" ;;
    if strictEqStr s2 "custom" then Normal "G101" else Normal "G100".

(** The record pushed on [window.dataLayer]. *)
Definition consentUpdateEvent (consentStates : value) (gcsSignal timestamp : string)
  : value :=
  VObj [
    ("event", VStr "cookie_consent_update");
    ("consent_mode", consentStates);
    ("gcs", VStr gcsSignal);
    ("timestamp", VStr timestamp)].

(** [updateConsentMode(consentData)]; [window.dataLayer] is the array the
    script set up when it was loaded, so the guard around the second push
    holds. *)
Definition updateConsentMode (h : Host) (w : World) (consentData : value)
  : Completion World :=
  consentStates <- consentStatesOf consentData ;;
  let w1 := gtag w [VStr "consent"; VStr "update"; consentStates] in
  gcsSignal <- gcsSignalOf consentData ;;
  let w2 := withDataLayer w1
              (dataLayer w1 ++
               [consentUpdateEvent consentStates gcsSignal (toISOString h (now w1))]) in
  let w3 := consoleLog w2 [VStr "Consent Mode Updated:"; consentStates] in
  Normal (consoleLog w3 [VStr "GCS Signal Sent:"; VStr gcsSignal]).

(** The three loaders.  Each writes its console line; [loaderCalls] keeps
    the order in which they were called.  [loadAnalyticsCookies] makes its
    two [gtag] calls unless [ga] is defined ([gtag] is this script's own
    function).  [loadAdvertisingCookies] sets up the pixel unless [fbq] is
    defined: it takes the first script element of the document and inserts
    the new one before it, then queues the two calls; in a document without
    a script element there is no first one, and reading its parent throws. *)
Definition loadAnalyticsCookies (w : World) : World :=
  let w1 := consoleLog w [VStr "Loading analytics cookies"] in
  let w2 := withLoaderCalls w1 (loaderCalls w1 ++ [Category.analytics]) in
  if gaDefined w2 then w2
  else gtag (gtag w2 [VStr "js"; VDate (now w2)])
            [VStr "config"; VStr "YOUR_GA4_MEASUREMENT_ID"].

Definition pixelScript : string := "https://connect.facebook.net/en_US/fbevents.js".

Definition pixelQueue : list (list value) :=
  [[VStr "init"; VStr "YOUR_PIXEL_ID"]; [VStr "track"; VStr "PageView"]].

Definition loadAdvertisingCookies (w : World) : Completion World :=
  let w1 := consoleLog w [VStr "Loading advertising cookies"] in
  let w2 := withLoaderCalls w1 (loaderCalls w1 ++ [Category.advertising]) in
  match fbq w2 with
  | Some _ => Normal w2
  | None =>
      match scripts w2 with
      | [] => Throw TypeError
      | _ :: _ => Normal (withFbq w2 (Some pixelQueue) (pixelScript :: scripts w2))
      end
  end.

Definition loadPerformanceCookies (w : World) : World :=
  let w1 := consoleLog w [VStr "Loading performance cookies"] in
  withLoaderCalls w1 (loaderCalls w1 ++ [Category.performance]).

(** [loadCookiesAccordingToConsent(consentData)] *)
Definition loadCookiesAccordingToConsent (w : World) (consentData : value)
  : Completion World :=
  a <- categoryOf consentData "analytics" ;;
  let w1 := if truthy a then loadAnalyticsCookies w else w in
  d <- categoryOf consentData "advertising" ;;
  w2 <- (if truthy d then loadAdvertisingCookies w1 else Normal w1) ;;
  p <- categoryOf consentData "performance" ;;
  Normal (if truthy p then loadPerformanceCookies w2 else w2).

(** The display switches: [element.style.display = ...]. *)
Definition showCookieBanner (w : World) : Completion World :=
  onWidget w (setBannerDisplay "block").

Definition hideCookieBanner (w : World) : Completion World :=
  onWidget w (setBannerDisplay "none").

Definition hideCookieSettings (w : World) : Completion World :=
  onWidget w (setModalDisplay "none").

(** The object literals of the three writers. *)
Definition acceptAllData (now : Z) : Decision.t :=
  Decision.Build_t Decision.accepted Decision.G111
    (Decision.Build_Categories true true true true true) now.

Definition rejectAllData (now : Z) : Decision.t :=
  Decision.Build_t Decision.rejected Decision.G100
    (Decision.Build_Categories true false false false false) now.

(** The literal of [saveCustomSettings] reads the three toggles that always
    exist and the uncategorized one when it exists. *)
Definition customData (x : Widget) (now : Z) : Decision.t :=
  Decision.Build_t Decision.custom Decision.G101
    (Decision.Build_Categories true
       (analyticsChecked x) (performanceChecked x) (advertisingChecked x)
       (match uncategorizedChecked x with
        | Some checked => checked
        | None => false
        end))
    now.

(** [setCookie('cookie_consent', JSON.stringify(consentData), 365)] *)
Definition persist (h : Host) (w : World) (consentData : value) : Completion World :=
  text <- JsonPrint.stringify consentData ;;
  setCookie h w "cookie_consent" text 365.

Definition acceptAllCookies (h : Host) (w : World) : Completion World :=
  let consentData := Decision.toValue (acceptAllData (now w)) in
  w1 <- persist h w consentData ;;
  w2 <- updateConsentMode h w1 consentData ;;
  loadCookiesAccordingToConsent w2 consentData.

Definition rejectAllCookies (h : Host) (w : World) : Completion World :=
  let consentData := Decision.toValue (rejectAllData (now w)) in
  w1 <- persist h w consentData ;;
  updateConsentMode h w1 consentData.

Definition saveCustomSettings (h : Host) (w : World) : Completion World :=
  match widget w with
  | None => Throw TypeError
  | Some x =>
      let consentData := Decision.toValue (customData x (now w)) in
      w1 <- persist h w consentData ;;
      w2 <- updateConsentMode h w1 consentData ;;
      loadCookiesAccordingToConsent w2 consentData
  end.

(** [input.checked = v] stores ToBoolean of [v]. *)
Definition showCookieSettings (w : World) : Completion World :=
  w1 <- onWidget w (setModalDisplay "block") ;;
  w2 <- hideCookieBanner w1 ;;
  match getCookie w2 "cookie_consent" with
  | Some consent =>
      if JsString.nonEmpty consent then
        consentData <- parse consent ;;
        a <- categoryOf consentData "analytics" ;;
        p <- categoryOf consentData "performance" ;;
        d <- categoryOf consentData "advertising" ;;
        match widget w2 with
        | None => Throw TypeError
        | Some x =>
            match uncategorizedChecked x with
            | Some _ =>
                u <- categoryOf consentData "uncategorized" ;;
                Normal (withWidget w2
                  (Some (setToggles (truthy a) (truthy p) (truthy d) (Some (truthy u)) x)))
            | None =>
                Normal (withWidget w2
                  (Some (setToggles (truthy a) (truthy p) (truthy d) None x)))
            end
        end
      else Normal w2
  | None => Normal w2
  end.

Inductive Button : Type :=
| acceptAllBtn | rejectAllBtn | adjustConsentBtn
| acceptAllSettingsBtn | rejectAllSettingsBtn | saveSettingsBtn | closeModal.

(** The listeners [initializeCookieConsent] registers. *)
Definition listener (h : Host) (b : Button) (w : World) : Completion World :=
  match b with
  | acceptAllBtn => w1 <- acceptAllCookies h w ;; hideCookieBanner w1
  | rejectAllBtn => w1 <- rejectAllCookies h w ;; hideCookieBanner w1
  | adjustConsentBtn => showCookieSettings w
  | acceptAllSettingsBtn => w1 <- acceptAllCookies h w ;; hideCookieSettings w1
  | rejectAllSettingsBtn => w1 <- rejectAllCookies h w ;; hideCookieSettings w1
  | saveSettingsBtn => w1 <- saveCustomSettings h w ;; hideCookieSettings w1
  | closeModal => w1 <- hideCookieSettings w ;; showCookieBanner w1
  end.

(** A click reaches a listener only once the listeners are registered. *)
Definition click (h : Host) (b : Button) (w : World) : Completion World :=
  match widget w with
  | Some x => if listening x then listener h b w else Normal w
  | None => Normal w
  end.

Definition initializeCookieConsent (h : Host) (w : World) : Completion World :=
  w1 <- match getCookie w "cookie_consent" with
        | None => showCookieBanner w
        | Some consentGiven =>
            if JsString.nonEmpty consentGiven then
              consentData <- parse consentGiven ;;
              w' <- updateConsentMode h w consentData ;;
              loadCookiesAccordingToConsent w' consentData
            else showCookieBanner w
        end ;;
  onWidget w1 setListening.

(** The loaders a decision calls for, in call order. *)
Definition loadersOf (c : Decision.Categories) : list Category.t :=
  ((if Decision.analytics c then [Category.analytics] else []) ++
   (if Decision.advertising c then [Category.advertising] else []) ++
   (if Decision.performance c then [Category.performance] else []))%list.

(** The decision the store holds: the [cookie_consent] cookie, parsed. *)
Definition persisted (w : World) : option value :=
  match CookieJar.find "cookie_consent" (jar w) with
  | Some text =>
      match parse text with
      | Normal v => Some v
      | _ => None
      end
  | None => None
  end.

(** The [gcs] property of the last record on the data layer. *)
Definition emittedGcs (c : Completion World) : option value :=
  match c with
  | Normal w =>
      match last (dataLayer w) VUndefined with
      | VObj fields => lookup "gcs" fields
      | _ => None
      end
  | _ => None
  end.

(** A property of the persisted decision's [categories] after a call. *)
Definition persistedCategory (k : string) (c : Completion World) : option value :=
  match c with
  | Normal w =>
      match persisted w with
      | Some v =>
          match categoryOf v k with
          | Normal x => Some x
          | _ => None
          end
      | None => None
      end
  | _ => None
  end.

(** The persisted decision's [categories] after a call. *)
Definition persistedCategories (c : Completion World) : option value :=
  match c with
  | Normal w =>
      match persisted w with
      | Some v =>
          match get v "categories" with
          | Normal x => Some x
          | _ => None
          end
      | None => None
      end
  | _ => None
  end.

(** Reading the consent map a call computed. *)
Definition granted (cs : list (string * value)) (k : string) : Prop :=
  lookup k cs = Some (VStr "granted").

Definition denied (cs : list (string * value)) (k : string) : Prop :=
  lookup k cs = Some (VStr "denied").

(** The key [k] is granted exactly when [b] holds, and denied otherwise. *)
Definition grantedIff (cs : list (string * value)) (k : string) (b : bool) : Prop :=
  (granted cs k <-> b = true) /\ (denied cs k <-> b = false).

(** A parsed value on which [consentData.categories.k] throws. *)
Definition lacksCategories (v : value) : bool :=
  match get v "categories" with
  | Throw _ | Normal VUndefined | Normal VNull => true
  | _ => false
  end.

(** A page of a secure origin with the markup injected, the element of
    this script in the document, an empty store and nothing loaded. *)
Definition samplePage : World := {|
  jar := [];
  secureOrigin := true;
  dataLayer := [];
  console := [];
  widget := Some (plainWidget false);
  gaDefined := false;
  fbq := None;
  scripts := ["cookie-consent.js"];
  loaderCalls := [];
  now := 1730550000000;
  nowValid := eq_refl
|}.

(** The same page with a consent cookie that is not JSON. *)
Definition malformedPage : World := {|
  jar := [("cookie_consent", "{oops")];
  secureOrigin := true;
  dataLayer := [];
  console := [];
  widget := Some (plainWidget false);
  gaDefined := false;
  fbq := None;
  scripts := ["cookie-consent.js"];
  loaderCalls := [];
  now := 1730550000000;
  nowValid := eq_refl
|}.

(** The [DOMContentLoaded] listener. *)
Definition onDOMContentLoaded (h : Host) (w : World) : Completion World :=
  detectedCookies <- scanAndCategorizeCookies h (now w) (CookieJar.read (jar w)) ;;
  w1 <- injectConsentHTML w detectedCookies ;;
  initializeCookieConsent h w1.

(** ** The cookie table of the preferences panel *)

Definition newline : string := String "010" EmptyString.

(** The lines of a template literal, joined by the line breaks between
    them. *)
Definition lines (l : list string) : string := JsString.join newline l.

(** An attribute value between its double quotes. *)
Definition quoted (s : string) : string :=
  String quoteChar (s ++ String quoteChar EmptyString).

Definition noCookiesDetected : string :=
  "<p class=" ++ quoted "no-cookies" ++ ">No cookies in this category detected.</p>".

Definition tableOpening : string := lines [
  "";
  "    <div class=" ++ quoted "cookie-table-container" ++ ">";
  "        <table class=" ++ quoted "cookie-details" ++ ">";
  "            <thead>";
  "                <tr>";
  "                    <th>Cookie Name</th>";
  "                    <th>Duration</th>";
  "                    <th>Description</th>";
  "                </tr>";
  "            </thead>";
  "            <tbody>"].

(** The text one pass of [cookies.forEach] appends. *)
Definition tableRow (cookie : Cookie.t) : string := lines [
  "";
  "            <tr>";
  "                <td><code>" ++ Cookie.name cookie ++ "</code></td>";
  "                <td>" ++ Cookie.duration cookie ++ "</td>";
  "                <td>" ++ Cookie.description cookie ++ "</td>";
  "            </tr>"].

Definition tableClosing : string := lines [
  "";
  "            </tbody>";
  "        </table>";
  "    </div>"].

(** [generateCookieTable(cookies)]: the fixed paragraph for an empty list,
    otherwise [html] grows by one row per cookie and then by the closing
    tags. *)
Definition generateCookieTable (cookies : list Cookie.t) : string :=
  match cookies with
  | [] => noCookiesDetected
  | _ :: _ =>
      fold_left (fun html cookie => html ++ tableRow cookie) cookies tableOpening
      ++ tableClosing
  end.

(** The rows of a table, one after the other. *)
Definition tableRows (cookies : list Cookie.t) : string :=
  fold_right (fun cookie html => tableRow cookie ++ html) EmptyString cookies.

(** ** Vocabulary of the statements about the scanner *)

Definition categoryEqb (a b : Category.t) : bool :=
  match a, b with
  | Category.functional, Category.functional
  | Category.analytics, Category.analytics
  | Category.performance, Category.performance
  | Category.advertising, Category.advertising
  | Category.uncategorized, Category.uncategorized => true
  | _, _ => false
  end.

(** The sequence the scanner appends a name to. *)
Definition categoryFor (name : string) : Category.t :=
  match firstMatch cookieDatabase name with
  | Some c => c
  | None => Category.uncategorized
  end.

(** The description the scanner records for a name. *)
Definition descriptionFor (name : string) : string :=
  match firstMatch cookieDatabase name with
  | Some _ => getCookieDescription name
  | None => "Unknown cookie purpose"
  end.

(** A name that is not empty and does not begin with white space:
    [cookie.trim()] leaves it alone. *)
Definition startsClean (name : string) : bool :=
  match name with
  | EmptyString => false
  | String c _ => negb (JsString.isWhiteSpace c)
  end.

(** A stored cookie whose name comes back unchanged from the scanner's
    parsing and has no syntax character of the pattern grammar. *)
Definition scannable (p : string * string) : bool :=
  startsClean (fst p) &&
  RegExpModel.allChars (fun c => negb (RegExpModel.syntaxCharacter c)) (fst p).

(** The names of the store the scanner files under [c], in store order. *)
Definition namesIn (c : Category.t) (j : CookieJar.t) : list string :=
  filter (fun n => categoryEqb (categoryFor n) c) (map fst j).

(** A record of the snapshot describes the stored cookie [n]. *)
Definition describes (h : Host) (now : Z) (documentCookie : string)
  (x : Cookie.t) (n : string) : Prop :=
  Cookie.name x = n /\
  Cookie.description x = descriptionFor n /\
  getCookieDuration h now documentCookie n = Normal (Cookie.duration x).

(** ** Vocabulary of the statements about the cookie accessors *)

(** A name and a value [setCookie] stores as they are: printable ASCII
    text without semicolon and without blank at either end, the name not
    empty and without equals sign. *)
Definition storableName (name : string) : bool :=
  JsString.nonEmpty name && CookieJar.printableAscii name &&
  negb (JsString.hasChar ";" name) && negb (JsString.hasChar "=" name) &&
  String.eqb (CookieJar.trimWsp name) name.

Definition storableValue (value : string) : bool :=
  CookieJar.printableAscii value && negb (JsString.hasChar ";" value) &&
  String.eqb (CookieJar.trimWsp value) value.

(** The names every object inherits. *)
Definition inheritedNames : list string := [
  "constructor"; "hasOwnProperty"; "isPrototypeOf"; "propertyIsEnumerable";
  "toLocaleString"; "toString"; "valueOf"; "__proto__";
  "__defineGetter__"; "__defineSetter__"; "__lookupGetter__"; "__lookupSetter__"
].

(** ** Sessions

    A visitor's clicks, one after the other; a click that throws ends the
    run. *)
Definition clicks (h : Host) (bs : list Button) (w : World) : Completion World :=
  forEach (fun w' b => click h b w') bs w.

(** The value of a completion that returned. *)
Definition valueOr {A : Type} (c : Completion A) (default : A) : A :=
  match c with
  | Normal a => a
  | _ => default
  end.

(** The consent cookie is absent, or holds the text of a decision. *)
Definition consentStored (w : World) : Prop :=
  CookieJar.find "cookie_consent" (jar w) = None \/
  exists d : Decision.t,
    Decision.timeValue (Decision.timestamp d) = true /\
    CookieJar.find "cookie_consent" (jar w)
    = Some (JsonPrint.render (Decision.toValue d)).

(** [loadAdvertisingCookies] can run to its end: [fbq] is defined, or the
    document has a script element to insert the pixel before. *)
Definition pixelReady (w : World) : bool :=
  match fbq w, scripts w with
  | None, [] => false
  | _, _ => true
  end.

(** The loaders a decision calls for can run to their end on the page. *)
Definition loadable (c : Decision.Categories) (w : World) : bool :=
  negb (Decision.advertising c) || pixelReady w.

(** From [w] to [w'] the pixel was left alone, or set up once: its script
    element inserted before the first script of the document, its queue
    holding the two calls. *)
Definition pixelStep (w w' : World) : Prop :=
  (fbq w' = fbq w /\ scripts w' = scripts w) \/
  (fbq w = None /\ fbq w' = Some pixelQueue /\
   scripts w' = pixelScript :: scripts w).

(** From [w] to [w'] the data layer only received pushes. *)
Definition grows (w w' : World) : Prop :=
  exists pushed, dataLayer w' = (dataLayer w ++ pushed)%list.

Definition advances (w w' : World) : Prop := grows w w' /\ pixelStep w w'.

(** From [w] to [w'] nothing changed but the widget. *)
Definition sameRecords (w w' : World) : Prop :=
  jar w' = jar w /\ dataLayer w' = dataLayer w /\ console w' = console w /\
  fbq w' = fbq w /\ scripts w' = scripts w /\ loaderCalls w' = loaderCalls w.

(** The cookie texts of a store hold no [<]. *)
Definition plainNames (j : CookieJar.t) : bool :=
  forallb (fun p => negb (JsString.hasChar "<" (fst p))) j.

(** The toggles of the panel after [showCookieSettings] has read a stored
    decision: the three optional categories as stored, the uncategorized one
    when the toggle exists. *)
Definition togglesOf (d : Decision.t) (x : Widget) : Widget :=
  setToggles (Decision.analytics (Decision.categories d))
             (Decision.performance (Decision.categories d))
             (Decision.advertising (Decision.categories d))
             (option_map (fun _ => Decision.uncategorized (Decision.categories d))
                         (uncategorizedChecked x))
             x.

(** The panel open and the banner hidden. *)
Definition panelOpen (x : Widget) : Widget :=
  setBannerDisplay "none" (setModalDisplay "block" x).

(** The script from its first statement on: the default consent, the
    [DOMContentLoaded] listener, then the visitor's clicks. *)
Definition session (h : Host) (bs : list Button) (w : World) : Completion World :=
  w1 <- onDOMContentLoaded h (scriptStart w) ;; clicks h bs w1.

(** A page before the markup is injected: an empty store, nothing loaded. *)
Definition blankPage : World := withWidget samplePage None.

(** * Properties *)

(** ** Strings *)

Module StringFacts.
Import JsString.

Lemma app_assoc (a b c : string) : (a ++ b) ++ c = a ++ (b ++ c).
Proof. induction a as [|x a IH]; simpl; [reflexivity | now rewrite IH]. Qed.

Lemma app_nil_r (a : string) : a ++ EmptyString = a.
Proof. induction a as [|x a IH]; simpl; [reflexivity | now rewrite IH]. Qed.

Lemma length_app (a b : string) :
  String.length (a ++ b) = String.length a + String.length b.
Proof. induction a as [|x a IH]; simpl; [reflexivity | now rewrite IH]. Qed.

Lemma startsWith_app (p r : string) : startsWith (p ++ r) p = true.
Proof.
  induction p as [|c p IH]; simpl; [reflexivity|].
  now rewrite Ascii.eqb_refl, IH.
Qed.

Lemma substringFrom_app (p r : string) :
  substringFrom (String.length p) (p ++ r) = r.
Proof. induction p as [|c p IH]; simpl; [now destruct r | exact IH]. Qed.

Lemma startsWith_inv (s p : string) :
  startsWith s p = true -> exists r, s = p ++ r.
Proof.
  revert s; induction p as [|c p IH]; intros s H; simpl in *.
  - now exists s.
  - destruct s as [|d s]; [discriminate|].
    apply andb_true_iff in H as [Hc Hp].
    apply Ascii.eqb_eq in Hc; subst d.
    destruct (IH _ Hp) as [r ->]. now exists r.
Qed.

Lemma includes_here (s p : string) :
  startsWith s p = true -> includes s p = true.
Proof. destruct s; simpl; intros ->; reflexivity. Qed.

(** [includes] decides the substring relation. *)
Lemma includes_spec (s p : string) :
  includes s p = true <-> Substring p s.
Proof.
  split.
  - induction s as [|c s IH]; simpl; intros H.
    + rewrite orb_false_r in H. apply startsWith_inv in H as [r E].
      exists EmptyString, r. exact E.
    + apply orb_true_iff in H as [H|H].
      * apply startsWith_inv in H as [r E]. exists EmptyString, r. exact E.
      * destruct (IH H) as (a & b & ->). now exists (String c a), b.
  - intros (a & b & ->).
    induction a as [|c a IH]; simpl.
    + apply includes_here, startsWith_app.
    + rewrite IH. apply orb_true_r.
Qed.

Lemma hasChar_app (c : ascii) (a b : string) :
  hasChar c (a ++ b) = hasChar c a || hasChar c b.
Proof.
  induction a as [|x a IH]; simpl; [reflexivity|].
  now rewrite IH, orb_assoc.
Qed.

End StringFacts.

(** ** JSON: numbers *)

Module NumberFacts.
Import Json JsonPrint StringFacts.

Lemma stripPrefix_app (p r : string) : stripPrefix p (p ++ r) = Some r.
Proof.
  induction p as [|c p IH]; simpl; [reflexivity|].
  now rewrite Ascii.eqb_refl.
Qed.

Lemma accUint_pos (u : Decimal.uint) (p : positive) :
  accUint u (Npos p) = Npos (Pos.of_uint_acc u p).
Proof.
  revert p; induction u as [|u IH|u IH|u IH|u IH|u IH|u IH|u IH|u IH|u IH|u IH];
    intros p; cbn [accUint Pos.of_uint_acc]; [reflexivity|..];
    rewrite <- IH; f_equal; lia.
Qed.

Lemma accUint_of_uint (u : Decimal.uint) : accUint u 0 = N.of_uint u.
Proof.
  induction u as [|u IH|u IH|u IH|u IH|u IH|u IH|u IH|u IH|u IH|u IH];
    simpl; [reflexivity|exact IH|..]; apply accUint_pos.
Qed.

Lemma digitsLoop_stop (acc : N) (cnt : nat) (rest : string) :
  noDigitAhead rest = true -> digitsLoop acc cnt rest = (acc, cnt, rest).
Proof.
  destruct rest as [|c r]; simpl; [reflexivity|].
  intros H. apply negb_true_iff in H. now rewrite H.
Qed.

Lemma digitsLoop_uint (u : Decimal.uint) :
  forall acc cnt rest, noDigitAhead rest = true ->
  exists cnt',
    digitsLoop acc cnt (DecimalString.NilEmpty.string_of_uint u ++ rest)
    = (accUint u acc, cnt', rest).
Proof.
  induction u as [|u IH|u IH|u IH|u IH|u IH|u IH|u IH|u IH|u IH|u IH];
    intros acc cnt rest H.
  - exists cnt. now apply digitsLoop_stop.
  - exact (IH (10 * acc + 0)%N (S cnt) rest H).
  - exact (IH (10 * acc + 1)%N (S cnt) rest H).
  - exact (IH (10 * acc + 2)%N (S cnt) rest H).
  - exact (IH (10 * acc + 3)%N (S cnt) rest H).
  - exact (IH (10 * acc + 4)%N (S cnt) rest H).
  - exact (IH (10 * acc + 5)%N (S cnt) rest H).
  - exact (IH (10 * acc + 6)%N (S cnt) rest H).
  - exact (IH (10 * acc + 7)%N (S cnt) rest H).
  - exact (IH (10 * acc + 8)%N (S cnt) rest H).
  - exact (IH (10 * acc + 9)%N (S cnt) rest H).
Qed.

(** The digits of a positive number do not start with a zero. *)
Lemma to_uint_head (p : positive) :
  match Pos.to_uint p with
  | Decimal.Nil | Decimal.D0 _ => False
  | _ => True
  end.
Proof.
  assert (E : Pos.to_uint p = Decimal.unorm (Pos.to_uint p)).
  { rewrite <- (DecimalPos.Unsigned.to_of (Pos.to_uint p)).
    now rewrite DecimalPos.Unsigned.of_to. }
  pose proof (DecimalPos.Unsigned.to_uint_nonzero p) as Hz.
  destruct (Pos.to_uint p) as [|u|u|u|u|u|u|u|u|u|u] eqn:Hu; try exact I.
  - discriminate E.
  - rewrite DecimalFacts.unorm_D0 in E. unfold Decimal.unorm in E.
    destruct (Decimal.nzhead u) eqn:Hn;
      try (symmetry in E; rewrite <- Hn in E;
           exact (DecimalFacts.nzhead_nonzero _ _ E)).
    injection E as E'. subst u. now apply Hz.
Qed.

Lemma intPart_printN (n : N) (rest : string) :
  noDigitAhead rest = true -> intPart (printN n ++ rest) = Some (n, rest).
Proof.
  intros H. destruct n as [|p]; [reflexivity|].
  unfold printN; simpl N.to_uint.
  pose proof (to_uint_head p) as Hh.
  pose proof (DecimalPos.Unsigned.of_to p) as Hp.
  destruct (Pos.to_uint p) as [|u|u|u|u|u|u|u|u|u|u] eqn:Hu; try contradiction;
    match goal with
    | |- context [DecimalString.NilZero.string_of_uint ?d] =>
        destruct (digitsLoop_uint d 0%N 0 rest H) as [c' Hd];
        change (DecimalString.NilZero.string_of_uint d)
          with (DecimalString.NilEmpty.string_of_uint d);
        unfold intPart;
        change (DecimalString.NilEmpty.string_of_uint d ++ rest)
          with (String (match d with
                        | Decimal.D1 _ => "1" | Decimal.D2 _ => "2"
                        | Decimal.D3 _ => "3" | Decimal.D4 _ => "4"
                        | Decimal.D5 _ => "5" | Decimal.D6 _ => "6"
                        | Decimal.D7 _ => "7" | Decimal.D8 _ => "8"
                        | _ => "9" end)%char
                  (DecimalString.NilEmpty.string_of_uint u ++ rest)) in *;
        cbv beta iota;
        change (Ascii.eqb _ "0") with false; cbv iota;
        change (isDigit _) with true; cbv iota;
        rewrite Hd, accUint_of_uint; unfold N.of_uint; now rewrite Hp
    end.
Qed.

End NumberFacts.

(** ** JSON: a printed value parses back *)

Module RoundTrip.
Import Json JsonPrint StringFacts NumberFacts.

Lemma numberEnd_noDigit (rest : string) :
  numberEnd rest = true -> noDigitAhead rest = true.
Proof.
  destruct rest as [|c r]; simpl; [reflexivity|].
  intros H. apply negb_true_iff in H.
  repeat (apply orb_false_iff in H as [H _]). now rewrite H.
Qed.

Lemma fracPart_end (n : N) (rest : string) :
  numberEnd rest = true -> fracPart n rest = Some (n, 0, rest).
Proof.
  destruct rest as [|c r]; simpl; [reflexivity|].
  intros H. apply negb_true_iff in H.
  apply orb_false_iff in H as [H _]. apply orb_false_iff in H as [H _].
  apply orb_false_iff in H as [_ H]. now rewrite H.
Qed.

Lemma expPart_end (rest : string) :
  numberEnd rest = true -> expPart rest = Some (0%Z, rest).
Proof.
  destruct rest as [|c r]; simpl; [reflexivity|].
  intros H. apply negb_true_iff in H.
  apply orb_false_iff in H as [H H2]. apply orb_false_iff in H as [_ H1].
  now rewrite H1, H2.
Qed.

(** The first character of a printed natural number is a digit. *)
Lemma printN_head (n : N) :
  exists c r, printN n = String c r /\ isDigit c = true.
Proof.
  destruct n as [|p]; [now exists "0"%char, EmptyString|].
  unfold printN; simpl N.to_uint.
  pose proof (to_uint_head p) as Hh.
  destruct (Pos.to_uint p) as [|u|u|u|u|u|u|u|u|u|u]; try contradiction;
    eexists; eexists; (split; [reflexivity|reflexivity]).
Qed.

Lemma digit_not_minus (c : ascii) :
  isDigit c = true -> Ascii.eqb c "-" = false.
Proof.
  destruct c as [[] [] [] [] [] [] [] []]; intros H; try reflexivity;
    discriminate H.
Qed.

Lemma parseNumber_printZ (z : Z) (rest : string) :
  numberEnd rest = true ->
  parseNumber (printZ z ++ rest) = Normal (VNum z 0, rest).
Proof.
  intros H. pose proof (numberEnd_noDigit _ H) as Hd.
  unfold printZ, parseNumber.
  destruct (z <? 0)%Z eqn:Hz.
  - cbn [append]. change (Ascii.eqb "-" "-") with true. cbv iota.
    rewrite (intPart_printN _ _ Hd), (fracPart_end _ _ H), (expPart_end _ H).
    do 2 f_equal. apply Z.ltb_lt in Hz. f_equal; lia.
  - destruct (printN_head (Z.abs_N z)) as (c & r & E & Hc).
    assert (G : (let '(negative, s1) :=
                   match printN (Z.abs_N z) ++ rest with
                   | EmptyString => (false, printN (Z.abs_N z) ++ rest)
                   | String c0 r0 =>
                       if Ascii.eqb c0 "-"
                       then (true, r0)
                       else (false, printN (Z.abs_N z) ++ rest)
                   end in (negative, s1))
                = (false, printN (Z.abs_N z) ++ rest)).
    { rewrite E. cbn [append]. now rewrite (digit_not_minus _ Hc). }
    destruct (match printN (Z.abs_N z) ++ rest with
              | EmptyString => (false, printN (Z.abs_N z) ++ rest)
              | String c0 r0 =>
                  if Ascii.eqb c0 "-"
                  then (true, r0)
                  else (false, printN (Z.abs_N z) ++ rest)
              end) as [ng s1].
    injection G as -> ->.
    rewrite (intPart_printN _ _ Hd), (fracPart_end _ _ H), (expPart_end _ H).
    do 2 f_equal. apply Z.ltb_ge in Hz. f_equal; lia.
Qed.

Lemma parseValue_number (f : nat) (c : ascii) (r : string) :
  numberStart c = true ->
  parseValue (S f) (String c r) = parseNumber (String c r).
Proof.
  destruct c as [[] [] [] [] [] [] [] []]; intros H; try discriminate H;
    reflexivity.
Qed.

Lemma printZ_head (z : Z) :
  exists c r, printZ z = String c r /\ numberStart c = true.
Proof.
  unfold printZ. destruct (z <? 0)%Z.
  - now exists "-"%char, (printN (Z.abs_N z)).
  - destruct (printN_head (Z.abs_N z)) as (c & r & E & Hc).
    exists c, r. split; [exact E|]. unfold numberStart. now rewrite Hc.
Qed.

Lemma parseValue_printZ (f : nat) (z : Z) (rest : string) :
  numberEnd rest = true ->
  parseValue (S f) (printZ z ++ rest) = Normal (VNum z 0, rest).
Proof.
  intros H. destruct (printZ_head z) as (c & r & E & Hc).
  rewrite <- (parseNumber_printZ z rest H). rewrite E. cbn [append].
  now apply parseValue_number.
Qed.

(** Strings without escapes. *)

Lemma plainChar_escape (c : ascii) :
  plainChar c = true -> escapeChar c = String c EmptyString.
Proof.
  destruct c as [[] [] [] [] [] [] [] []]; intros H; try reflexivity;
    discriminate H.
Qed.

Lemma plain_escape (s : string) : plain s = true -> escape s = s.
Proof.
  induction s as [|c s IH]; simpl; [reflexivity|].
  intros H. apply andb_true_iff in H as [Hc Hs].
  now rewrite (plainChar_escape _ Hc), (IH Hs).
Qed.

Lemma parseChars_plainChar (c : ascii) (r : string) :
  plainChar c = true ->
  parseChars (String c r) = (p <- parseChars r ;; Normal (String c (fst p), snd p)).
Proof.
  destruct c as [[] [] [] [] [] [] [] []]; intros H; try reflexivity;
    discriminate H.
Qed.

Lemma parseChars_plain (s r : string) :
  plain s = true -> parseChars (s ++ String quoteChar r) = Normal (s, r).
Proof.
  induction s as [|c s IH]; [reflexivity|].
  cbn [plain append]. intros H. apply andb_true_iff in H as [Hc Hs].
  now rewrite (parseChars_plainChar _ _ Hc), (IH Hs).
Qed.

Lemma quote_plain (s rest : string) :
  plain s = true -> quote s ++ rest = String quoteChar (s ++ String quoteChar rest).
Proof.
  intros H. unfold quote. rewrite (plain_escape _ H). cbn [append].
  now rewrite app_assoc.
Qed.

End RoundTrip.

Module RoundTripValue.
Import Json JsonPrint StringFacts NumberFacts RoundTrip.

Lemma parseElements_S (f : nat) (s : string) :
  parseElements (S f) s =
  (p <- parseValue f s ;;
   match skipWs (snd p) with
   | String c r =>
       if Ascii.eqb c ","%char then
         q <- parseElements f r ;; Normal (fst p :: fst q, snd q)
       else if Ascii.eqb c "]"%char then Normal ([fst p], r)
       else Throw SyntaxError
   | EmptyString => Throw SyntaxError
   end).
Proof. reflexivity. Qed.

Lemma parseMembers_quote (f : nat) (acc : list (string * value)) (r : string) :
  parseMembers (S f) acc (String quoteChar r) =
  (k <- parseChars r ;;
   match stripPrefix ":" (skipWs (snd k)) with
   | Some r2 =>
       p <- parseValue f r2 ;;
       let acc' := setField acc (fst k) (fst p) in
       match skipWs (snd p) with
       | String d r4 =>
           if Ascii.eqb d ","%char then parseMembers f acc' r4
           else if Ascii.eqb d "}"%char then Normal (acc', r4)
           else Throw SyntaxError
       | EmptyString => Throw SyntaxError
       end
   | None => Throw SyntaxError
   end).
Proof. reflexivity. Qed.

Lemma parseValue_quote (f : nat) (r : string) :
  parseValue (S f) (String quoteChar r) =
  (p <- parseChars r ;; Normal (VStr (fst p), snd p)).
Proof. reflexivity. Qed.

Lemma printable_defined (v : value) : printable v = true -> isUndefined v = false.
Proof. now destruct v. Qed.

Lemma render_head (v : value) :
  printable v = true -> exists c r, render v = String c r /\ valueStart c = true.
Proof.
  destruct v as [| |b|m e|s|t|l|fs]; intros H; try discriminate H.
  - now exists "n"%char, "ull".
  - destruct b; [now exists "t"%char, "rue" | now exists "f"%char, "alse"].
  - destruct (printZ_head m) as (c & r & E & Hc). exists c, r.
    split; [exact E|]. unfold valueStart. now rewrite Hc.
  - eexists; eexists; split; [reflexivity|reflexivity].
  - eexists; eexists; split; [reflexivity|reflexivity].
  - eexists; eexists; split; [reflexivity|reflexivity].
Qed.

Lemma parseValue_array (f : nat) (c : ascii) (r : string) :
  valueStart c = true ->
  parseValue (S f) (String "[" (String c r)) =
  (p <- parseElements f (String c r) ;; Normal (VArr (fst p), snd p)).
Proof.
  destruct c as [[] [] [] [] [] [] [] []]; intros H; try discriminate H;
    reflexivity.
Qed.

Lemma parseValue_object (f : nat) (r : string) :
  parseValue (S f) (String "{" (String quoteChar r)) =
  (p <- parseMembers f [] (String quoteChar r) ;; Normal (VObj (fst p), snd p)).
Proof. reflexivity. Qed.

Lemma setField_fresh (acc : list (string * value)) (k : string) (v : value) :
  existsb (String.eqb k) (map fst acc) = false ->
  setField acc k v = (acc ++ [(k, v)])%list.
Proof.
  induction acc as [|[k' v'] acc IH]; simpl; [reflexivity|].
  intros H. apply orb_false_iff in H as [H1 H2].
  rewrite String.eqb_sym, H1. now rewrite (IH H2).
Qed.

Lemma distinct_middle (l1 : list string) (k : string) (l2 : list string) :
  distinct (l1 ++ k :: l2) = true -> existsb (String.eqb k) l1 = false.
Proof.
  induction l1 as [|k' l1 IH]; [reflexivity|].
  cbn [app distinct existsb]. intros H.
  apply andb_true_iff in H as [H1 H2]. apply negb_true_iff in H1.
  rewrite existsb_app in H1. apply orb_false_iff in H1 as [_ H1].
  cbn [existsb] in H1. apply orb_false_iff in H1 as [H1 _].
  rewrite String.eqb_sym, H1. exact (IH H2).
Qed.

Lemma setAll_distinct (fields acc : list (string * value)) :
  distinct (map fst (acc ++ fields)%list) = true ->
  setAll acc fields = (acc ++ fields)%list.
Proof.
  revert acc; induction fields as [|[k v] fields IH]; intros acc H.
  - cbn. now rewrite List.app_nil_r.
  - assert (Hk : existsb (String.eqb k) (map fst acc) = false).
    { rewrite map_app in H. exact (distinct_middle _ _ _ H). }
    assert (E : (acc ++ (k, v) :: fields = (acc ++ [(k, v)]) ++ fields)%list)
      by now rewrite <- List.app_assoc.
    rewrite E in H |- *. unfold setAll. cbn [fold_left fst snd].
    rewrite (setField_fresh _ _ _ Hk). now apply IH.
Qed.

End RoundTripValue.

Module RoundTripProof.
Import Json JsonPrint StringFacts NumberFacts RoundTrip RoundTripValue.

Lemma weight_pos (v : value) : 1 <= weight v.
Proof. destruct v; simpl; lia. Qed.

Lemma render_array (l : list value) (rest : string) :
  render (VArr l) ++ rest
  = String "[" (JsString.join "," (map renderElement l) ++ "]" ++ rest).
Proof.
  change (render (VArr l)) with ("[" ++ JsString.join "," (map renderElement l) ++ "]").
  cbn [append]. now rewrite app_assoc.
Qed.

Lemma render_object (fs : list (string * value)) (rest : string) :
  render (VObj fs) ++ rest
  = String "{" (JsString.join "," (renderMembers fs) ++ "}" ++ rest).
Proof.
  change (render (VObj fs)) with ("{" ++ JsString.join "," (renderMembers fs) ++ "}").
  cbn [append]. now rewrite app_assoc.
Qed.

(** The text of a non-empty list of elements: its first element, then either
    the end or a comma and the remaining elements. *)
Lemma elements_text (x : value) (l : list value) (tail : string) :
  printable x = true ->
  JsString.join "," (map renderElement (x :: l)) ++ tail
  = render x ++
    match l with
    | [] => tail
    | _ :: _ => String "," (JsString.join "," (map renderElement l) ++ tail)
    end.
Proof.
  intros Hx. unfold renderElement at 1. cbn [map].
  unfold renderElement at 1. rewrite (printable_defined _ Hx).
  destruct l as [|y l]; [reflexivity|].
  cbn [map JsString.join]. now rewrite !app_assoc.
Qed.

Lemma members_text (k : string) (x : value) (fs : list (string * value))
  (tail : string) :
  plain k = true -> printable x = true ->
  forallb (fun p => plain (fst p) && printable (snd p)) fs = true ->
  JsString.join "," (renderMembers ((k, x) :: fs)) ++ tail
  = String quoteChar (k ++ String quoteChar (String ":" (render x ++
      match fs with
      | [] => tail
      | _ :: _ => String "," (JsString.join "," (renderMembers fs) ++ tail)
      end))).
Proof.
  intros Hk Hx Hfs. cbn [renderMembers]. rewrite (printable_defined _ Hx).
  destruct fs as [|[k2 x2] fs].
  - cbn [renderMembers JsString.join]. rewrite !app_assoc.
    rewrite (quote_plain _ _ Hk). reflexivity.
  - cbn [forallb fst snd] in Hfs. apply andb_true_iff in Hfs as [H2 _].
    apply andb_true_iff in H2 as [_ H2].
    cbn [renderMembers]. rewrite (printable_defined _ H2).
    cbn [JsString.join]. rewrite !app_assoc.
    rewrite (quote_plain _ _ Hk). reflexivity.
Qed.

Lemma roundtrip_fuel (f : nat) :
  (forall v rest, printable v = true -> weight v <= f -> numberEnd rest = true ->
     parseValue f (render v ++ rest) = Normal (v, rest)) /\
  (forall l rest, l <> [] -> forallb printable l = true -> elementsWeight l <= f ->
     parseElements f (JsString.join "," (map renderElement l) ++ "]" ++ rest)
     = Normal (l, rest)) /\
  (forall fs acc rest, fs <> [] ->
     forallb (fun p => plain (fst p) && printable (snd p)) fs = true ->
     membersWeight fs <= f ->
     parseMembers f acc (JsString.join "," (renderMembers fs) ++ "}" ++ rest)
     = Normal (setAll acc fs, rest)).
Proof.
  induction f as [|f (IHv & IHe & IHm)].
  - split; [|split].
    + intros v rest _ Hw. pose proof (weight_pos v). lia.
    + intros [|x l] rest Hl _ Hw; [contradiction|].
      unfold elementsWeight in Hw; simpl in Hw; lia.
    + intros [|x l] acc rest Hl _ Hw; [contradiction|].
      unfold membersWeight in Hw; simpl in Hw; lia.
  - split; [|split].
    + intros v rest Hp Hw Hrest.
      destruct v as [| |b|m e|s|t|l|fs]; try discriminate Hp.
      * reflexivity.
      * destruct b; reflexivity.
      * cbn [printable] in Hp. apply andb_true_iff in Hp as [He _].
        apply Z.eqb_eq in He. subst e. now apply parseValue_printZ.
      * cbn [printable] in Hp. cbn [render].
        rewrite (quote_plain _ _ Hp), parseValue_quote.
        now rewrite (parseChars_plain _ _ Hp).
      * rewrite render_array. destruct l as [|x l]; [reflexivity|].
        cbn [printable forallb] in Hp.
        pose proof Hp as Hl. apply andb_true_iff in Hp as [Hx _].
        destruct (render_head _ Hx) as (c & r & E & Hc).
        assert (Hw' : elementsWeight (x :: l) <= f)
          by (cbn [weight] in Hw; unfold elementsWeight; lia).
        pose proof (IHe (x :: l) rest (fun H => nil_cons (eq_sym H)) Hl Hw') as G.
        rewrite (elements_text _ _ _ Hx), E in G |- *. cbn [append] in G |- *.
        rewrite (parseValue_array _ _ _ Hc), G. reflexivity.
      * rewrite render_object. destruct fs as [|[k x] fs]; [reflexivity|].
        cbn [printable] in Hp. apply andb_true_iff in Hp as [Hfs Hd].
        pose proof Hfs as Hall. cbn [forallb fst snd] in Hfs.
        apply andb_true_iff in Hfs as [Hkx Hfs'].
        apply andb_true_iff in Hkx as [Hk Hx].
        assert (Hw' : membersWeight ((k, x) :: fs) <= f)
          by (cbn [weight] in Hw; unfold membersWeight; lia).
        pose proof (IHm ((k, x) :: fs) [] rest
                      (fun H => nil_cons (eq_sym H)) Hall Hw') as G.
        rewrite (members_text _ _ _ _ Hk Hx Hfs') in G |- *.
        rewrite parseValue_object, G. cbn [bind fst snd].
        now rewrite (setAll_distinct _ [] Hd).
    + intros [|x l] rest Hl Hp Hw; [contradiction|].
      cbn [forallb] in Hp. apply andb_true_iff in Hp as [Hx Hp].
      unfold elementsWeight in Hw. cbn [map list_sum fold_right] in Hw.
      rewrite (elements_text _ _ _ Hx), parseElements_S.
      destruct l as [|y l].
      * rewrite IHv by first [exact Hx | lia | reflexivity]. reflexivity.
      * rewrite IHv by first [exact Hx | lia | reflexivity]. cbn [bind fst snd skipWs].
        change (isJsonWs ",") with false. cbv iota.
        change (Ascii.eqb "," ",") with true. cbv iota.
        rewrite (IHe (y :: l) rest (fun H => nil_cons (eq_sym H)) Hp
                   ltac:(unfold elementsWeight, list_sum; lia)).
        reflexivity.
    + intros [|[k x] fs] acc rest Hl Hp Hw; [contradiction|].
      cbn [forallb fst snd] in Hp. apply andb_true_iff in Hp as [Hkx Hp].
      apply andb_true_iff in Hkx as [Hk Hx].
      unfold membersWeight in Hw. cbn [map list_sum fold_right snd] in Hw.
      rewrite (members_text _ _ _ _ Hk Hx Hp), parseMembers_quote.
      rewrite (parseChars_plain _ _ Hk). cbn [bind fst snd skipWs].
      change (isJsonWs ":") with false. cbv iota.
      change (stripPrefix ":" (String ":" ?r)) with (Some r).
      destruct fs as [|p fs].
      * rewrite IHv by first [exact Hx | lia | reflexivity]. reflexivity.
      * rewrite IHv by first [exact Hx | lia | reflexivity]. cbn [bind fst snd skipWs].
        change (isJsonWs ",") with false. cbv iota.
        change (Ascii.eqb "," ",") with true. cbv iota.
        rewrite (IHm (p :: fs) _ rest (fun H => nil_cons (eq_sym H)) Hp
                   ltac:(unfold membersWeight, list_sum; lia)).
        reflexivity.
Qed.

End RoundTripProof.

(** ** The consent decision as JSON text *)

Module DecisionFacts.
Import Json JsonPrint StringFacts NumberFacts RoundTrip RoundTripValue RoundTripProof.

Lemma parse_render (v : value) :
  printable v = true ->
  weight v <= 2 * String.length (render v) + 2 ->
  parse (render v) = Normal v.
Proof.
  intros Hp Hw. unfold parse.
  destruct (roundtrip_fuel (2 * String.length (render v) + 2)) as (Hv & _ & _).
  pose proof (Hv v EmptyString Hp Hw eq_refl) as G. rewrite app_nil_r in G.
  now rewrite G.
Qed.

Lemma timeValue_safe (z : Z) :
  Decision.timeValue z = true -> safeInteger z = true.
Proof.
  unfold Decision.timeValue, safeInteger. intros H.
  apply Z.leb_le in H. apply Z.leb_le.
  change (2 ^ 53)%Z with 9007199254740992%Z. lia.
Qed.

Lemma decision_printable (d : Decision.t) :
  Decision.timeValue (Decision.timestamp d) = true ->
  printable (Decision.toValue d) = true.
Proof.
  intros H. apply timeValue_safe in H.
  destruct d as [s g c t]. cbn [Decision.timestamp] in H.
  unfold Decision.toValue.
  cbn [printable forallb fst snd map Decision.status Decision.gcs
       Decision.categories Decision.timestamp].
  rewrite H. destruct s, g; reflexivity.
Qed.

Lemma decision_renderable (d : Decision.t) :
  Decision.timeValue (Decision.timestamp d) = true ->
  renderable (Decision.toValue d) = true.
Proof.
  intros H. apply timeValue_safe in H.
  destruct d as [s g c t]. cbn [Decision.timestamp] in H.
  unfold Decision.toValue.
  cbn [renderable forallb fst snd isUndefined orb Decision.timestamp].
  now rewrite H.
Qed.

Lemma decision_stringify (d : Decision.t) :
  Decision.timeValue (Decision.timestamp d) = true ->
  stringify (Decision.toValue d) = Normal (render (Decision.toValue d)).
Proof.
  intros H. unfold stringify. now rewrite (decision_renderable _ H).
Qed.

(** Round trip of the text: [JSON.parse(JSON.stringify(d))] is [d]. *)
Lemma decision_parse (d : Decision.t) :
  Decision.timeValue (Decision.timestamp d) = true ->
  parse (render (Decision.toValue d)) = Normal (Decision.toValue d).
Proof.
  intros H. apply parse_render; [now apply decision_printable|].
  change (weight (Decision.toValue d)) with 19.
  change (render (Decision.toValue d))
    with (String "{" (JsString.join "," (renderMembers
            [("status", VStr (Decision.statusName (Decision.status d)));
             ("gcs", VStr (Decision.signalName (Decision.gcs d)));
             ("categories", VObj [
                ("functional", VBool (Decision.functional (Decision.categories d)));
                ("analytics", VBool (Decision.analytics (Decision.categories d)));
                ("performance", VBool (Decision.performance (Decision.categories d)));
                ("advertising", VBool (Decision.advertising (Decision.categories d)));
                ("uncategorized", VBool (Decision.uncategorized (Decision.categories d)))]);
             ("timestamp", VNum (Decision.timestamp d) 0)]) ++ "}")).
  cbn [renderMembers isUndefined JsString.join String.length].
  rewrite !length_app. change (String.length (quote "status")) with 8. lia.
Qed.

End DecisionFacts.

(** ** The cookie store and [getCookie] *)

Module JarFacts.
Import JsString CookieJar StringFacts.

Lemma breakAt_app (c : ascii) (a b : string) :
  hasChar c a = false -> breakAt c (a ++ String c b) = (a, Some b).
Proof.
  induction a as [|x a IH]; simpl; intros H.
  - now rewrite Ascii.eqb_refl.
  - apply orb_false_iff in H as [H1 H2]. now rewrite H1, (IH H2).
Qed.

Lemma trimWspEnd_last (a : string) (c : ascii) :
  isWsp c = false -> trimWspEnd (a ++ String c EmptyString) = a ++ String c EmptyString.
Proof.
  intros H. induction a as [|x a IH]; simpl.
  - now rewrite H.
  - rewrite IH. now destruct a.
Qed.

Lemma find_store (j : CookieJar.t) (n v : string) : find n (store j n v) = Some v.
Proof.
  induction j as [|[n' v'] j IH]; simpl.
  - now rewrite String.eqb_refl.
  - destruct (String.eqb n' n) eqn:E; simpl; rewrite E; [reflexivity|exact IH].
Qed.

Lemma wf_store (j : CookieJar.t) (n v : string) :
  wf j = true -> wfEntry (n, v) = true -> wf (store j n v) = true.
Proof.
  intros Hj He. induction j as [|[n' v'] j IH]; simpl.
  - now rewrite He.
  - simpl in Hj. apply andb_true_iff in Hj as [H1 H2].
    destruct (String.eqb n' n) eqn:E; simpl.
    + apply String.eqb_eq in E. subst n'. now rewrite He, H2.
    + now rewrite H1, (IH H2).
Qed.

Lemma split_nosep (sep : ascii) (a : string) :
  hasChar sep a = false -> split sep a = [a].
Proof.
  induction a as [|x a IH]; simpl; intros H; [reflexivity|].
  apply orb_false_iff in H as [H1 H2]. now rewrite H1, (IH H2).
Qed.

Lemma split_app (sep : ascii) (a b : string) :
  hasChar sep a = false -> split sep (a ++ String sep b) = a :: split sep b.
Proof.
  induction a as [|x a IH]; simpl; intros H.
  - now rewrite Ascii.eqb_refl.
  - apply orb_false_iff in H as [H1 H2]. now rewrite H1, (IH H2).
Qed.

(** A stored cookie is found by the prefix test exactly when it has the
    name looked for. *)
Lemma startsWith_entry (n v name : string) :
  hasChar "=" n = false -> hasChar "=" name = false ->
  startsWith (n ++ "=" ++ v) (name ++ "=") = String.eqb n name.
Proof.
  revert name; induction n as [|d n IH]; intros [|c name] Hn Hname;
    cbn [append startsWith hasChar String.eqb] in *.
  - reflexivity.
  - apply orb_false_iff in Hname as [H _].
    rewrite Ascii.eqb_sym in H. now rewrite H.
  - apply orb_false_iff in Hn as [H _]. now rewrite H.
  - apply orb_false_iff in Hn as [_ Hn].
    apply orb_false_iff in Hname as [_ Hname].
    now rewrite (IH _ Hn Hname).
Qed.

Lemma hasChar_entry (p : string * string) :
  wfEntry p = true -> hasChar ";" (fst p ++ "=" ++ snd p) = false.
Proof.
  unfold wfEntry. intros H.
  repeat (apply andb_true_iff in H as [H ?]).
  rewrite !hasChar_app. cbn [hasChar].
  change (Ascii.eqb "=" ";") with false. cbn [orb].
  apply negb_true_iff in H. now rewrite H, (proj1 (negb_true_iff _) H0).
Qed.

End JarFacts.

Module GetCookieFacts.
Import JsString CookieJar StringFacts JarFacts.

Lemma stripSpaces_app (pre s : string) :
  stripSpaces pre = EmptyString -> stripSpaces (pre ++ s) = stripSpaces s.
Proof.
  induction pre as [|c pre IH]; [reflexivity|].
  cbn [stripSpaces append]. destruct (Ascii.eqb c " "); [exact IH|discriminate].
Qed.

Lemma stripSpaces_entry (p : string * string) :
  wfEntry p = true ->
  stripSpaces (fst p ++ "=" ++ snd p) = fst p ++ "=" ++ snd p.
Proof.
  unfold wfEntry. intros H.
  apply andb_true_iff in H as [H _]. apply andb_true_iff in H as [_ H].
  apply negb_true_iff in H. destruct p as [[|c n] v]; [reflexivity|].
  cbn [fst snd startsWith andb] in H. rewrite andb_true_r in H.
  cbn [fst snd append stripSpaces]. now rewrite H.
Qed.

(** One piece of [document.cookie], possibly after the blank that follows a
    separator: the loop returns its value when the name matches and moves on
    otherwise. *)
Lemma getCookieLoop_piece (name pre : string) (p : string * string)
  (rest : list string) :
  wfEntry p = true -> hasChar "=" name = false -> stripSpaces pre = EmptyString ->
  getCookieLoop (name ++ "=") ((pre ++ fst p ++ "=" ++ snd p) :: rest)
  = if String.eqb (fst p) name then Some (snd p)
    else getCookieLoop (name ++ "=") rest.
Proof.
  intros Hp Hname Hpre. cbn [getCookieLoop].
  rewrite (stripSpaces_app _ _ Hpre), (stripSpaces_entry _ Hp).
  assert (Hn : hasChar "=" (fst p) = false).
  { unfold wfEntry in Hp. apply andb_true_iff in Hp as [Hp _].
    apply andb_true_iff in Hp as [Hp _]. apply andb_true_iff in Hp as [_ Hp].
    now apply negb_true_iff in Hp. }
  rewrite (startsWith_entry _ _ _ Hn Hname).
  destruct (String.eqb (fst p) name) eqn:E; [|reflexivity].
  apply String.eqb_eq in E. rewrite E.
  rewrite <- (app_assoc name "=" (snd p)).
  now rewrite substringFrom_app.
Qed.

Lemma read_cons (p q : string * string) (j : CookieJar.t) :
  read (p :: q :: j)
  = (fst p ++ "=" ++ snd p) ++ String ";" (" " ++ read (q :: j)).
Proof. unfold read. cbn [map join append]. now rewrite !app_assoc. Qed.

(** On a well-formed store, the loop of [getCookie] finds what the store
    holds under the name. *)
Lemma getCookieLoop_read (name : string) (j : CookieJar.t) :
  wf j = true -> hasChar "=" name = false ->
  forall pre, stripSpaces pre = EmptyString -> hasChar ";" pre = false ->
  getCookieLoop (name ++ "=") (split ";" (pre ++ read j)) = find name j.
Proof.
  intros Hj Hname. induction j as [|p j IH]; intros pre Hpre Hsemi.
  - cbn [read map join]. rewrite app_nil_r, (split_nosep _ _ Hsemi).
    cbn [getCookieLoop find]. rewrite Hpre.
    destruct name; reflexivity.
  - cbn [wf forallb] in Hj. apply andb_true_iff in Hj as [Hp Hj].
    destruct j as [|q j].
    + change (read [p]) with (fst p ++ "=" ++ snd p).
      rewrite split_nosep
        by (rewrite hasChar_app, Hsemi; exact (hasChar_entry _ Hp)).
      rewrite (getCookieLoop_piece _ _ _ _ Hp Hname Hpre).
      destruct p as [n v]. cbn [find fst snd getCookieLoop]. reflexivity.
    + rewrite read_cons, <- app_assoc.
      rewrite split_app
        by (rewrite hasChar_app, Hsemi; exact (hasChar_entry _ Hp)).
      rewrite (getCookieLoop_piece _ _ _ _ Hp Hname Hpre).
      rewrite (IH Hj " " eq_refl eq_refl).
      destruct p as [n v]. reflexivity.
Qed.

Lemma getCookie_find (w : World) (name : string) :
  wf (jar w) = true -> hasChar "=" name = false ->
  getCookie w name = find name (jar w).
Proof.
  intros Hj Hname. unfold getCookie.
  exact (getCookieLoop_read name (jar w) Hj Hname EmptyString eq_refl eq_refl).
Qed.

End GetCookieFacts.

(** ** The store stays well formed under every assignment *)

Module JarInvariant.
Import JsString CookieJar StringFacts JarFacts.









Lemma wf_empty : wf [] = true.
Proof. reflexivity. Qed.





End JarInvariant.

(** ** The setter on the text [setCookie] assigns *)

Module SetterFacts.
Import JsString CookieJar StringFacts NumberFacts JarFacts JarInvariant.

Lemma trimWspEnd_keep (a : string) (c : ascii) (b : string) :
  isWsp c = false ->
  trimWspEnd (a ++ String c b) = a ++ String c (trimWspEnd b).
Proof.
  intros H. induction a as [|x a IH]; cbn [append trimWspEnd].
  - destruct (trimWspEnd b); [now rewrite H|reflexivity].
  - rewrite IH. now destruct a.
Qed.

(** The three facts a host gives about the date it prints. *)
Lemma printed_date (h : Host) (time : Z) :
  hasChar ";" (toUTCString h time) = false /\
  trimWspStart (toUTCString h time) = toUTCString h time /\
  trimWspEnd (toUTCString h time) = toUTCString h time.
Proof.
  pose proof (datePlain h time) as H.
  apply andb_true_iff in H as [H H3]. apply andb_true_iff in H as [H1 H2].
  apply negb_true_iff in H1. apply String.eqb_eq in H2, H3. auto.
Qed.

Lemma attribute_expires (h : Host) (time : Z) :
  attributeOf (" expires=" ++ toUTCString h time)
  = Some (Expires (toUTCString h time)).
Proof.
  destruct (printed_date h time) as (_ & Hs & He).
  unfold attributeOf.
  assert (E : trimWsp (" expires=" ++ toUTCString h time)
              = "expires=" ++ toUTCString h time).
  { unfold trimWsp. cbn [append trimWspStart].
    change (isWsp " ") with true. change (isWsp "e") with false. cbv iota.
    change (String "e" (String "x" (String "p" (String "i" (String "r"
              (String "e" (String "s" (String "=" (toUTCString h time)))))))))
      with ("expires" ++ String "=" (toUTCString h time)).
    rewrite trimWspEnd_keep by reflexivity. now rewrite He. }
  rewrite E. cbn [append String.eqb Ascii.eqb Bool.eqb].
  change (String "e" (String "x" (String "p" (String "i" (String "r"
            (String "e" (String "s" (String "=" (toUTCString h time)))))))))
    with ("expires=" ++ toUTCString h time).
  rewrite stripPrefix_app. cbn [option_map]. unfold trimWsp. now rewrite Hs, He.
Qed.

(** The attributes of the text [setCookie] assigns. *)
Lemma script_attributes (h : Host) (time : Z) :
  attributesOf (split ";" (" expires=" ++ toUTCString h time ++
                           "; path=/; SameSite=Lax; Secure"))
  = Some [Expires (toUTCString h time); PathRoot; SameSiteLax; Secure].
Proof.
  destruct (printed_date h time) as (Hc & _ & _).
  change (" expires=" ++ toUTCString h time ++ "; path=/; SameSite=Lax; Secure")
    with (" expires=" ++ (toUTCString h time ++ String ";" " path=/; SameSite=Lax; Secure")).
  rewrite <- app_assoc.
  rewrite split_app by (rewrite hasChar_app, Hc; reflexivity).
  cbn [attributesOf]. rewrite attribute_expires. reflexivity.
Qed.

(** The expiry the store reads from the date [days] ahead is in the future
    when [days] is positive. *)
Lemma expiry_ahead (h : Host) (now days : Z) :
  (0 < days)%Z ->
  match cookieDate h (toUTCString h (now + days * 24 * 60 * 60 * 1000)) with
  | Some seen => (seen <=? now)%Z = false
  | None => True
  end.
Proof.
  intros Hd. pose proof (dateRead h (now + days * 24 * 60 * 60 * 1000)%Z) as H.
  destruct (cookieDate h _) as [seen|]; [|exact I].
  apply andb_true_iff in H as [H _]. apply Z.ltb_lt in H.
  apply Z.leb_gt. lia.
Qed.

(** What the setter does with the text of [setCookie] for a name and a value
    it stores as they are, when the expiry is not behind the clock. *)
Lemma assign_script (h : Host) (so : bool) (now days : Z) (j : CookieJar.t)
  (name value : string) :
  storableName name = true -> storableValue value = true ->
  String.length name + String.length value <= 4096 -> (0 <= days)%Z ->
  assign so (cookieDate h) now j
    (name ++ "=" ++ value ++
     (if (days =? 0)%Z then EmptyString
      else "; expires=" ++ toUTCString h (now + days * 24 * 60 * 60 * 1000)) ++
     "; path=/; SameSite=Lax; Secure")
  = Normal (if so then store j name value else j).
Proof.
  intros Hn Hv Hsize Hdays.
  unfold storableName in Hn. unfold storableValue in Hv.
  apply andb_true_iff in Hn as [Hn N5]. apply andb_true_iff in Hn as [Hn N4].
  apply andb_true_iff in Hn as [Hn N3]. apply andb_true_iff in Hn as [N1 N2].
  apply andb_true_iff in Hv as [Hv V3]. apply andb_true_iff in Hv as [V1 V2].
  apply negb_true_iff in N3, N4, V2. apply String.eqb_eq in N5, V3.
  assert (Size : Nat.ltb 4096 (String.length name + String.length value) = false)
    by (apply Nat.ltb_ge; exact Hsize).
  unfold assign.
  destruct (days =? 0)%Z eqn:Ed.
  - change (name ++ "=" ++ value ++ EmptyString ++ "; path=/; SameSite=Lax; Secure")
      with (name ++ "=" ++ value ++ String ";" " path=/; SameSite=Lax; Secure").
    rewrite <- !app_assoc.
    rewrite breakAt_app by (rewrite !hasChar_app, N3, V2; reflexivity).
    change ((name ++ "=") ++ value) with ((name ++ "=") ++ value).
    rewrite app_assoc. change ("=" ++ value) with (String "=" value).
    rewrite breakAt_app by exact N4.
    rewrite N5, V3, N1, N2, V1, Size. cbn [negb andb].
    change (attributesOf (split ";" " path=/; SameSite=Lax; Secure"))
      with (Some [PathRoot; SameSiteLax; Secure]).
    cbn [existsb isSecure orb expiryOf andb]. now destruct so.
  - assert (Hpos : (0 < days)%Z) by (apply Z.eqb_neq in Ed; lia).
    set (D := toUTCString h (now + days * 24 * 60 * 60 * 1000)).
    change (name ++ "=" ++ value ++ ("; expires=" ++ D) ++ "; path=/; SameSite=Lax; Secure")
      with (name ++ "=" ++ value ++
            String ";" (" expires=" ++ D ++ "; path=/; SameSite=Lax; Secure")).
    rewrite <- !app_assoc.
    rewrite breakAt_app by (rewrite !hasChar_app, N3, V2; reflexivity).
    rewrite app_assoc. change ("=" ++ value) with (String "=" value).
    rewrite breakAt_app by exact N4.
    rewrite N5, V3, N1, N2, V1, Size. cbn [negb andb].
    rewrite (app_assoc " expires=" D "; path=/; SameSite=Lax; Secure").
    unfold D. rewrite script_attributes.
    cbn [existsb isSecure orb expiryOf andb].
    destruct so; cbn [negb]; [|reflexivity].
    pose proof (expiry_ahead h now days Hpos) as He.
    destruct (cookieDate h _) as [seen|]; [now rewrite He|reflexivity].
Qed.

End SetterFacts.

(** ** Persisting a decision *)

Module PersistFacts.
Import Json JsonPrint JsString CookieJar StringFacts NumberFacts RoundTrip
       DecisionFacts JarFacts GetCookieFacts SetterFacts.

Lemma render_VObj (fs : list (string * value)) :
  render (VObj fs) = "{" ++ join "," (renderMembers fs) ++ "}".
Proof. reflexivity. Qed.

Lemma uint_no_semicolon (u : Decimal.uint) :
  hasChar ";" (DecimalString.NilEmpty.string_of_uint u) = false.
Proof. induction u; cbn; auto. Qed.

Lemma printZ_no_semicolon (z : Z) : hasChar ";" (printZ z) = false.
Proof.
  assert (H : forall n, hasChar ";" (printN n) = false).
  { intros n. unfold printN.
    destruct (N.to_uint n) eqn:E; try reflexivity;
      exact (uint_no_semicolon _). }
  unfold printZ. destruct (z <? 0)%Z; [cbn [hasChar]|]; now rewrite H.
Qed.

(** The text of a decision has no semicolon: the cookie setter does not cut
    it short. *)
Lemma decision_no_semicolon (d : Decision.t) :
  hasChar ";" (render (Decision.toValue d)) = false.
Proof.
  destruct d as [s g [b1 b2 b3 b4 b5] t]. unfold Decision.toValue.
  cbn [Decision.status Decision.gcs Decision.categories Decision.timestamp
       Decision.functional Decision.analytics Decision.performance
       Decision.advertising Decision.uncategorized].
  rewrite !render_VObj. cbn [renderMembers isUndefined join].
  rewrite !hasChar_app. cbn [render]. rewrite printZ_no_semicolon.
  destruct s, g, b1, b2, b3, b4, b5; reflexivity.
Qed.

(** It starts with a brace and ends with one: trimming leaves it alone. *)
Lemma object_trimmed (fs : list (string * value)) :
  trimWsp (render (VObj fs)) = render (VObj fs).
Proof.
  rewrite render_VObj. unfold trimWsp. cbn [append trimWspStart].
  change (isWsp "{") with false. cbv iota.
  change (String "{" (join "," (renderMembers fs) ++ "}"))
    with (("{" ++ join "," (renderMembers fs)) ++ "}") at 1.
  rewrite trimWspEnd_last by reflexivity. reflexivity.
Qed.

Lemma printableAscii_app (a b : string) :
  printableAscii (a ++ b) = printableAscii a && printableAscii b.
Proof.
  induction a as [|c a IH]; cbn [append printableAscii]; [reflexivity|].
  now rewrite IH, andb_assoc.
Qed.

Lemma uint_printable (u : Decimal.uint) :
  printableAscii (DecimalString.NilEmpty.string_of_uint u) = true.
Proof. induction u; cbn; auto. Qed.

Lemma printZ_printable (z : Z) : printableAscii (printZ z) = true.
Proof.
  assert (H : forall n, printableAscii (printN n) = true).
  { intros n. unfold printN.
    destruct (N.to_uint n) eqn:E; try reflexivity;
      exact (uint_printable _). }
  unfold printZ. destruct (z <? 0)%Z; [cbn [printableAscii]|]; now rewrite H.
Qed.

(** The text of a decision is printable ASCII. *)
Lemma decision_text_printable (d : Decision.t) :
  printableAscii (render (Decision.toValue d)) = true.
Proof.
  destruct d as [s g [b1 b2 b3 b4 b5] t]. unfold Decision.toValue.
  cbn [Decision.status Decision.gcs Decision.categories Decision.timestamp
       Decision.functional Decision.analytics Decision.performance
       Decision.advertising Decision.uncategorized].
  rewrite !render_VObj. cbn [renderMembers isUndefined join].
  rewrite !printableAscii_app. cbn [render]. rewrite printZ_printable.
  destruct s, g, b1, b2, b3, b4, b5; reflexivity.
Qed.

(** A number read from its digits is at least the number read so far,
    shifted by the digits that follow. *)
Lemma accUint_lower (u : Decimal.uint) :
  forall acc,
  (acc * 10 ^ N.of_nat (String.length (DecimalString.NilEmpty.string_of_uint u))
   <= accUint u acc)%N.
Proof.
  induction u as [|u IH|u IH|u IH|u IH|u IH|u IH|u IH|u IH|u IH|u IH];
    intros acc;
    cbn [accUint DecimalString.NilEmpty.string_of_uint String.length];
    [rewrite N.pow_0_r; lia|..];
    match goal with
    | |- context [N.of_nat (S ?n)] =>
        replace (N.of_nat (S n)) with (N.succ (N.of_nat n)) by lia
    end;
    rewrite N.pow_succ_r';
    match goal with
    | |- (_ <= accUint _ ?a)%N => specialize (IH a)
    end; nia.
Qed.

(** A number below ten to the sixteenth has at most sixteen digits. *)
Lemma printN_length (n : N) :
  (n < 10 ^ 16)%N -> String.length (printN n) <= 16.
Proof.
  intros Hn. destruct n as [|p]; [cbn; lia|].
  unfold printN. cbn [N.to_uint].
  pose proof (to_uint_head p) as Hh.
  pose proof (DecimalPos.Unsigned.of_to p) as Hp.
  assert (Hv : N.of_uint (Pos.to_uint p) = Npos p)
    by (unfold N.of_uint; now rewrite Hp).
  rewrite <- accUint_of_uint in Hv.
  assert (Bound : forall (u : Decimal.uint) (k : N),
            (1 <= k)%N -> (accUint u k < 10 ^ 16)%N ->
            String.length (DecimalString.NilEmpty.string_of_uint u) < 16).
  { intros u k Hk Hu. pose proof (accUint_lower u k) as L.
    assert (P : (10 ^ N.of_nat (String.length
                   (DecimalString.NilEmpty.string_of_uint u)) < 10 ^ 16)%N) by nia.
    apply N.pow_lt_mono_r_iff in P; lia. }
  destruct (Pos.to_uint p) as [|u|u|u|u|u|u|u|u|u|u]; try contradiction;
    cbn [accUint] in Hv;
    change (DecimalString.NilZero.string_of_uint ?d)
      with (DecimalString.NilEmpty.string_of_uint d);
    cbn [DecimalString.NilEmpty.string_of_uint String.length];
    match type of Hv with
    | accUint u ?k = _ =>
        assert (B := Bound u k ltac:(lia) ltac:(rewrite Hv; exact Hn)); lia
    end.
Qed.

Lemma printZ_length (z : Z) :
  Decision.timeValue z = true -> String.length (printZ z) <= 17.
Proof.
  unfold Decision.timeValue. intros H. apply Z.leb_le in H.
  assert (Hn : (Z.abs_N z < 10 ^ 16)%N).
  { change (10 ^ 16)%N with 10000000000000000%N. lia. }
  pose proof (printN_length _ Hn) as L.
  unfold printZ. destruct (z <? 0)%Z; cbn [String.length]; lia.
Qed.

(** The text of a decision is short. *)
Lemma decision_text_short (d : Decision.t) :
  Decision.timeValue (Decision.timestamp d) = true ->
  String.length (render (Decision.toValue d)) <= 200.
Proof.
  destruct d as [s g [b1 b2 b3 b4 b5] t]. cbn [Decision.timestamp]. intros H.
  apply printZ_length in H. unfold Decision.toValue.
  cbn [Decision.status Decision.gcs Decision.categories Decision.timestamp
       Decision.functional Decision.analytics Decision.performance
       Decision.advertising Decision.uncategorized].
  rewrite !render_VObj. cbn [renderMembers isUndefined join].
  rewrite !length_app. cbn [render].
  set (L := String.length (printZ t)) in *.
  destruct s, g, b1, b2, b3, b4, b5; cbn; lia.
Qed.

Lemma decision_storable (d : Decision.t) :
  storableValue (render (Decision.toValue d)) = true.
Proof.
  unfold storableValue.
  rewrite decision_text_printable, decision_no_semicolon.
  unfold Decision.toValue. rewrite object_trimmed. now rewrite String.eqb_refl.
Qed.

(** [persist] hands the text of the decision to the cookie setter: on a
    secure origin the store holds it afterwards under [cookie_consent], on
    any other origin the store refuses it and stays as it was. *)
Lemma persist_decision (h : Host) (w : World) (d : Decision.t) :
  Decision.timeValue (Decision.timestamp d) = true ->
  exists w1,
    persist h w (Decision.toValue d) = Normal w1 /\
    jar w1 = (if secureOrigin w
              then store (jar w) "cookie_consent" (render (Decision.toValue d))
              else jar w) /\
    dataLayer w1 = dataLayer w /\ console w1 = console w /\
    widget w1 = widget w /\ gaDefined w1 = gaDefined w /\ fbq w1 = fbq w /\
    scripts w1 = scripts w /\ loaderCalls w1 = loaderCalls w /\ now w1 = now w /\
    secureOrigin w1 = secureOrigin w.
Proof.
  intros H. unfold persist. rewrite (decision_stringify _ H). cbn [bind].
  unfold setCookie.
  rewrite (assign_script h (secureOrigin w) (now w) 365 (jar w) "cookie_consent"
             (render (Decision.toValue d)) eq_refl (decision_storable d)).
  - cbn [bind]. eexists. split; [reflexivity|]. repeat split.
  - pose proof (decision_text_short d H). cbn [String.length]. lia.
  - lia.
Qed.

(** After [persist], the store holds the text, the text parses back to the
    decision, and on a well-formed store [getCookie] returns it. *)
Lemma persisted_reads_back (w w1 : World) (d : Decision.t) :
  Decision.timeValue (Decision.timestamp d) = true ->
  jar w1 = store (jar w) "cookie_consent" (render (Decision.toValue d)) ->
  find "cookie_consent" (jar w1) = Some (render (Decision.toValue d)) /\
  parse (render (Decision.toValue d)) = Normal (Decision.toValue d) /\
  (wf (jar w) = true ->
   wf (jar w1) = true /\
   getCookie w1 "cookie_consent" = Some (render (Decision.toValue d))).
Proof.
  intros H E. split; [|split].
  - rewrite E. apply find_store.
  - now apply decision_parse.
  - intros Hwf.
    assert (Hwf1 : wf (jar w1) = true).
    { rewrite E. apply wf_store; [exact Hwf|].
      unfold wfEntry. cbn [fst snd]. now rewrite decision_no_semicolon. }
    split; [exact Hwf1|].
    rewrite (getCookie_find w1 "cookie_consent" Hwf1 eq_refl), E.
    apply find_store.
Qed.

End PersistFacts.

(** ** The consent update *)

Module UpdateFacts.
Import Json.

Lemma categoryOf_decision (d : Decision.t) :
  categoryOf (Decision.toValue d) "functional"
    = Normal (VBool (Decision.functional (Decision.categories d))) /\
  categoryOf (Decision.toValue d) "analytics"
    = Normal (VBool (Decision.analytics (Decision.categories d))) /\
  categoryOf (Decision.toValue d) "performance"
    = Normal (VBool (Decision.performance (Decision.categories d))) /\
  categoryOf (Decision.toValue d) "advertising"
    = Normal (VBool (Decision.advertising (Decision.categories d))) /\
  categoryOf (Decision.toValue d) "uncategorized"
    = Normal (VBool (Decision.uncategorized (Decision.categories d))).
Proof. repeat split. Qed.

Lemma consentStatesOf_decision (d : Decision.t) :
  consentStatesOf (Decision.toValue d)
  = Normal (VObj [
      ("ad_storage", grant (VBool (Decision.advertising (Decision.categories d))));
      ("analytics_storage", grant (VBool (Decision.analytics (Decision.categories d))));
      ("ad_user_data", grant (VBool (Decision.advertising (Decision.categories d))));
      ("ad_personalization", grant (VBool (Decision.advertising (Decision.categories d))));
      ("personalization_storage", grant (VBool (Decision.performance (Decision.categories d))));
      ("functionality_storage", VStr "granted");
      ("security_storage", VStr "granted")]).
Proof. reflexivity. Qed.

Lemma gcsSignalOf_decision (d : Decision.t) :
  gcsSignalOf (Decision.toValue d)
  = Normal (Decision.signalName (Decision.signalFor (Decision.status d))).
Proof. destruct d as [[] g c t]; reflexivity. Qed.

(** The signal depends on nothing but the [status] property. *)
Lemma gcsSignalOf_status (v1 v2 : value) :
  get v1 "status" = get v2 "status" -> gcsSignalOf v1 = gcsSignalOf v2.
Proof. intros E. unfold gcsSignalOf. now rewrite E. Qed.

(** What [updateConsentMode] does with a decision: two pushes on the data
    layer, two lines on the console, nothing else. *)
Lemma updateConsentMode_decision (h : Host) (w : World) (d : Decision.t) :
  exists w' cs,
    updateConsentMode h w (Decision.toValue d) = Normal w' /\
    consentStatesOf (Decision.toValue d) = Normal cs /\
    dataLayer w' =
      (dataLayer w ++
       [VArr [VStr "consent"; VStr "update"; cs];
        consentUpdateEvent cs
          (Decision.signalName (Decision.signalFor (Decision.status d)))
          (toISOString h (now w))])%list /\
    jar w' = jar w /\ widget w' = widget w /\ gaDefined w' = gaDefined w /\
    fbq w' = fbq w /\ scripts w' = scripts w /\
    loaderCalls w' = loaderCalls w /\ now w' = now w.
Proof.
  unfold updateConsentMode.
  rewrite consentStatesOf_decision, gcsSignalOf_decision. cbn [bind].
  eexists. eexists. split; [reflexivity|]. split; [reflexivity|].
  split; [|repeat split].
  cbn [dataLayer consoleLog withConsole withDataLayer gtag].
  now rewrite <- List.app_assoc.
Qed.

Lemma loadAnalytics_frame (w : World) :
  loaderCalls (loadAnalyticsCookies w) = (loaderCalls w ++ [Category.analytics])%list /\
  jar (loadAnalyticsCookies w) = jar w /\
  widget (loadAnalyticsCookies w) = widget w /\
  now (loadAnalyticsCookies w) = now w.
Proof.
  unfold loadAnalyticsCookies.
  cbn [gaDefined withLoaderCalls consoleLog withConsole].
  destruct (gaDefined w); repeat split.
Qed.

Lemma loadAnalytics_pixel (w : World) :
  fbq (loadAnalyticsCookies w) = fbq w /\
  scripts (loadAnalyticsCookies w) = scripts w.
Proof.
  unfold loadAnalyticsCookies.
  cbn [gaDefined withLoaderCalls consoleLog withConsole].
  destruct (gaDefined w); split; reflexivity.
Qed.

Lemma pixelReady_frame (w w' : World) :
  fbq w' = fbq w -> scripts w' = scripts w -> pixelReady w' = pixelReady w.
Proof. unfold pixelReady. now intros -> ->. Qed.

(** The advertising loader where it can run: the pixel is set up unless
    [fbq] is defined. *)
Lemma loadAdvertising_ready (w : World) :
  pixelReady w = true ->
  exists w',
    loadAdvertisingCookies w = Normal w' /\
    loaderCalls w' = (loaderCalls w ++ [Category.advertising])%list /\
    jar w' = jar w /\ widget w' = widget w /\ now w' = now w /\
    dataLayer w' = dataLayer w /\ gaDefined w' = gaDefined w /\
    fbq w' = match fbq w with Some q => Some q | None => Some pixelQueue end /\
    scripts w' = match fbq w with
                 | Some _ => scripts w
                 | None => pixelScript :: scripts w
                 end.
Proof.
  unfold pixelReady, loadAdvertisingCookies.
  cbn [fbq scripts withLoaderCalls consoleLog withConsole].
  destruct (fbq w) eqn:Ef.
  - intros _. eexists. split; [reflexivity|]. cbn. rewrite ?Ef. repeat split.
  - destruct (scripts w) eqn:Es; [discriminate|].
    intros _. eexists. split; [reflexivity|]. cbn. rewrite ?Ef, ?Es. repeat split.
Qed.

(** Where it cannot: no [fbq], and no script element to insert before. *)
Lemma loadAdvertising_blocked (w : World) :
  pixelReady w = false -> loadAdvertisingCookies w = Throw TypeError.
Proof.
  unfold pixelReady, loadAdvertisingCookies.
  cbn [fbq scripts withLoaderCalls consoleLog withConsole].
  destruct (fbq w); [discriminate|]. destruct (scripts w); [reflexivity|discriminate].
Qed.

Lemma loadPerformance_frame (w : World) :
  loaderCalls (loadPerformanceCookies w) = (loaderCalls w ++ [Category.performance])%list /\
  jar (loadPerformanceCookies w) = jar w /\
  widget (loadPerformanceCookies w) = widget w /\
  now (loadPerformanceCookies w) = now w.
Proof. repeat split. Qed.

Lemma loadable_spec (c : Decision.Categories) (w : World) :
  loadable c w = negb (Decision.advertising c && negb (pixelReady w)).
Proof.
  unfold loadable. destruct (Decision.advertising c), (pixelReady w); reflexivity.
Qed.

(** The loaders of a decision, where they can run. *)
Lemma loadCookies_decision (w : World) (d : Decision.t) :
  loadable (Decision.categories d) w = true ->
  exists w',
    loadCookiesAccordingToConsent w (Decision.toValue d) = Normal w' /\
    loaderCalls w' = (loaderCalls w ++ loadersOf (Decision.categories d))%list /\
    jar w' = jar w /\ widget w' = widget w /\ now w' = now w.
Proof.
  unfold loadable, loadCookiesAccordingToConsent. intros Hl.
  destruct (categoryOf_decision d) as (_ & Ha & Hp & Hd & _).
  rewrite Ha, Hd, Hp. cbn [bind truthy]. unfold loadersOf.
  set (w1 := if Decision.analytics (Decision.categories d)
             then loadAnalyticsCookies w else w).
  assert (F1 : loaderCalls w1
               = (loaderCalls w ++
                  (if Decision.analytics (Decision.categories d)
                   then [Category.analytics] else []))%list /\
               jar w1 = jar w /\ widget w1 = widget w /\ now w1 = now w /\
               pixelReady w1 = pixelReady w).
  { subst w1. destruct (Decision.analytics (Decision.categories d)).
    - destruct (loadAnalytics_frame w) as (L & J & W & N).
      destruct (loadAnalytics_pixel w) as (F & S).
      repeat split; try assumption. now apply pixelReady_frame.
    - rewrite List.app_nil_r. repeat split. }
  destruct F1 as (L1 & J1 & W1 & N1 & P1).
  destruct (Decision.advertising (Decision.categories d)) eqn:Ead.
  - cbn [negb orb] in Hl. rewrite <- P1 in Hl.
    destruct (loadAdvertising_ready w1 Hl) as (w2 & E2 & L2 & J2 & W2 & N2 & _).
    rewrite E2. cbn [bind]. eexists. split; [reflexivity|].
    destruct (Decision.performance (Decision.categories d)).
    + destruct (loadPerformance_frame w2) as (-> & -> & -> & ->).
      rewrite L2, L1, J2, J1, W2, W1, N2, N1, <- ?List.app_assoc, ?List.app_nil_r. repeat split.
    + rewrite L2, L1, J2, J1, W2, W1, N2, N1, <- ?List.app_assoc, ?List.app_nil_r. repeat split.
  - cbn [bind]. eexists. split; [reflexivity|].
    destruct (Decision.performance (Decision.categories d)).
    + destruct (loadPerformance_frame w1) as (-> & -> & -> & ->).
      rewrite L1, J1, W1, N1, <- ?List.app_assoc, ?List.app_nil_r. repeat split.
    + rewrite L1, J1, W1, N1, <- ?List.app_assoc, ?List.app_nil_r. repeat split.
Qed.

(** Where the advertising loader cannot run, the call throws. *)
Lemma loadCookies_blocked (w : World) (d : Decision.t) :
  loadable (Decision.categories d) w = false ->
  loadCookiesAccordingToConsent w (Decision.toValue d) = Throw TypeError.
Proof.
  unfold loadable, loadCookiesAccordingToConsent. intros Hl.
  apply orb_false_iff in Hl as [Hd' Hp']. apply negb_false_iff in Hd'.
  destruct (categoryOf_decision d) as (_ & Ha & Hp & Hd & _).
  rewrite Ha, Hd, Hp, Hd'. cbn [bind truthy].
  rewrite loadAdvertising_blocked; [reflexivity|].
  destruct (Decision.analytics (Decision.categories d)); [|exact Hp'].
  destruct (loadAnalytics_pixel w) as (F & S).
  now rewrite (pixelReady_frame _ _ F S).
Qed.

(** ** Values this script did not write *)

Lemma get_total (c : value) (k : string) :
  c <> VUndefined -> c <> VNull -> exists r, get c k = Normal r.
Proof.
  intros H1 H2. destruct c; try congruence; cbn [get]; try (now eexists).
  destruct (lookup k fields); now eexists.
Qed.

Lemma get_throws (v : value) (k : string) (e : JsError) :
  get v k = Throw e -> e = TypeError.
Proof.
  destruct v; cbn [get]; intros H; try discriminate H;
    try (now injection H as <-).
  destruct (lookup k fields); discriminate H.
Qed.

Lemma has_categories (v : value) :
  lacksCategories v = false ->
  exists c, get v "categories" = Normal c /\ c <> VUndefined /\ c <> VNull /\
            v <> VUndefined /\ v <> VNull.
Proof.
  unfold lacksCategories. intros H.
  destruct v; cbn [get] in *; try discriminate;
    try (destruct (lookup "categories" fields) as [c|]; [|discriminate];
         destruct c; try discriminate);
    eexists; repeat split; try reflexivity; discriminate.
Qed.

(** Every property of [categories] can be read once [categories] is a
    value other than [undefined] and [null]. *)
Lemma categories_readable (v : value) :
  lacksCategories v = false ->
  exists a p d,
    categoryOf v "analytics" = Normal a /\
    categoryOf v "performance" = Normal p /\
    categoryOf v "advertising" = Normal d.
Proof.
  intros Hl. destruct (has_categories v Hl) as (c & Hc & C1 & C2 & _).
  assert (Cat : forall k, exists r, categoryOf v k = Normal r).
  { intros k. unfold categoryOf. rewrite Hc. cbn [bind]. now apply get_total. }
  destruct (Cat "analytics") as [a Ha]. destruct (Cat "performance") as [p Hp].
  destruct (Cat "advertising") as [d Hd]. now exists a, p, d.
Qed.

(** [updateConsentMode] on such a value returns; the states follow the
    truthiness of the three categories it reads. *)
Lemma update_foreign (h : Host) (w : World) (v a p d : value) :
  lacksCategories v = false ->
  categoryOf v "analytics" = Normal a ->
  categoryOf v "performance" = Normal p ->
  categoryOf v "advertising" = Normal d ->
  consentStatesOf v = Normal (VObj [
      ("ad_storage", grant d); ("analytics_storage", grant a);
      ("ad_user_data", grant d); ("ad_personalization", grant d);
      ("personalization_storage", grant p);
      ("functionality_storage", VStr "granted");
      ("security_storage", VStr "granted")]) /\
  exists w1,
    updateConsentMode h w v = Normal w1 /\
    jar w1 = jar w /\ widget w1 = widget w /\ fbq w1 = fbq w /\
    scripts w1 = scripts w /\ loaderCalls w1 = loaderCalls w.
Proof.
  intros Hl Ha Hp Hd.
  destruct (has_categories v Hl) as (c & Hc & C1 & C2 & V1 & V2).
  destruct (get_total v "status" V1 V2) as [s Hs].
  assert (Ecs : consentStatesOf v = Normal (VObj [
            ("ad_storage", grant d); ("analytics_storage", grant a);
            ("ad_user_data", grant d); ("ad_personalization", grant d);
            ("personalization_storage", grant p);
            ("functionality_storage", VStr "granted");
            ("security_storage", VStr "granted")])).
  { unfold consentStatesOf. now rewrite Hd, Ha, Hp. }
  split; [exact Ecs|].
  assert (Eg : exists g, gcsSignalOf v = Normal g).
  { unfold gcsSignalOf. rewrite Hs. cbn [bind].
    destruct (strictEqStr s "accepted"); [now eexists|].
    destruct (strictEqStr s "custom"); now eexists. }
  destruct Eg as [g Eg].
  unfold updateConsentMode. rewrite Ecs, Eg. cbn [bind].
  eexists. split; [reflexivity|]. repeat split.
Qed.

(** The loaders on any value whose three categories can be read: the call
    ends in a TypeError when the advertising category is truthy and the
    pixel cannot be inserted, and returns otherwise. *)
Lemma loadCookies_values (w : World) (v a p d : value) :
  categoryOf v "analytics" = Normal a ->
  categoryOf v "performance" = Normal p ->
  categoryOf v "advertising" = Normal d ->
  if truthy d && negb (pixelReady w)
  then loadCookiesAccordingToConsent w v = Throw TypeError
  else exists w',
         loadCookiesAccordingToConsent w v = Normal w' /\
         jar w' = jar w /\ widget w' = widget w /\ now w' = now w.
Proof.
  intros Ha Hp Hd. unfold loadCookiesAccordingToConsent.
  rewrite Ha, Hd, Hp. cbn [bind].
  set (w1 := if truthy a then loadAnalyticsCookies w else w).
  assert (F1 : jar w1 = jar w /\ widget w1 = widget w /\ now w1 = now w /\
               pixelReady w1 = pixelReady w).
  { subst w1. destruct (truthy a); [|repeat split].
    destruct (loadAnalytics_frame w) as (_ & J & W & N).
    destruct (loadAnalytics_pixel w) as (F & S).
    repeat split; try assumption. now apply pixelReady_frame. }
  destruct F1 as (J1 & W1 & N1 & P1).
  destruct (truthy d) eqn:Td; cbn [andb].
  - rewrite <- P1. destruct (pixelReady w1) eqn:P; cbn [negb].
    + destruct (loadAdvertising_ready w1 P) as (w2 & E2 & _ & J2 & W2 & N2 & _).
      rewrite E2. cbn [bind]. eexists. split; [reflexivity|].
      destruct (truthy p).
      * destruct (loadPerformance_frame w2) as (_ & -> & -> & ->).
        rewrite J2, W2, N2. repeat split; assumption.
      * rewrite J2, W2, N2. repeat split; assumption.
    + now rewrite (loadAdvertising_blocked w1 P).
  - cbn [bind]. eexists. split; [reflexivity|].
    destruct (truthy p).
    + destruct (loadPerformance_frame w1) as (_ & -> & -> & ->).
      repeat split; assumption.
    + repeat split; assumption.
Qed.

End UpdateFacts.

(** ** The three writers *)

Module WriterFacts.
Import Json JsonPrint CookieJar PersistFacts UpdateFacts.

(** The first two steps of every writer: the text of the decision goes
    to the cookie setter, then the consent update is pushed.  Both return on
    every page. *)
Lemma persist_and_update (h : Host) (w : World) (d : Decision.t) :
  Decision.timeValue (Decision.timestamp d) = true ->
  exists w1 w2,
    persist h w (Decision.toValue d) = Normal w1 /\
    updateConsentMode h w1 (Decision.toValue d) = Normal w2 /\
    jar w1 = (if secureOrigin w
              then store (jar w) "cookie_consent" (render (Decision.toValue d))
              else jar w) /\
    jar w2 = jar w1 /\ widget w2 = widget w /\ loaderCalls w2 = loaderCalls w /\
    scripts w2 = scripts w /\ fbq w2 = fbq w /\ now w2 = now w.
Proof.
  intros H.
  destruct (persist_decision h w d H)
    as (w1 & E1 & Hj1 & _ & _ & Hw1 & _ & Hf1 & Hs1 & Hl1 & Hn1 & _).
  destruct (updateConsentMode_decision h w1 d)
    as (w2 & cs & E2 & _ & _ & Hj2 & Hw2 & _ & Hf2 & Hs2 & Hl2 & Hn2).
  exists w1, w2. split; [exact E1|]. split; [exact E2|]. split; [exact Hj1|].
  split; [exact Hj2|]. rewrite Hw2, Hw1, Hl2, Hl1, Hs2, Hs1, Hf2, Hf1, Hn2, Hn1.
  repeat split.
Qed.

(** Persist, signal, load: the body of [acceptAllCookies] and of
    [saveCustomSettings], where the loaders can run. *)
Lemma decide_and_load (h : Host) (w : World) (d : Decision.t) :
  Decision.timeValue (Decision.timestamp d) = true ->
  loadable (Decision.categories d) w = true ->
  exists w',
    (w1 <- persist h w (Decision.toValue d) ;;
     w2 <- updateConsentMode h w1 (Decision.toValue d) ;;
     loadCookiesAccordingToConsent w2 (Decision.toValue d)) = Normal w' /\
    jar w' = (if secureOrigin w
              then store (jar w) "cookie_consent" (render (Decision.toValue d))
              else jar w) /\
    widget w' = widget w /\
    loaderCalls w' = (loaderCalls w ++ loadersOf (Decision.categories d))%list /\
    now w' = now w.
Proof.
  intros H Hl.
  destruct (persist_and_update h w d H)
    as (w1 & w2 & E1 & E2 & Hj1 & Hj2 & Hw2 & Hl2 & Hs2 & Hf2 & Hn2).
  assert (Hl' : loadable (Decision.categories d) w2 = true).
  { unfold loadable in *. now rewrite (pixelReady_frame _ _ Hf2 Hs2). }
  destruct (loadCookies_decision w2 d Hl') as (w3 & E3 & Hl3 & Hj3 & Hw3 & Hn3).
  exists w3. rewrite E1. cbn [bind]. rewrite E2. cbn [bind].
  split; [exact E3|].
  rewrite Hj3, Hj2, Hj1, Hw3, Hw2, Hl3, Hl2, Hn3, Hn2.
  repeat split.
Qed.

(** The same body where the advertising loader cannot run: the call throws,
    after the first two steps. *)
Lemma decide_and_load_blocked (h : Host) (w : World) (d : Decision.t) :
  Decision.timeValue (Decision.timestamp d) = true ->
  loadable (Decision.categories d) w = false ->
  (w1 <- persist h w (Decision.toValue d) ;;
   w2 <- updateConsentMode h w1 (Decision.toValue d) ;;
   loadCookiesAccordingToConsent w2 (Decision.toValue d)) = Throw TypeError.
Proof.
  intros H Hl.
  destruct (persist_and_update h w d H)
    as (w1 & w2 & E1 & E2 & Hj1 & Hj2 & Hw2 & Hl2 & Hs2 & Hf2 & Hn2).
  rewrite E1. cbn [bind]. rewrite E2. cbn [bind].
  apply loadCookies_blocked.
  unfold loadable in *. now rewrite (pixelReady_frame _ _ Hf2 Hs2).
Qed.

(** Persist and signal: the body of [rejectAllCookies]. *)
Lemma decide_only (h : Host) (w : World) (d : Decision.t) :
  Decision.timeValue (Decision.timestamp d) = true ->
  exists w',
    (w1 <- persist h w (Decision.toValue d) ;;
     updateConsentMode h w1 (Decision.toValue d)) = Normal w' /\
    jar w' = (if secureOrigin w
              then store (jar w) "cookie_consent" (render (Decision.toValue d))
              else jar w) /\
    widget w' = widget w /\ loaderCalls w' = loaderCalls w /\
    scripts w' = scripts w /\ fbq w' = fbq w /\ now w' = now w.
Proof.
  intros H.
  destruct (persist_and_update h w d H)
    as (w1 & w2 & E1 & E2 & Hj1 & Hj2 & Hw2 & Hl2 & Hs2 & Hf2 & Hn2).
  exists w2. rewrite E1. cbn [bind]. split; [exact E2|].
  rewrite Hj2, Hj1. repeat split; assumption.
Qed.

(** A world whose store received the text of [d] holds [d]. *)
Lemma persisted_store (w w' : World) (d : Decision.t) :
  Decision.timeValue (Decision.timestamp d) = true ->
  jar w' = store (jar w) "cookie_consent" (render (Decision.toValue d)) ->
  persisted w' = Some (Decision.toValue d).
Proof.
  intros H E. destruct (persisted_reads_back w w' d H E) as (Hf & Hp & _).
  unfold persisted. now rewrite Hf, Hp.
Qed.

End WriterFacts.

(** * The consent state manager *)

Module ConsentClaims.
Import Json JsonPrint CookieJar PersistFacts UpdateFacts WriterFacts.

Lemma grantedIff_grant (cs : list (string * value)) (k : string) (b : bool) :
  lookup k cs = Some (grant (VBool b)) -> grantedIff cs k b.
Proof.
  intros E. unfold grantedIff, granted, denied. rewrite E.
  destruct b; cbn; repeat split; intros H; try reflexivity; discriminate H.
Qed.

(** C1. For every ConsentDecision passed to [updateConsentMode], the consent
    map it computes and pushes on the data layer grants [ad_storage],
    [ad_user_data] and [ad_personalization] exactly when
    [categories.advertising] is true, [analytics_storage] exactly when
    [categories.analytics] is true, [personalization_storage] exactly when
    [categories.performance] is true, and always grants
    [functionality_storage] and [security_storage]; a key that is not granted
    is denied. *)
Theorem updateConsentMode_states (h : Host) (w : World) (d : Decision.t) :
  exists w' cs gcs,
    updateConsentMode h w (Decision.toValue d) = Normal w' /\
    dataLayer w' =
      (dataLayer w ++
       [VArr [VStr "consent"; VStr "update"; VObj cs];
        consentUpdateEvent (VObj cs) gcs (toISOString h (now w))])%list /\
    map fst cs =
      ["ad_storage"; "analytics_storage"; "ad_user_data"; "ad_personalization";
       "personalization_storage"; "functionality_storage"; "security_storage"] /\
    grantedIff cs "ad_storage" (Decision.advertising (Decision.categories d)) /\
    grantedIff cs "ad_user_data" (Decision.advertising (Decision.categories d)) /\
    grantedIff cs "ad_personalization" (Decision.advertising (Decision.categories d)) /\
    grantedIff cs "analytics_storage" (Decision.analytics (Decision.categories d)) /\
    grantedIff cs "personalization_storage" (Decision.performance (Decision.categories d)) /\
    granted cs "functionality_storage" /\
    granted cs "security_storage".
Proof.
  destruct (updateConsentMode_decision h w d)
    as (w' & cs & E & Hcs & Hd & _).
  rewrite consentStatesOf_decision in Hcs. injection Hcs as <-.
  eexists w', _, _. split; [exact E|]. split; [exact Hd|].
  split; [reflexivity|].
  repeat split; try (apply grantedIff_grant; reflexivity); reflexivity.
Qed.

Lemma last_two {A : Type} (l : list A) (a b d : A) :
  last (l ++ [a; b]) d = b.
Proof.
  change [a; b] with ([a] ++ [b])%list.
  now rewrite List.app_assoc, last_last.
Qed.

Lemma emittedGcs_decision (h : Host) (w : World) (d : Decision.t) :
  emittedGcs (updateConsentMode h w (Decision.toValue d))
  = Some (VStr (Decision.signalName (Decision.signalFor (Decision.status d)))).
Proof.
  destruct (updateConsentMode_decision h w d) as (w' & cs & E & _ & Hd & _).
  rewrite E. unfold emittedGcs. rewrite Hd, last_two. reflexivity.
Qed.

(** C2. The GCS signal [updateConsentMode] emits is a total function of the
    decision's status alone: accepted gives G111, rejected gives G100, custom
    gives G101, and two calls with the same status emit the same signal,
    whatever the rest of the decision, the page state and the time. *)
Theorem gcs_signal_of_status (h : Host) (w : World) (d : Decision.t) :
  emittedGcs (updateConsentMode h w (Decision.toValue d))
  = Some (VStr (match Decision.status d with
                | Decision.accepted => "G111"
                | Decision.rejected => "G100"
                | Decision.custom => "G101"
                end)) /\
  Decision.signalName (Decision.signalFor (Decision.status d))
  = match Decision.status d with
    | Decision.accepted => "G111"
    | Decision.rejected => "G100"
    | Decision.custom => "G101"
    end /\
  (forall h' w' d', Decision.status d' = Decision.status d ->
     emittedGcs (updateConsentMode h' w' (Decision.toValue d'))
     = emittedGcs (updateConsentMode h w (Decision.toValue d))) /\
  (forall v1 v2, get v1 "status" = get v2 "status" ->
     gcsSignalOf v1 = gcsSignalOf v2).
Proof.
  split; [|split; [|split]].
  - rewrite emittedGcs_decision. now destruct (Decision.status d).
  - now destruct (Decision.status d).
  - intros h' w' d' E. now rewrite !emittedGcs_decision, E.
  - exact gcsSignalOf_status.
Qed.

Lemma gcs_signal_of_status_witness :
  Decision.status (rejectAllData 7) = Decision.status (rejectAllData 0) /\
  emittedGcs (updateConsentMode fixedHost samplePage
                (Decision.toValue (rejectAllData 7)))
  = emittedGcs (updateConsentMode fixedHost samplePage
                  (Decision.toValue (rejectAllData 0))).
Proof.
  split; [reflexivity|].
  apply (gcs_signal_of_status fixedHost samplePage (rejectAllData 0)).
  reflexivity.
Defined.

End ConsentClaims.

Module WriterClaims.
Import Json JsonPrint CookieJar PersistFacts UpdateFacts WriterFacts.

(** What the store holds once the setter has seen the text of [d]: on a
    secure origin the decision, elsewhere what it held before. *)
Lemma persisted_after (w w1 : World) (d : Decision.t) :
  Decision.timeValue (Decision.timestamp d) = true ->
  jar w1 = (if secureOrigin w
            then store (jar w) "cookie_consent" (render (Decision.toValue d))
            else jar w) ->
  persisted w1 = (if secureOrigin w then Some (Decision.toValue d) else persisted w).
Proof.
  intros H E. destruct (secureOrigin w).
  - exact (persisted_store w w1 d H E).
  - unfold persisted. now rewrite E.
Qed.

Lemma persisted_jar (w w' : World) : jar w' = jar w -> persisted w' = persisted w.
Proof. unfold persisted. now intros ->. Qed.

(** The three steps of a writer on the decision [d]: the setter and the
    consent update return on every page; the loaders return where they can
    run and end in a TypeError where the pixel cannot be inserted. *)
Lemma writer_outcome (h : Host) (w : World) (d : Decision.t) :
  Decision.timeValue (Decision.timestamp d) = true ->
  exists w1 w2,
    persist h w (Decision.toValue d) = Normal w1 /\
    updateConsentMode h w1 (Decision.toValue d) = Normal w2 /\
    persisted w1 = (if secureOrigin w then Some (Decision.toValue d) else persisted w) /\
    jar w2 = jar w1 /\
    match loadCookiesAccordingToConsent w2 (Decision.toValue d) with
    | Normal w' =>
        loadable (Decision.categories d) w = true /\
        jar w' = jar w1 /\ widget w' = widget w /\
        loaderCalls w' = (loaderCalls w ++ loadersOf (Decision.categories d))%list /\
        now w' = now w
    | Throw e => loadable (Decision.categories d) w = false /\ e = TypeError
    | OutOfModel => False
    end.
Proof.
  intros H.
  destruct (persist_and_update h w d H)
    as (w1 & w2 & E1 & E2 & Hj1 & Hj2 & Hw2 & Hl2 & Hs2 & Hf2 & Hn2).
  exists w1, w2. split; [exact E1|]. split; [exact E2|].
  split; [exact (persisted_after w w1 d H Hj1)|]. split; [exact Hj2|].
  assert (P : loadable (Decision.categories d) w2 = loadable (Decision.categories d) w).
  { unfold loadable. now rewrite (pixelReady_frame _ _ Hf2 Hs2). }
  destruct (loadable (Decision.categories d) w) eqn:L.
  - destruct (loadCookies_decision w2 d P) as (w3 & E3 & Hl3 & Hj3 & Hw3 & Hn3).
    rewrite E3, Hj3, Hw3, Hl3, Hn3, Hj2, Hw2, Hl2, Hn2. repeat split.
  - rewrite (loadCookies_blocked w2 d P). split; reflexivity.
Qed.

Lemma accept_outcome (h : Host) (w : World) :
  pixelReady w = true ->
  exists w',
    acceptAllCookies h w = Normal w' /\
    persisted w' = (if secureOrigin w
                    then Some (Decision.toValue (acceptAllData (now w)))
                    else persisted w) /\
    widget w' = widget w /\
    loaderCalls w' = (loaderCalls w ++ [Category.analytics; Category.advertising;
                                         Category.performance])%list.
Proof.
  intros P.
  destruct (writer_outcome h w (acceptAllData (now w)) (nowValid w))
    as (w1 & w2 & E1 & E2 & Hp & _ & O).
  unfold acceptAllCookies. cbn zeta. rewrite E1. cbn [bind]. rewrite E2. cbn [bind].
  destruct (loadCookiesAccordingToConsent w2 _) as [w'|e|].
  - destruct O as (_ & Hj & Hw & Hl & _). exists w'. split; [reflexivity|].
    rewrite (persisted_jar _ _ Hj). repeat split; assumption.
  - destruct O as (L & _). unfold loadable in L. rewrite P in L.
    now rewrite orb_true_r in L.
  - destruct O.
Qed.

Lemma reject_outcome (h : Host) (w : World) :
  exists w',
    rejectAllCookies h w = Normal w' /\
    persisted w' = (if secureOrigin w
                    then Some (Decision.toValue (rejectAllData (now w)))
                    else persisted w) /\
    jar w' = (if secureOrigin w
              then store (jar w) "cookie_consent"
                     (render (Decision.toValue (rejectAllData (now w))))
              else jar w) /\
    widget w' = widget w /\ loaderCalls w' = loaderCalls w /\
    scripts w' = scripts w /\ fbq w' = fbq w.
Proof.
  destruct (decide_only h w (rejectAllData (now w)) (nowValid w))
    as (w' & E & Hj & Hw & Hl & Hs & Hf & _).
  exists w'. split; [exact E|].
  split; [exact (persisted_after w w' (rejectAllData (now w)) (nowValid w) Hj)|].
  repeat split; assumption.
Qed.

(** C3. On every page [acceptAllCookies] hands the cookie setter a decision
    whose [categories] are all true, before any loader runs, and
    [rejectAllCookies] one with [functional] true and every other category
    false.  On a secure origin that decision is what the store then holds;
    elsewhere the browser refuses the Secure cookie and the store keeps what
    it held.  [acceptAllCookies] returns, with the store as the setter left
    it, when the pixel can be inserted, and otherwise ends in the TypeError
    of the advertising loader; [rejectAllCookies] always returns. *)
Theorem accept_reject_categories (h : Host) (w : World) :
  (exists w1 w2,
     persist h w (Decision.toValue (acceptAllData (now w))) = Normal w1 /\
     updateConsentMode h w1 (Decision.toValue (acceptAllData (now w))) = Normal w2 /\
     acceptAllCookies h w
     = loadCookiesAccordingToConsent w2 (Decision.toValue (acceptAllData (now w))) /\
     get (Decision.toValue (acceptAllData (now w))) "categories"
     = Normal (VObj [("functional", VBool true); ("analytics", VBool true);
                     ("performance", VBool true); ("advertising", VBool true);
                     ("uncategorized", VBool true)]) /\
     persistedCategories (Normal w1)
     = (if secureOrigin w
        then Some (VObj [("functional", VBool true); ("analytics", VBool true);
                         ("performance", VBool true); ("advertising", VBool true);
                         ("uncategorized", VBool true)])
        else persistedCategories (Normal w)) /\
     jar w2 = jar w1 /\
     match acceptAllCookies h w with
     | Normal w' => pixelReady w = true /\ jar w' = jar w1
     | Throw e => pixelReady w = false /\ e = TypeError
     | OutOfModel => False
     end) /\
  (exists w1 w',
     persist h w (Decision.toValue (rejectAllData (now w))) = Normal w1 /\
     rejectAllCookies h w
     = updateConsentMode h w1 (Decision.toValue (rejectAllData (now w))) /\
     rejectAllCookies h w = Normal w' /\
     get (Decision.toValue (rejectAllData (now w))) "categories"
     = Normal (VObj [("functional", VBool true); ("analytics", VBool false);
                     ("performance", VBool false); ("advertising", VBool false);
                     ("uncategorized", VBool false)]) /\
     persistedCategories (Normal w')
     = (if secureOrigin w
        then Some (VObj [("functional", VBool true); ("analytics", VBool false);
                         ("performance", VBool false); ("advertising", VBool false);
                         ("uncategorized", VBool false)])
        else persistedCategories (Normal w)) /\
     jar w' = jar w1).
Proof.
  split.
  - destruct (writer_outcome h w (acceptAllData (now w)) (nowValid w))
      as (w1 & w2 & E1 & E2 & Hp & Hj & O).
    assert (Ea : acceptAllCookies h w
                 = loadCookiesAccordingToConsent w2
                     (Decision.toValue (acceptAllData (now w)))).
    { unfold acceptAllCookies. cbn zeta. rewrite E1. cbn [bind]. now rewrite E2. }
    exists w1, w2. split; [exact E1|]. split; [exact E2|]. split; [exact Ea|].
    split; [reflexivity|]. split; [|split; [exact Hj|]].
    + unfold persistedCategories. rewrite Hp. now destruct (secureOrigin w).
    + rewrite Ea.
      destruct (loadCookiesAccordingToConsent w2 _) as [w'|e|].
      * destruct O as (L & Hj' & _). split; [exact L|exact Hj'].
      * destruct O as (L & ->). split; [exact L|reflexivity].
      * exact O.
  - destruct (persist_and_update h w (rejectAllData (now w)) (nowValid w))
      as (w1 & w2 & E1 & E2 & Hj1 & Hj2 & _).
    assert (Er : rejectAllCookies h w
                 = updateConsentMode h w1 (Decision.toValue (rejectAllData (now w)))).
    { unfold rejectAllCookies. cbn zeta. now rewrite E1. }
    exists w1, w2. split; [exact E1|]. split; [exact Er|].
    split; [now rewrite Er|]. split; [reflexivity|]. split; [|exact Hj2].
    unfold persistedCategories. rewrite (persisted_jar _ _ Hj2).
    rewrite (persisted_after w w1 (rejectAllData (now w)) (nowValid w) Hj1).
    now destruct (secureOrigin w).
Qed.

(** C4. Each of the three writers hands the cookie setter a decision whose
    [categories.functional] is true, whatever the toggles of the settings
    panel show, and does so before any loader runs: on a secure origin the
    store then holds [functional] true, elsewhere the Secure cookie is
    refused and the store keeps what it held.  A writer that returns leaves
    the store as the setter left it, and one that does not return ended in
    the TypeError of the advertising loader.  [saveCustomSettings] run
    before the panel exists ends in a TypeError at its first toggle lookup,
    before it writes anything. *)
Theorem functional_always_granted (h : Host) (w : World) :
  (exists w1 w2,
     persist h w (Decision.toValue (acceptAllData (now w))) = Normal w1 /\
     updateConsentMode h w1 (Decision.toValue (acceptAllData (now w))) = Normal w2 /\
     acceptAllCookies h w
     = loadCookiesAccordingToConsent w2 (Decision.toValue (acceptAllData (now w))) /\
     persistedCategory "functional" (Normal w1)
     = (if secureOrigin w then Some (VBool true)
        else persistedCategory "functional" (Normal w)) /\
     match acceptAllCookies h w with
     | Normal w' => jar w' = jar w1
     | Throw e => e = TypeError
     | OutOfModel => False
     end) /\
  (exists w',
     rejectAllCookies h w = Normal w' /\
     persistedCategory "functional" (Normal w')
     = (if secureOrigin w then Some (VBool true)
        else persistedCategory "functional" (Normal w))) /\
  match widget w with
  | Some x =>
      exists w1 w2,
        persist h w (Decision.toValue (customData x (now w))) = Normal w1 /\
        updateConsentMode h w1 (Decision.toValue (customData x (now w))) = Normal w2 /\
        saveCustomSettings h w
        = loadCookiesAccordingToConsent w2 (Decision.toValue (customData x (now w))) /\
        persistedCategory "functional" (Normal w1)
        = (if secureOrigin w then Some (VBool true)
           else persistedCategory "functional" (Normal w)) /\
        match saveCustomSettings h w with
        | Normal w' => jar w' = jar w1
        | Throw e => e = TypeError
        | OutOfModel => False
        end
  | None => saveCustomSettings h w = Throw TypeError
  end.
Proof.
  split; [|split].
  - destruct (writer_outcome h w (acceptAllData (now w)) (nowValid w))
      as (w1 & w2 & E1 & E2 & Hp & Hj & O).
    assert (Ea : acceptAllCookies h w
                 = loadCookiesAccordingToConsent w2
                     (Decision.toValue (acceptAllData (now w)))).
    { unfold acceptAllCookies. cbn zeta. rewrite E1. cbn [bind]. now rewrite E2. }
    exists w1, w2. split; [exact E1|]. split; [exact E2|]. split; [exact Ea|].
    split.
    + unfold persistedCategory. rewrite Hp. now destruct (secureOrigin w).
    + rewrite Ea. destruct (loadCookiesAccordingToConsent w2 _) as [w'|e|].
      * now destruct O as (_ & Hj' & _).
      * now destruct O as (_ & ->).
      * exact O.
  - destruct (reject_outcome h w) as (w' & E & Hp & _).
    exists w'. split; [exact E|].
    unfold persistedCategory. rewrite Hp. now destruct (secureOrigin w).
  - destruct (widget w) as [x|] eqn:Hx.
    + destruct (writer_outcome h w (customData x (now w)) (nowValid w))
        as (w1 & w2 & E1 & E2 & Hp & Hj & O).
      assert (Es : saveCustomSettings h w
                   = loadCookiesAccordingToConsent w2
                       (Decision.toValue (customData x (now w)))).
      { unfold saveCustomSettings. rewrite Hx. cbn zeta. rewrite E1. cbn [bind].
        now rewrite E2. }
      exists w1, w2. split; [exact E1|]. split; [exact E2|]. split; [exact Es|].
      split.
      * unfold persistedCategory. rewrite Hp. now destruct (secureOrigin w).
      * rewrite Es. destruct (loadCookiesAccordingToConsent w2 _) as [w'|e|].
        -- now destruct O as (_ & Hj' & _).
        -- now destruct O as (_ & ->).
        -- exact O.
    + unfold saveCustomSettings. now rewrite Hx.
Qed.



(** C10. With no uncategorized toggle in the page, [saveCustomSettings]
    hands the cookie setter a decision whose [categories.uncategorized] is
    false, while [acceptAllCookies] in the same page hands it one where it
    is true; each does so before any loader runs, and on a secure origin
    the store then holds that value (elsewhere the Secure cookie is refused
    and the store keeps what it held).  Each call returns, leaving the store
    as the setter left it, unless the advertising loader is called on a page
    where the pixel cannot be inserted: then it ends in a TypeError.  A page
    has no uncategorized toggle when [injectConsentHTML] rendered a scan
    that found no uncategorized cookie. *)
Theorem uncategorized_without_toggle (h : Host) (w : World) (x : Widget) :
  widget w = Some x ->
  uncategorizedChecked x = None ->
  (exists w1 w2,
     persist h w (Decision.toValue (customData x (now w))) = Normal w1 /\
     updateConsentMode h w1 (Decision.toValue (customData x (now w))) = Normal w2 /\
     saveCustomSettings h w
     = loadCookiesAccordingToConsent w2 (Decision.toValue (customData x (now w))) /\
     categoryOf (Decision.toValue (customData x (now w))) "uncategorized"
     = Normal (VBool false) /\
     persistedCategory "uncategorized" (Normal w1)
     = (if secureOrigin w then Some (VBool false)
        else persistedCategory "uncategorized" (Normal w)) /\
     match saveCustomSettings h w with
     | Normal w' =>
         (advertisingChecked x = false \/ pixelReady w = true) /\ jar w' = jar w1
     | Throw e =>
         advertisingChecked x = true /\ pixelReady w = false /\ e = TypeError
     | OutOfModel => False
     end) /\
  (exists w1 w2,
     persist h w (Decision.toValue (acceptAllData (now w))) = Normal w1 /\
     updateConsentMode h w1 (Decision.toValue (acceptAllData (now w))) = Normal w2 /\
     acceptAllCookies h w
     = loadCookiesAccordingToConsent w2 (Decision.toValue (acceptAllData (now w))) /\
     categoryOf (Decision.toValue (acceptAllData (now w))) "uncategorized"
     = Normal (VBool true) /\
     persistedCategory "uncategorized" (Normal w1)
     = (if secureOrigin w then Some (VBool true)
        else persistedCategory "uncategorized" (Normal w)) /\
     match acceptAllCookies h w with
     | Normal w' => pixelReady w = true /\ jar w' = jar w1
     | Throw e => pixelReady w = false /\ e = TypeError
     | OutOfModel => False
     end) /\
  (forall w0 detectedCookies w',
     injectConsentHTML w0 detectedCookies = Normal w' ->
     Snapshot.uncategorized detectedCookies = [] ->
     exists x', widget w' = Some x' /\ uncategorizedChecked x' = None).
Proof.
  intros Hx Hu. split; [|split].
  - destruct (writer_outcome h w (customData x (now w)) (nowValid w))
      as (w1 & w2 & E1 & E2 & Hp & Hj & O).
    assert (Es : saveCustomSettings h w
                 = loadCookiesAccordingToConsent w2
                     (Decision.toValue (customData x (now w)))).
    { unfold saveCustomSettings. rewrite Hx. cbn zeta. rewrite E1. cbn [bind].
      now rewrite E2. }
    assert (Ec : categoryOf (Decision.toValue (customData x (now w))) "uncategorized"
                 = Normal (VBool false)).
    { unfold customData. now rewrite Hu. }
    exists w1, w2. split; [exact E1|]. split; [exact E2|]. split; [exact Es|].
    split; [exact Ec|]. split.
    + unfold persistedCategory. rewrite Hp.
      destruct (secureOrigin w); [now rewrite Ec|reflexivity].
    + rewrite Es. destruct (loadCookiesAccordingToConsent w2 _) as [w'|e|].
      * destruct O as (L & Hj' & _). split; [|exact Hj'].
        unfold loadable in L. cbn [customData Decision.categories Decision.advertising] in L.
        apply orb_true_iff in L as [L|L]; [left|right; exact L].
        now apply negb_true_iff in L.
      * destruct O as (L & ->).
        unfold loadable in L. cbn [customData Decision.categories Decision.advertising] in L.
        apply orb_false_iff in L as [L1 L2]. apply negb_false_iff in L1.
        repeat split; assumption.
      * exact O.
  - destruct (writer_outcome h w (acceptAllData (now w)) (nowValid w))
      as (w1 & w2 & E1 & E2 & Hp & Hj & O).
    assert (Ea : acceptAllCookies h w
                 = loadCookiesAccordingToConsent w2
                     (Decision.toValue (acceptAllData (now w)))).
    { unfold acceptAllCookies. cbn zeta. rewrite E1. cbn [bind]. now rewrite E2. }
    exists w1, w2. split; [exact E1|]. split; [exact E2|]. split; [exact Ea|].
    split; [reflexivity|]. split.
    + unfold persistedCategory. rewrite Hp. now destruct (secureOrigin w).
    + rewrite Ea. destruct (loadCookiesAccordingToConsent w2 _) as [w'|e|].
      * destruct O as (L & Hj' & _). split; [exact L|exact Hj'].
      * destruct O as (L & ->). split; [exact L|reflexivity].
      * exact O.
  - intros w0 s w' E Hs. unfold injectConsentHTML in E.
    destruct (widget w0); [discriminate|]. unfold freshWidget in E.
    destruct (markupFree s); [|discriminate]. cbn [bind] in E.
    injection E as <-. eexists. split; [reflexivity|].
    cbn [plainWidget uncategorizedChecked]. now rewrite Hs.
Qed.

Lemma uncategorized_without_toggle_witness :
  widget samplePage = Some (plainWidget false) /\
  uncategorizedChecked (plainWidget false) = None /\
  (exists w1,
     persist fixedHost samplePage
       (Decision.toValue (customData (plainWidget false) (now samplePage)))
     = Normal w1 /\
     persistedCategory "uncategorized" (Normal w1) = Some (VBool false)) /\
  (exists w1,
     persist fixedHost samplePage
       (Decision.toValue (acceptAllData (now samplePage)))
     = Normal w1 /\
     persistedCategory "uncategorized" (Normal w1) = Some (VBool true)).
Proof.
  split; [reflexivity|]. split; [reflexivity|].
  destruct (uncategorized_without_toggle fixedHost samplePage
              (plainWidget false) eq_refl eq_refl)
    as ((w1 & _ & E1 & _ & _ & _ & P1 & _) & (w1' & _ & E1' & _ & _ & _ & P1' & _) & _).
  split; [exists w1|exists w1']; split; assumption.
Defined.

(** The spec's scenario: with analytics switched on and the other toggles
    off, Save Preferences returns on every page with the markup, calls the
    analytics loader once and no other, and leaves the settings panel with
    [display] set to [none].  On a secure origin the store then holds a
    custom decision with signal G101 and those categories; elsewhere the
    Secure cookie is refused and the store holds what it held. *)
Theorem save_custom_scenario (h : Host) (w : World) (x : Widget) :
  widget w = Some x ->
  analyticsChecked x = true -> performanceChecked x = false ->
  advertisingChecked x = false -> uncategorizedChecked x = None ->
  exists w' x',
    listener h saveSettingsBtn w = Normal w' /\
    persisted w'
    = (if secureOrigin w
       then Some (Decision.toValue
                    (Decision.Build_t Decision.custom Decision.G101
                       (Decision.Build_Categories true true false false false)
                       (now w)))
       else persisted w) /\
    loaderCalls w' = (loaderCalls w ++ [Category.analytics])%list /\
    widget w' = Some x' /\
    modalDisplay x' = "none" /\
    bannerDisplay x' = bannerDisplay x.
Proof.
  intros Hx Ha Hp Hd Hu.
  assert (Ed : customData x (now w)
               = Decision.Build_t Decision.custom Decision.G101
                   (Decision.Build_Categories true true false false false)
                   (now w)).
  { unfold customData. now rewrite Ha, Hp, Hd, Hu. }
  destruct (writer_outcome h w (customData x (now w)) (nowValid w))
    as (w1 & w2 & E1 & E2 & Hps & Hj & O).
  cbn [listener]. unfold saveCustomSettings. rewrite Hx. cbn zeta.
  rewrite E1. cbn [bind]. rewrite E2. cbn [bind].
  destruct (loadCookiesAccordingToConsent w2 _) as [w3|e|].
  - destruct O as (_ & Hj3 & Hw3 & Hl3 & _). cbn [bind].
    unfold hideCookieSettings, onWidget. rewrite Hw3, Hx.
    eexists. eexists. split; [reflexivity|].
    split; [|split; [|split; [reflexivity|split; reflexivity]]].
    + rewrite <- Ed, <- Hps. apply persisted_jar. cbn [jar withWidget]. exact Hj3.
    + cbn [loaderCalls withWidget]. rewrite Hl3, Ed. reflexivity.
  - destruct O as (L & _). rewrite Ed in L. discriminate L.
  - destruct O.
Qed.

Lemma save_custom_scenario_witness :
  exists w' x',
    listener fixedHost saveSettingsBtn
      (withWidget samplePage
         (Some (setToggles true false false None (plainWidget false))))
    = Normal w' /\
    loaderCalls w' = [Category.analytics] /\
    widget w' = Some x' /\ modalDisplay x' = "none".
Proof.
  destruct (save_custom_scenario fixedHost
              (withWidget samplePage
                 (Some (setToggles true false false None (plainWidget false))))
              (setToggles true false false None (plainWidget false))
              eq_refl eq_refl eq_refl eq_refl eq_refl)
    as (w' & x' & E & _ & Hl & Hx & Hm & _).
  exists w', x'. repeat split; assumption.
Defined.

End WriterClaims.

(** * Reading the decision back on the next load *)

Module ReloadClaims.
Import Json JsonPrint CookieJar PersistFacts UpdateFacts WriterFacts.



(** The text [JSON.stringify] gives for a decision parses back to it. *)
Theorem decision_json_round_trip (d : Decision.t) :
  Decision.timeValue (Decision.timestamp d) = true ->
  exists text,
    stringify (Decision.toValue d) = Normal text /\
    parse text = Normal (Decision.toValue d).
Proof.
  intros H. exists (render (Decision.toValue d)).
  split; [now apply DecisionFacts.decision_stringify|].
  now apply DecisionFacts.decision_parse.
Qed.

Lemma decision_json_round_trip_witness :
  Decision.timeValue (Decision.timestamp (acceptAllData 1730550000000)) = true /\
  exists text,
    stringify (Decision.toValue (acceptAllData 1730550000000)) = Normal text /\
    parse text = Normal (Decision.toValue (acceptAllData 1730550000000)).
Proof.
  split; [reflexivity|].
  exact (decision_json_round_trip (acceptAllData 1730550000000) eq_refl).
Defined.



(** C7, as stated, fails: with the cookie [cookie_consent={oops] the value is
    not JSON, [JSON.parse] throws, and the SyntaxError leaves
    [initializeCookieConsent]; the banner is not shown and no listener is
    registered. *)
Lemma malformed_consent_escapes :
  getCookie malformedPage "cookie_consent" = Some "{oops" /\
  parse "{oops" = Throw SyntaxError /\
  initializeCookieConsent fixedHost malformedPage = Throw SyntaxError /\
  ~ (exists w', initializeCookieConsent fixedHost malformedPage = Normal w').
Proof.
  split; [reflexivity|]. split; [reflexivity|]. split; [reflexivity|].
  intros [w' E]. discriminate E.
Qed.

(** C7, amended.  When the consent cookie is absent or empty,
    initialisation sets the banner's [display] to [block] and registers the
    listeners.  When it holds a non-empty value that [JSON.parse] rejects,
    the call does not return: the SyntaxError leaves
    [initializeCookieConsent].  When the value parses to [null] or to a
    value whose [categories] property is [undefined] or [null], a TypeError
    does.  Every other parsed value is taken for a decision, whether its
    [categories] is an object or not: the banner is not touched, and the
    call registers the listeners and returns, unless the [advertising]
    category read from it is truthy and the pixel cannot be inserted, when
    it ends in a TypeError. *)
Theorem initialize_on_unreadable_consent (h : Host) (w : World) (x : Widget) :
  widget w = Some x ->
  (getCookie w "cookie_consent" = None \/
   getCookie w "cookie_consent" = Some EmptyString ->
   exists w' x',
     initializeCookieConsent h w = Normal w' /\
     widget w' = Some x' /\
     bannerDisplay x' = "block" /\ listening x' = true /\
     jar w' = jar w /\ loaderCalls w' = loaderCalls w) /\
  (forall text,
     getCookie w "cookie_consent" = Some text ->
     JsString.nonEmpty text = true ->
     parse text = Throw SyntaxError ->
     initializeCookieConsent h w = Throw SyntaxError) /\
  (forall text v,
     getCookie w "cookie_consent" = Some text ->
     JsString.nonEmpty text = true ->
     parse text = Normal v ->
     lacksCategories v = true ->
     initializeCookieConsent h w = Throw TypeError) /\
  (forall text v,
     getCookie w "cookie_consent" = Some text ->
     JsString.nonEmpty text = true ->
     parse text = Normal v ->
     lacksCategories v = false ->
     exists d,
       categoryOf v "advertising" = Normal d /\
       if truthy d && negb (pixelReady w)
       then initializeCookieConsent h w = Throw TypeError
       else exists w' x',
              initializeCookieConsent h w = Normal w' /\
              widget w' = Some x' /\
              bannerDisplay x' = bannerDisplay x /\ listening x' = true /\
              jar w' = jar w).
Proof.
  intros Hx. split; [|split; [|split]].
  - intros [E|E]; unfold initializeCookieConsent; rewrite E;
      cbn [JsString.nonEmpty]; unfold showCookieBanner, onWidget;
      rewrite Hx; cbn [bind widget withWidget];
      (eexists; eexists; split; [reflexivity|]; repeat split).
  - intros text Hg Hn Hp. unfold initializeCookieConsent.
    now rewrite Hg, Hn, Hp.
  - intros text v Hg Hn Hp Hl. unfold initializeCookieConsent.
    rewrite Hg, Hn, Hp. cbn [bind].
    assert (E : updateConsentMode h w v = Throw TypeError).
    { unfold updateConsentMode, consentStatesOf, categoryOf.
      unfold lacksCategories in Hl.
      destruct (get v "categories") as [c|e|] eqn:G; [| |discriminate Hl].
      - destruct c; try discriminate Hl; reflexivity.
      - now rewrite (get_throws _ _ _ G). }
    now rewrite E.
  - intros text v Hg Hn Hp Hl.
    destruct (categories_readable v Hl) as (a & p & d & Ha & Hp' & Hd).
    exists d. split; [exact Hd|].
    destruct (update_foreign h w v a p d Hl Ha Hp' Hd)
      as (_ & w1 & E1 & Hj1 & Hw1 & Hf1 & Hs1 & _).
    unfold initializeCookieConsent. rewrite Hg, Hn, Hp. cbn [bind].
    rewrite E1. cbn [bind].
    pose proof (loadCookies_values w1 v a p d Ha Hp' Hd) as O.
    rewrite (pixelReady_frame _ _ Hf1 Hs1) in O.
    destruct (truthy d && negb (pixelReady w)).
    + now rewrite O.
    + destruct O as (w2 & E2 & Hj2 & Hw2 & _). rewrite E2. cbn [bind].
      unfold onWidget. rewrite Hw2, Hw1, Hx.
      eexists. eexists. split; [reflexivity|].
      cbn [widget withWidget jar]. split; [reflexivity|].
      split; [reflexivity|]. split; [reflexivity|]. now rewrite Hj2.
Qed.

Lemma initialize_on_unreadable_consent_witness :
  widget malformedPage = Some (plainWidget false) /\
  getCookie malformedPage "cookie_consent" = Some "{oops" /\
  JsString.nonEmpty "{oops" = true /\
  parse "{oops" = Throw SyntaxError /\
  initializeCookieConsent fixedHost malformedPage = Throw SyntaxError.
Proof.
  split; [reflexivity|]. split; [reflexivity|]. split; [reflexivity|].
  split; [reflexivity|].
  exact (proj1 (proj2 (initialize_on_unreadable_consent fixedHost malformedPage
                         (plainWidget false) eq_refl))
           "{oops" eq_refl eq_refl eq_refl).
Defined.

End ReloadClaims.

(** * The scanner *)

Module ScannerFacts.
Import JsString StringFacts.

(** The loop settles on the first entry of the database whose pattern is a
    substring of the name: every entry before it does not match. *)
Lemma firstMatch_first (db : list (string * Category.t)) (name : string)
  (c : Category.t) :
  firstMatch db name = Some c <->
  exists l1 p l2,
    db = (l1 ++ (p, c) :: l2)%list /\ Substring p name /\
    forall q c', In (q, c') l1 -> ~ Substring q name.
Proof.
  split.
  - induction db as [|[p0 c0] db IH]; cbn [firstMatch]; [discriminate|].
    destruct (includes name p0) eqn:E.
    + intros [= <-]. exists [], p0, db. split; [reflexivity|].
      split; [now apply includes_spec|]. intros q c' [].
    + intros H. destruct (IH H) as (l1 & p & l2 & -> & Hp & Hl).
      exists ((p0, c0) :: l1), p, l2. split; [reflexivity|].
      split; [exact Hp|]. intros q c' [[= <- <-]|Hin].
      * intros Hs. apply includes_spec in Hs. congruence.
      * now apply (Hl q c').
  - intros (l1 & p & l2 & -> & Hp & Hl).
    induction l1 as [|[p0 c0] l1 IH]; cbn [app firstMatch].
    + apply includes_spec in Hp. now rewrite Hp.
    + destruct (includes name p0) eqn:E.
      * exfalso. apply (Hl p0 c0); [now left|now apply includes_spec].
      * apply IH. intros q c' Hin. apply (Hl q c'). now right.
Qed.

(** A name that contains some pattern gets a category. *)
Lemma firstMatch_some (db : list (string * Category.t)) (name : string) :
  (exists p c, In (p, c) db /\ Substring p name) ->
  exists c, firstMatch db name = Some c.
Proof.
  intros (p & c & Hin & Hs).
  induction db as [|[p0 c0] db IH]; [destruct Hin|].
  cbn [firstMatch]. destruct (includes name p0) eqn:E; [now exists c0|].
  destruct Hin as [[= -> ->]|Hin].
  - apply includes_spec in Hs. congruence.
  - now apply IH.
Qed.

(** A name that contains no pattern gets none. *)
Lemma firstMatch_none (db : list (string * Category.t)) (name : string) :
  (forall p c, In (p, c) db -> ~ Substring p name) ->
  firstMatch db name = None.
Proof.
  induction db as [|[p0 c0] db IH]; intros H; [reflexivity|].
  cbn [firstMatch]. destruct (includes name p0) eqn:E.
  - exfalso. apply (H p0 c0); [now left|now apply includes_spec].
  - apply IH. intros p c Hin. apply (H p c). now right.
Qed.

(** For a name without syntax characters the duration lookup returns. *)
Lemma getCookieDuration_literal (h : Host) (now : Z) (doc name : string) :
  RegExpModel.classify name = RegExpModel.Literal ->
  exists d, getCookieDuration h now doc name = Normal d.
Proof.
  intros H. unfold getCookieDuration. rewrite H.
  destruct (RegExpModel.search (RegExpModel.cookieAt name) doc); [|now eexists].
  destruct (RegExpModel.search (RegExpModel.expiresAt name) doc); [|now eexists].
  destruct (dateParse h s); now eexists.
Qed.

(** The forEach callback on an entry whose name has no syntax character: a
    name containing a pattern goes to the category of the first matching
    pattern, any other non-empty name to [uncategorized]. *)
Lemma scanCookie_literal (h : Host) (now : Z) (doc : string)
  (result : Snapshot.t) (cookie : string) :
  let name := hd EmptyString (split "=" (trim cookie)) in
  RegExpModel.classify name = RegExpModel.Literal ->
  nonEmpty name = true ->
  exists d,
    scanCookie h now doc result cookie
    = Normal (Snapshot.push result
                (match firstMatch cookieDatabase name with
                 | Some c => c
                 | None => Category.uncategorized
                 end)
                (Cookie.Build_t name d
                   (match firstMatch cookieDatabase name with
                    | Some _ => getCookieDescription name
                    | None => "Unknown cookie purpose"
                    end))).
Proof.
  intros name Hl Hn.
  destruct (getCookieDuration_literal h now doc name Hl) as [d Hd].
  exists d. unfold scanCookie. fold name.
  destruct (firstMatch cookieDatabase name); [|rewrite Hn]; now rewrite Hd.
Qed.

(** An entry whose parsed name is empty is appended to no category. *)
Lemma scanCookie_empty_name (h : Host) (now : Z) (doc : string)
  (result : Snapshot.t) (cookie : string) :
  hd EmptyString (split "=" (trim cookie)) = EmptyString ->
  scanCookie h now doc result cookie = Normal result.
Proof. intros E. unfold scanCookie. now rewrite E. Qed.

Lemma scanCookie_literal_witness :
  RegExpModel.classify "foo" = RegExpModel.Literal /\
  nonEmpty "foo" = true /\
  exists d,
    scanCookie fixedHost 0 "foo=1" Snapshot.empty "foo=1"
    = Normal (Snapshot.push Snapshot.empty Category.uncategorized
                (Cookie.Build_t "foo" d "Unknown cookie purpose")).
Proof.
  split; [reflexivity|]. split; [reflexivity|].
  exact (scanCookie_literal fixedHost 0 "foo=1" Snapshot.empty "foo=1"
           eq_refl eq_refl).
Defined.

Lemma scanCookie_empty_name_witness :
  hd EmptyString (split "=" (trim "=x")) = EmptyString /\
  scanCookie fixedHost 0 "=x" Snapshot.empty "=x" = Normal Snapshot.empty.
Proof.
  split; [reflexivity|].
  exact (scanCookie_empty_name fixedHost 0 "=x" Snapshot.empty "=x" eq_refl).
Defined.

(** The spec's scenario: [_ga=123; wp-settings=abc]. *)
Example scan_scenario (h : Host) (now : Z) :
  scanAndCategorizeCookies h now "_ga=123; wp-settings=abc"
  = Normal {|
      Snapshot.functional :=
        [Cookie.Build_t "wp-settings" "Session" "No description available"];
      Snapshot.analytics :=
        [Cookie.Build_t "_ga" "Session"
           "Google Analytics cookie used to distinguish users (2 years)"];
      Snapshot.performance := [];
      Snapshot.advertising := [];
      Snapshot.uncategorized := [] |}.
Proof. reflexivity. Qed.

(** C5, at a failing input.  The cookie [_ga(=GA1] has the name [_ga(],
    which contains the pattern [_ga]; the loop settles on analytics, but the
    name is spliced unescaped into the regular expression of
    [getCookieDuration], the pattern has an unterminated group, and the scan
    ends in a SyntaxError instead of a snapshot. *)
Theorem scan_throws_on_categorized_name (h : Host) (now : Z) :
  Substring "_ga" "_ga(" /\
  firstMatch cookieDatabase "_ga(" = Some Category.analytics /\
  scanAndCategorizeCookies h now "_ga(=GA1" = Throw SyntaxError.
Proof.
  split; [now exists EmptyString, "("|]. split; reflexivity.
Qed.

(** C6, at a failing input.  The cookie [a(=1] has the non-empty name [a(],
    which contains no pattern; instead of appending it to the uncategorized
    sequence the scan ends in the SyntaxError of [getCookieDuration]. *)
Theorem scan_throws_on_uncategorized_name (h : Host) (now : Z) :
  nonEmpty "a(" = true /\
  firstMatch cookieDatabase "a(" = None /\
  scanAndCategorizeCookies h now "a(=1" = Throw SyntaxError.
Proof. repeat split. Qed.

End ScannerFacts.

(** * The cookie accessors *)

Module CookieAccess.
Import JsString CookieJar StringFacts JarFacts GetCookieFacts JarInvariant.






(** [getCookie] against the store: on a well-formed store, and for a name
    without an equals sign, the loop over the pieces of [document.cookie]
    returns the value stored under exactly that name, and [null] when the
    store holds no cookie of that name. *)
Theorem getCookie_reads_store (w : World) (name : string) :
  wf (jar w) = true -> hasChar "=" name = false ->
  getCookie w name = find name (jar w).
Proof. intros Hj Hname. now apply getCookie_find. Qed.

Lemma getCookie_reads_store_witness :
  wf (jar malformedPage) = true /\ hasChar "=" "cookie_consent" = false /\
  getCookie malformedPage "cookie_consent" = find "cookie_consent" (jar malformedPage).
Proof.
  split; [reflexivity|]. split; [reflexivity|].
  exact (getCookie_reads_store malformedPage "cookie_consent" eq_refl eq_refl).
Defined.



End CookieAccess.

(** * The scanner on the text of the cookie store *)

Module DurationFacts.
Import JsString CookieJar RegExpModel StringFacts JarFacts GetCookieFacts.

Lemma stripPrefix_inv (p s r : string) :
  Json.stripPrefix p s = Some r -> s = p ++ r.
Proof.
  revert s; induction p as [|c p IH]; intros s; cbn [Json.stripPrefix append].
  - now intros [= ->].
  - destruct s as [|d s]; [discriminate|].
    destruct (Ascii.eqb d c) eqn:E; [|discriminate].
    apply Ascii.eqb_eq in E. subst d. intros H. now rewrite (IH _ H).
Qed.

Lemma spanNotSemi_app (s : string) :
  s = fst (spanNotSemi s) ++ snd (spanNotSemi s).
Proof.
  induction s as [|c s IH]; cbn [spanNotSemi]; [reflexivity|].
  destruct (Ascii.eqb c ";"); [reflexivity|].
  destruct (spanNotSemi s) as [a b]. cbn [fst snd append] in *. now rewrite <- IH.
Qed.

(** Where the second expression matches, the text [; expires=] occurs. *)
Lemma expiresAt_includes (name s x : string) :
  expiresAt name s = Some x -> includes s "; expires=" = true.
Proof.
  unfold expiresAt.
  destruct (Json.stripPrefix (name ++ "=") s) as [r|] eqn:E1; [|discriminate].
  pose proof (spanNotSemi_app r) as E2.
  destruct (spanNotSemi r) as [run rest]. cbn [fst snd] in E2.
  destruct (nonEmpty run); [|discriminate].
  destruct (Json.stripPrefix "; expires=" rest) as [r2|] eqn:E3; [|discriminate].
  intros _. apply includes_spec.
  apply stripPrefix_inv in E1, E3. subst s r rest.
  exists ((name ++ "=") ++ run), r2. now rewrite !app_assoc.
Qed.

Lemma search_expires_includes (name s x : string) :
  search (expiresAt name) s = Some x -> includes s "; expires=" = true.
Proof.
  induction s as [|c s IH]; cbn [search].
  - destruct (expiresAt name EmptyString) eqn:E; [|discriminate].
    intros _. exact (expiresAt_includes _ _ _ E).
  - destruct (expiresAt name (String c s)) eqn:E.
    + intros _. exact (expiresAt_includes _ _ _ E).
    + intros H. cbn [includes]. rewrite (IH H). apply orb_true_r.
Qed.

(** A pattern that begins with [c] is not found before the first [c]. *)
Lemma includes_skip (c : ascii) (a rest p : string) :
  hasChar c a = false ->
  includes (a ++ rest) (String c p) = includes rest (String c p).
Proof.
  induction a as [|x a IH]; cbn [append hasChar]; [reflexivity|].
  intros H. apply orb_false_iff in H as [H1 H2].
  cbn [includes startsWith]. now rewrite H1, (IH H2).
Qed.

Lemma includes_cons (x : ascii) (s p : string) :
  includes (String x s) p = startsWith (String x s) p || includes s p.
Proof. reflexivity. Qed.

Lemma startsWith_prefix (a s p : string) :
  startsWith (a ++ s) (a ++ p) = startsWith s p.
Proof.
  induction a as [|c a IH]; cbn [append startsWith]; [reflexivity|].
  now rewrite Ascii.eqb_refl, IH.
Qed.

Lemma includes_nochar (c : ascii) (a p : string) :
  hasChar c a = false -> includes a (String c p) = false.
Proof.
  intros H. rewrite <- (app_nil_r a), (includes_skip _ _ _ _ H). reflexivity.
Qed.

Lemma wfEntry_name (p : string * string) :
  wfEntry p = true -> hasChar "=" (fst p) = false.
Proof.
  unfold wfEntry. intros H.
  apply andb_true_iff in H as [H _]. apply andb_true_iff in H as [H _].
  apply andb_true_iff in H as [_ H]. now apply negb_true_iff in H.
Qed.

Lemma read_head (p : string * string) (j : CookieJar.t) :
  exists rest, read (p :: j) = fst p ++ "=" ++ (snd p ++ rest).
Proof.
  destruct j as [|q j].
  - exists EmptyString. unfold read. cbn [map join]. now rewrite app_nil_r.
  - eexists. rewrite read_cons, !app_assoc. cbn [append]. reflexivity.
Qed.

(** The getter never shows an [expires] attribute: the text [; expires=]
    occurs in [document.cookie] only before a cookie named [expires]. *)
Lemma read_no_expires (j : CookieJar.t) :
  wf j = true -> find "expires" j = None ->
  forall pre, hasChar ";" pre = false ->
  includes (pre ++ read j) "; expires=" = false.
Proof.
  intros Hj Hf. induction j as [|p j IH]; intros pre Hpre.
  - cbn [read map join]. rewrite app_nil_r. now apply includes_nochar.
  - cbn [wf forallb] in Hj. apply andb_true_iff in Hj as [Hp Hj].
    destruct p as [n v]. cbn [find] in Hf.
    destruct (String.eqb n "expires") eqn:En; [discriminate|].
    destruct j as [|q j].
    + apply includes_nochar. rewrite hasChar_app, Hpre.
      exact (hasChar_entry _ Hp).
    + rewrite read_cons, <- app_assoc.
      rewrite includes_skip
        by (rewrite hasChar_app, Hpre; exact (hasChar_entry _ Hp)).
      rewrite includes_cons.
      change (String ";" (" " ++ read (q :: j))) with ("; " ++ read (q :: j)) at 1.
      change "; expires=" with ("; " ++ "expires=") at 1.
      rewrite startsWith_prefix.
      assert (Hq : startsWith (read (q :: j)) "expires=" = false).
      { destruct (read_head q j) as [rest ->].
        cbn [wf forallb] in Hj. apply andb_true_iff in Hj as [Hq _].
        change "expires=" with ("expires" ++ "=").
        rewrite startsWith_entry; [|exact (wfEntry_name _ Hq)|reflexivity].
        destruct q as [n' v']. cbn [find fst] in *.
        destruct (String.eqb n' "expires"); [discriminate|reflexivity]. }
      rewrite Hq. cbn [orb].
      apply (IH Hj); [|reflexivity].
      destruct q as [n' v']. cbn [find] in Hf |- *. exact Hf.
Qed.

(** The duration column.  [document.cookie] shows names and values only, so
    on the text the getter returns the second expression of
    [getCookieDuration] finds nothing and the answer is Session for every
    name without syntax characters, whatever expiry the cookie has; the
    branches Persistent and Expired need a cookie that is itself named
    [expires]. *)
Theorem duration_always_session (h : Host) (now : Z) (j : CookieJar.t)
  (name : string) :
  wf j = true -> classify name = Literal -> find "expires" j = None ->
  getCookieDuration h now (read j) name = Normal "Session".
Proof.
  intros Hj Hl Hf. unfold getCookieDuration. rewrite Hl.
  destruct (search (cookieAt name) (read j)); [|reflexivity].
  destruct (search (expiresAt name) (read j)) as [x|] eqn:E; [|reflexivity].
  apply search_expires_includes in E.
  pose proof (read_no_expires j Hj Hf EmptyString eq_refl) as E'.
  cbn [append] in E'. congruence.
Qed.

Lemma duration_always_session_witness :
  wf [("_ga", "GA1.2.3"); ("cookie_consent", "x")] = true /\
  classify "_ga" = Literal /\
  find "expires" [("_ga", "GA1.2.3"); ("cookie_consent", "x")] = None /\
  getCookieDuration fixedHost 0
    (read [("_ga", "GA1.2.3"); ("cookie_consent", "x")]) "_ga"
  = Normal "Session".
Proof.
  split; [reflexivity|]. split; [reflexivity|]. split; [reflexivity|].
  exact (duration_always_session fixedHost 0
           [("_ga", "GA1.2.3"); ("cookie_consent", "x")] "_ga"
           eq_refl eq_refl eq_refl).
Defined.

End DurationFacts.

Module StoreScan.
Import JsString CookieJar RegExpModel StringFacts JarFacts GetCookieFacts
       DurationFacts.

Lemma trimStart_blank (pre s : string) :
  trimStart pre = EmptyString -> trimStart (pre ++ s) = trimStart s.
Proof.
  induction pre as [|c pre IH]; [reflexivity|].
  cbn [trimStart append]. destruct (isWhiteSpace c); [exact IH|discriminate].
Qed.

Lemma trimStart_clean (n r : string) :
  startsClean n = true -> trimStart (n ++ r) = n ++ r.
Proof.
  destruct n as [|c n]; [discriminate|]. cbn [startsClean append trimStart].
  intros H. apply negb_true_iff in H. now rewrite H.
Qed.

Lemma trimEnd_keep (a : string) (c : ascii) (b : string) :
  isWhiteSpace c = false ->
  trimEnd (a ++ String c b) = a ++ String c (trimEnd b).
Proof.
  intros H. induction a as [|x a IH]; cbn [append trimEnd].
  - destruct (trimEnd b); [now rewrite H|reflexivity].
  - rewrite IH. now destruct a.
Qed.

(** The name the callback parses out of a piece of [document.cookie]. *)
Lemma parsedName (pre n v : string) :
  trimStart pre = EmptyString -> startsClean n = true ->
  hasChar "=" n = false ->
  hd EmptyString (split "=" (trim (pre ++ n ++ "=" ++ v))) = n.
Proof.
  intros Hpre Hn Heq. unfold trim.
  rewrite (trimStart_blank _ _ Hpre), (trimStart_clean _ _ Hn).
  change (n ++ "=" ++ v) with (n ++ String "=" v).
  rewrite trimEnd_keep by reflexivity.
  now rewrite (split_app _ _ _ Heq).
Qed.

Lemma get_push (r : Snapshot.t) (c c' : Category.t) (x : Cookie.t) :
  Snapshot.get (Snapshot.push r c x) c'
  = if categoryEqb c c' then (Snapshot.get r c' ++ [x])%list else Snapshot.get r c'.
Proof. destruct c, c'; reflexivity. Qed.

Lemma scannable_inv (p : string * string) :
  scannable p = true ->
  startsClean (fst p) = true /\ classify (fst p) = Literal.
Proof.
  unfold scannable, classify. intros H. apply andb_true_iff in H as [H1 H2].
  now rewrite H2.
Qed.

Lemma startsClean_nonEmpty (n : string) : startsClean n = true -> nonEmpty n = true.
Proof. now destruct n. Qed.

(** One piece: the callback appends one record, to the sequence of the
    name's category. *)
Lemma scanCookie_piece (h : Host) (now : Z) (doc pre : string)
  (p : string * string) (r : Snapshot.t) :
  wfEntry p = true -> scannable p = true -> trimStart pre = EmptyString ->
  exists x,
    scanCookie h now doc r (pre ++ fst p ++ "=" ++ snd p)
    = Normal (Snapshot.push r (categoryFor (fst p)) x) /\
    describes h now doc x (fst p).
Proof.
  intros Hp Hs Hpre. destruct (scannable_inv _ Hs) as [Hc Hl].
  unfold scanCookie.
  rewrite (parsedName _ _ _ Hpre Hc (wfEntry_name _ Hp)).
  unfold getCookieDuration at 1 2. rewrite Hl.
  unfold categoryFor, describes, descriptionFor, getCookieDuration. rewrite Hl.
  rewrite (startsClean_nonEmpty _ Hc).
  destruct (firstMatch cookieDatabase (fst p));
    destruct (search (cookieAt (fst p)) doc);
    try (eexists; split; [reflexivity|repeat split]);
    destruct (search (expiresAt (fst p)) doc);
    try (eexists; split; [reflexivity|repeat split]);
    destruct (dateParse h s); eexists; (split; [reflexivity|repeat split]).
Qed.

Lemma namesIn_cons (c : Category.t) (p : string * string) (j : CookieJar.t) :
  namesIn c (p :: j)
  = if categoryEqb (categoryFor (fst p)) c then fst p :: namesIn c j
    else namesIn c j.
Proof. reflexivity. Qed.

Lemma scan_pieces (h : Host) (now : Z) (doc : string) (j : CookieJar.t) :
  j <> [] -> wf j = true -> forallb scannable j = true ->
  forall pre r, trimStart pre = EmptyString -> hasChar ";" pre = false ->
  exists r',
    forEach (scanCookie h now doc) (split ";" (pre ++ read j)) r = Normal r' /\
    forall c, exists added,
      Snapshot.get r' c = (Snapshot.get r c ++ added)%list /\
      Forall2 (describes h now doc) added (namesIn c j).
Proof.
  induction j as [|p j IH]; [congruence|]. intros _ Hj Hs pre r Hpre Hsemi.
  cbn [wf forallb] in Hj, Hs.
  apply andb_true_iff in Hj as [Hp Hj]. apply andb_true_iff in Hs as [Hsp Hs].
  destruct j as [|q j].
  - change (read [p]) with (fst p ++ "=" ++ snd p).
    rewrite split_nosep
      by (rewrite hasChar_app, Hsemi; exact (hasChar_entry _ Hp)).
    destruct (scanCookie_piece h now doc pre p r Hp Hsp Hpre) as (x & E & Hx).
    cbn [forEach]. rewrite E. cbn [bind]. eexists. split; [reflexivity|].
    intros c. rewrite get_push, namesIn_cons.
    change (namesIn c []) with (@nil string).
    destruct (categoryEqb (categoryFor (fst p)) c).
    + exists [x]. split; [reflexivity|]. constructor; [exact Hx|constructor].
    + exists []. split; [now rewrite List.app_nil_r|constructor].
  - rewrite read_cons, <- app_assoc.
    rewrite split_app
      by (rewrite hasChar_app, Hsemi; exact (hasChar_entry _ Hp)).
    destruct (scanCookie_piece h now doc pre p r Hp Hsp Hpre) as (x & E & Hx).
    cbn [forEach]. rewrite E. cbn [bind].
    destruct (IH ltac:(discriminate) Hj Hs " "
                (Snapshot.push r (categoryFor (fst p)) x) eq_refl eq_refl)
      as (r' & E' & Hr').
    exists r'. split; [exact E'|].
    intros c. destruct (Hr' c) as (added & Ha & Hf).
    rewrite get_push in Ha. rewrite namesIn_cons.
    destruct (categoryEqb (categoryFor (fst p)) c).
    + exists (x :: added). split.
      * rewrite Ha, <- List.app_assoc. reflexivity.
      * constructor; [exact Hx|exact Hf].
    + exists added. split; [exact Ha|exact Hf].
Qed.

(** No name that objects inherit contains a pattern of the database: the
    lookup [descriptions[name]] is made for categorized names only, and so
    never reads an inherited property. *)
Lemma inherited_names_uncategorized :
  forallb (fun n => match firstMatch cookieDatabase n with
                    | None => true
                    | Some _ => false
                    end) inheritedNames = true.
Proof. reflexivity. Qed.

Lemma scan_store (h : Host) (now : Z) (j : CookieJar.t) :
  wf j = true -> forallb scannable j = true ->
  exists s,
    scanAndCategorizeCookies h now (read j) = Normal s /\
    forall c, Forall2 (describes h now (read j)) (Snapshot.get s c) (namesIn c j).
Proof.
  intros Hj Hs. unfold scanAndCategorizeCookies.
  destruct j as [|p j].
  - exists Snapshot.empty. split; [reflexivity|].
    intros c. destruct c; constructor.
  - destruct (scan_pieces h now (read (p :: j)) (p :: j) ltac:(discriminate)
                Hj Hs EmptyString Snapshot.empty eq_refl eq_refl)
      as (s & E & Hs').
    exists s. split; [exact E|].
    intros c. destruct (Hs' c) as (added & Ha & Hf).
    replace (Snapshot.get s c) with added; [exact Hf|].
    rewrite Ha. now destruct c.
Qed.

(** The scan of a store.  When every stored name is non-empty, begins with
    no white space and has no syntax character of the pattern grammar, the
    scan of [document.cookie] returns a snapshot, and each of its five
    sequences holds, in store order, exactly one record for every stored
    cookie whose first matching pattern has that category (for
    [uncategorized]: that matches no pattern), with the name, the description
    and the duration the script computes for that name.  No cookie is left
    out and none is listed twice. *)
Theorem scan_partitions_store (h : Host) (now : Z) (j : CookieJar.t) :
  wf j = true -> forallb scannable j = true ->
  exists s,
    scanAndCategorizeCookies h now (read j) = Normal s /\
    (forall c, Forall2 (describes h now (read j)) (Snapshot.get s c) (namesIn c j)) /\
    List.length (Snapshot.functional s) + List.length (Snapshot.analytics s) +
    List.length (Snapshot.performance s) + List.length (Snapshot.advertising s) +
    List.length (Snapshot.uncategorized s) = List.length j.
Proof.
  intros Hj Hs. destruct (scan_store h now j Hj Hs) as (s & E & H).
  exists s. split; [exact E|]. split; [exact H|].
  pose proof (H Category.functional) as H1. apply Forall2_length in H1.
  pose proof (H Category.analytics) as H2. apply Forall2_length in H2.
  pose proof (H Category.performance) as H3. apply Forall2_length in H3.
  pose proof (H Category.advertising) as H4. apply Forall2_length in H4.
  pose proof (H Category.uncategorized) as H5. apply Forall2_length in H5.
  cbn [Snapshot.get] in *. rewrite H1, H2, H3, H4, H5.
  clear. unfold namesIn. induction j as [|p j IH]; [reflexivity|].
  cbn [map filter List.length].
  destruct (categoryFor (fst p)); cbn [categoryEqb List.length]; lia.
Qed.

Lemma scan_partitions_store_witness :
  wf [("_ga", "GA1.2.3"); ("wp-settings", "abc"); ("theme", "dark")] = true /\
  forallb scannable [("_ga", "GA1.2.3"); ("wp-settings", "abc"); ("theme", "dark")]
  = true /\
  exists s,
    scanAndCategorizeCookies fixedHost 0
      (read [("_ga", "GA1.2.3"); ("wp-settings", "abc"); ("theme", "dark")])
    = Normal s /\
    (forall c,
       Forall2
         (describes fixedHost 0
            (read [("_ga", "GA1.2.3"); ("wp-settings", "abc"); ("theme", "dark")]))
         (Snapshot.get s c)
         (namesIn c [("_ga", "GA1.2.3"); ("wp-settings", "abc"); ("theme", "dark")])) /\
    List.length (Snapshot.functional s) + List.length (Snapshot.analytics s) +
    List.length (Snapshot.performance s) + List.length (Snapshot.advertising s) +
    List.length (Snapshot.uncategorized s) = 3.
Proof.
  split; [reflexivity|]. split; [reflexivity|].
  exact (scan_partitions_store fixedHost 0
           [("_ga", "GA1.2.3"); ("wp-settings", "abc"); ("theme", "dark")]
           eq_refl eq_refl).
Defined.

End StoreScan.

(** * The cookie table *)

Module TableFacts.
Import JsString StringFacts.

Lemma rows_fold (cookies : list Cookie.t) (html : string) :
  fold_left (fun html cookie => html ++ tableRow cookie) cookies html
  = html ++ tableRows cookies.
Proof.
  revert html; induction cookies as [|c cookies IH]; intros html;
    cbn [fold_left tableRows fold_right].
  - now rewrite app_nil_r.
  - rewrite IH. apply app_assoc.
Qed.

Lemma tableRows_app (l1 l2 : list Cookie.t) :
  tableRows (l1 ++ l2) = tableRows l1 ++ tableRows l2.
Proof.
  induction l1 as [|c l1 IH]; cbn [tableRows fold_right app]; [reflexivity|].
  fold (tableRows (l1 ++ l2)). fold (tableRows l1).
  now rewrite IH, app_assoc.
Qed.

Lemma substring_within (p s a b : string) :
  Substring p s -> Substring p (a ++ s ++ b).
Proof.
  intros (x & y & ->). exists (a ++ x), (y ++ b). now rewrite !app_assoc.
Qed.

Lemma tableRow_name (c : Cookie.t) :
  Substring ("<td><code>" ++ Cookie.name c ++ "</code></td>") (tableRow c).
Proof.
  exists (newline ++ "            <tr>" ++ newline ++ "                ").
  eexists. unfold tableRow, lines. cbn [join].
  rewrite !app_assoc. cbn [append]. reflexivity.
Qed.

(** [generateCookieTable]: the fixed paragraph for an empty list; for any
    other list the opening tags, one row per cookie in list order, and the
    closing tags.  The three fields of a cookie are pasted into the row as
    they are, without escaping: the name stands between the [code] tags
    verbatim. *)
Theorem generateCookieTable_rows (cookies : list Cookie.t) :
  (cookies = [] -> generateCookieTable cookies = noCookiesDetected) /\
  (cookies <> [] ->
   generateCookieTable cookies = tableOpening ++ tableRows cookies ++ tableClosing) /\
  (forall c, In c cookies ->
   Substring ("<td><code>" ++ Cookie.name c ++ "</code></td>")
             (generateCookieTable cookies)).
Proof.
  assert (E : cookies <> [] ->
              generateCookieTable cookies
              = tableOpening ++ tableRows cookies ++ tableClosing).
  { destruct cookies as [|c cookies]; [congruence|]. intros _.
    unfold generateCookieTable. rewrite rows_fold. apply app_assoc. }
  split; [now intros ->|]. split; [exact E|].
  intros c Hin. rewrite E by (intros ->; destruct Hin).
  apply in_split in Hin as (l1 & l2 & ->).
  rewrite tableRows_app. cbn [tableRows fold_right]. fold (tableRows l2).
  rewrite !app_assoc. rewrite <- (app_assoc tableOpening).
  apply substring_within, tableRow_name.
Qed.

End TableFacts.

(** * Sessions *)

Module SessionFacts.
Import JsonPrint CookieJar PersistFacts UpdateFacts WriterFacts DecisionFacts
       JarFacts GetCookieFacts.

Lemma bind_normal {A B : Type} (c : Completion A) (k : A -> Completion B) (b : B) :
  bind c k = Normal b -> exists a, c = Normal a /\ k a = Normal b.
Proof. destruct c; cbn [bind]; intros H; [eauto|discriminate|discriminate]. Qed.

Lemma getCookie_withWidget (w : World) (x : option Widget) (name : string) :
  getCookie (withWidget w x) name = getCookie w name.
Proof. reflexivity. Qed.

(** The panel on a stored decision: the toggles take the stored choices. *)
Lemma showCookieSettings_stored (w : World) (x : Widget) (d : Decision.t) :
  wf (jar w) = true -> widget w = Some x ->
  Decision.timeValue (Decision.timestamp d) = true ->
  find "cookie_consent" (jar w) = Some (render (Decision.toValue d)) ->
  showCookieSettings w = Normal (withWidget w (Some (togglesOf d (panelOpen x)))).
Proof.
  intros Hwf Hx Hd Hf. unfold showCookieSettings, hideCookieBanner, onWidget.
  rewrite Hx. cbn [bind widget withWidget].
  rewrite !getCookie_withWidget, (getCookie_find w "cookie_consent" Hwf eq_refl), Hf.
  change (JsString.nonEmpty (render (Decision.toValue d))) with true. cbv iota.
  rewrite (decision_parse d Hd). cbn [bind].
  destruct (categoryOf_decision d) as (_ & Ha & Hp & Hv & Hu).
  rewrite Ha, Hp, Hv. cbn [bind uncategorizedChecked setBannerDisplay setModalDisplay].
  unfold togglesOf, panelOpen.
  destruct (uncategorizedChecked x) eqn:Eu.
  - rewrite Hu. cbn [bind truthy]. cbn. rewrite Eu. reflexivity.
  - cbn. rewrite Eu. reflexivity.
Qed.

Lemma showCookieSettings_absent (w : World) (x : Widget) :
  wf (jar w) = true -> widget w = Some x ->
  find "cookie_consent" (jar w) = None ->
  showCookieSettings w = Normal (withWidget w (Some (panelOpen x))).
Proof.
  intros Hwf Hx Hf. unfold showCookieSettings, hideCookieBanner, onWidget.
  rewrite Hx. cbn [bind widget withWidget].
  rewrite !getCookie_withWidget, (getCookie_find w "cookie_consent" Hwf eq_refl), Hf.
  reflexivity.
Qed.

(** Opening the panel.  With a stored decision the three optional toggles
    show the stored choices, whatever they showed before, and the
    uncategorized toggle does when it exists; the functional toggle is not
    touched.  Without a consent cookie the toggles stay as they are.  In both
    cases the panel is displayed and the banner hidden. *)
Theorem panel_shows_stored_choices (w : World) (x : Widget) :
  wf (jar w) = true -> widget w = Some x ->
  (forall d, Decision.timeValue (Decision.timestamp d) = true ->
     find "cookie_consent" (jar w) = Some (render (Decision.toValue d)) ->
     exists x',
       showCookieSettings w = Normal (withWidget w (Some x')) /\
       analyticsChecked x' = Decision.analytics (Decision.categories d) /\
       performanceChecked x' = Decision.performance (Decision.categories d) /\
       advertisingChecked x' = Decision.advertising (Decision.categories d) /\
       uncategorizedChecked x'
       = option_map (fun _ => Decision.uncategorized (Decision.categories d))
                    (uncategorizedChecked x) /\
       functionalChecked x' = functionalChecked x /\
       modalDisplay x' = "block" /\ bannerDisplay x' = "none") /\
  (find "cookie_consent" (jar w) = None ->
   showCookieSettings w = Normal (withWidget w (Some (panelOpen x)))).
Proof.
  intros Hwf Hx. split.
  - intros d Hd Hf. exists (togglesOf d (panelOpen x)).
    split; [now apply showCookieSettings_stored|]. repeat split.
  - now apply showCookieSettings_absent.
Qed.

Lemma panel_shows_stored_choices_witness :
  let w := valueOr (acceptAllCookies fixedHost samplePage) samplePage in
  let x := plainWidget false in
  let d := acceptAllData (now samplePage) in
  wf (jar w) = true /\ widget w = Some x /\
  Decision.timeValue (Decision.timestamp d) = true /\
  find "cookie_consent" (jar w) = Some (render (Decision.toValue d)) /\
  exists x',
    showCookieSettings w = Normal (withWidget w (Some x')) /\
    analyticsChecked x' = true /\ performanceChecked x' = true /\
    advertisingChecked x' = true /\ uncategorizedChecked x' = None /\
    functionalChecked x' = true /\
    modalDisplay x' = "block" /\ bannerDisplay x' = "none".
Proof.
  intros w x d.
  split; [reflexivity|]. split; [reflexivity|]. split; [reflexivity|].
  split; [reflexivity|].
  exact (proj1 (panel_shows_stored_choices w x eq_refl eq_refl) d eq_refl eq_refl).
Defined.

End SessionFacts.

Module RunFacts.
Import JsonPrint CookieJar PersistFacts UpdateFacts WriterFacts DecisionFacts
       JarFacts GetCookieFacts JarInvariant SessionFacts.

(** ** What a call can change *)

Lemma grows_refl (w : World) : grows w w.
Proof. exists []. now rewrite List.app_nil_r. Qed.

Lemma grows_trans (w1 w2 w3 : World) : grows w1 w2 -> grows w2 w3 -> grows w1 w3.
Proof.
  intros [l1 E1] [l2 E2]. exists (l1 ++ l2)%list.
  now rewrite E2, E1, List.app_assoc.
Qed.

Lemma pixelStep_refl (w : World) : pixelStep w w.
Proof. left. split; reflexivity. Qed.

Lemma pixelStep_trans (w1 w2 w3 : World) :
  pixelStep w1 w2 -> pixelStep w2 w3 -> pixelStep w1 w3.
Proof.
  intros [[F1 S1]|(N1 & F1 & S1)] [[F2 S2]|(N2 & F2 & S2)].
  - left. split; congruence.
  - right. repeat split; congruence.
  - right. repeat split; congruence.
  - congruence.
Qed.

Lemma advances_refl (w : World) : advances w w.
Proof. split; [apply grows_refl|apply pixelStep_refl]. Qed.

Lemma advances_trans (w1 w2 w3 : World) :
  advances w1 w2 -> advances w2 w3 -> advances w1 w3.
Proof.
  intros [G1 P1] [G2 P2].
  split; [exact (grows_trans _ _ _ G1 G2)|exact (pixelStep_trans _ _ _ P1 P2)].
Qed.

Lemma sameRecords_advances (w w' : World) : sameRecords w w' -> advances w w'.
Proof.
  intros (_ & Hd & _ & Hf & Hs & _). split.
  - exists []. now rewrite List.app_nil_r.
  - left. now split.
Qed.

Lemma sameRecords_trans (w1 w2 w3 : World) :
  sameRecords w1 w2 -> sameRecords w2 w3 -> sameRecords w1 w3.
Proof.
  unfold sameRecords. intros (A1 & A2 & A3 & A4 & A5 & A6) (B1 & B2 & B3 & B4 & B5 & B6).
  repeat split; congruence.
Qed.

Lemma onWidget_same (w w' : World) (f : Widget -> Widget) :
  onWidget w f = Normal w' ->
  sameRecords w w' /\ exists x, widget w = Some x /\ widget w' = Some (f x).
Proof.
  unfold onWidget. destruct (widget w) as [x|] eqn:E; [|discriminate].
  intros [= <-]. split; [repeat split|]. now exists x.
Qed.

(** [showCookieSettings] writes the widget and nothing else, whatever the
    consent cookie holds. *)
Lemma showCookieSettings_same (w w' : World) :
  showCookieSettings w = Normal w' -> sameRecords w w'.
Proof.
  unfold showCookieSettings, hideCookieBanner. intros H.
  apply bind_normal in H as (w1 & E1 & H).
  apply bind_normal in H as (w2 & E2 & H).
  apply onWidget_same in E1 as [S1 _]. apply onWidget_same in E2 as [S2 _].
  pose proof (sameRecords_trans _ _ _ S1 S2) as S.
  destruct (getCookie w2 "cookie_consent") as [consent|]; [|now injection H as <-].
  destruct (JsString.nonEmpty consent); [|now injection H as <-].
  apply bind_normal in H as (v & _ & H).
  apply bind_normal in H as (a & _ & H).
  apply bind_normal in H as (p & _ & H).
  apply bind_normal in H as (d & _ & H).
  destruct (widget w2) as [x|]; [|discriminate].
  destruct (uncategorizedChecked x).
  - apply bind_normal in H as (u & _ & H). injection H as <-. exact S.
  - injection H as <-. exact S.
Qed.

Lemma updateConsentMode_effects (h : Host) (w w' : World) (v : value) :
  updateConsentMode h w v = Normal w' ->
  grows w w' /\ jar w' = jar w /\ widget w' = widget w /\ fbq w' = fbq w /\
  scripts w' = scripts w /\ loaderCalls w' = loaderCalls w.
Proof.
  unfold updateConsentMode. intros H.
  apply bind_normal in H as (cs & _ & H).
  apply bind_normal in H as (g & _ & H).
  injection H as <-. split; [|repeat split].
  eexists. cbn [dataLayer consoleLog withConsole withDataLayer gtag].
  rewrite <- List.app_assoc. reflexivity.
Qed.

Lemma loadAnalytics_effects (w : World) :
  grows w (loadAnalyticsCookies w) /\
  fbq (loadAnalyticsCookies w) = fbq w /\
  scripts (loadAnalyticsCookies w) = scripts w.
Proof.
  unfold loadAnalyticsCookies.
  cbn [gaDefined withLoaderCalls consoleLog withConsole].
  destruct (gaDefined w).
  - split; [|split; reflexivity].
    exists []. cbn. now rewrite List.app_nil_r.
  - split; [|split; reflexivity].
    eexists. cbn [dataLayer gtag withDataLayer withLoaderCalls].
    rewrite <- List.app_assoc. reflexivity.
Qed.

Lemma loadAdvertising_effects (w w' : World) :
  loadAdvertisingCookies w = Normal w' ->
  dataLayer w' = dataLayer w /\ pixelStep w w' /\
  jar w' = jar w /\ widget w' = widget w.
Proof.
  unfold loadAdvertisingCookies.
  cbn [fbq scripts withLoaderCalls consoleLog withConsole].
  destruct (fbq w) eqn:E.
  - intros [= <-]. split; [reflexivity|]. split; [|split; reflexivity].
    left. cbn. now rewrite E.
  - destruct (scripts w) eqn:S; [discriminate|].
    intros [= <-]. split; [reflexivity|]. split; [|split; reflexivity].
    right. cbn. now rewrite E, S.
Qed.

Lemma loadCookies_effects (w w' : World) (v : value) :
  loadCookiesAccordingToConsent w v = Normal w' ->
  advances w w' /\ jar w' = jar w /\ widget w' = widget w.
Proof.
  unfold loadCookiesAccordingToConsent. intros H.
  apply bind_normal in H as (a & _ & H).
  apply bind_normal in H as (d & _ & H).
  apply bind_normal in H as (w2 & E2 & H).
  apply bind_normal in H as (p & _ & H).
  injection H as <-.
  set (w1 := if truthy a then loadAnalyticsCookies w else w) in *.
  assert (A1 : advances w w1 /\ jar w1 = jar w /\ widget w1 = widget w).
  { subst w1. destruct (truthy a); [|split; [apply advances_refl|now split]].
    destruct (loadAnalytics_effects w) as (G & F & S).
    destruct (loadAnalytics_frame w) as (_ & J & W & _).
    split; [|now split]. split; [exact G|left; now split]. }
  assert (A2 : advances w1 w2 /\ jar w2 = jar w1 /\ widget w2 = widget w1).
  { destruct (truthy d).
    - destruct (loadAdvertising_effects w1 w2 E2) as (D & P & J & W).
      split; [|now split]. split; [|exact P].
      exists []. now rewrite D, List.app_nil_r.
    - injection E2 as <-. split; [apply advances_refl|now split]. }
  destruct A1 as (A1 & J1 & W1), A2 as (A2 & J2 & W2).
  pose proof (advances_trans _ _ _ A1 A2) as A.
  destruct (truthy p).
  - split; [|split; cbn; congruence].
    apply (advances_trans _ _ _ A). split.
    + exists []. cbn. now rewrite List.app_nil_r.
    + left. split; reflexivity.
  - split; [exact A|split; congruence].
Qed.

Lemma persist_effects (h : Host) (w w' : World) (v : value) :
  persist h w v = Normal w' ->
  dataLayer w' = dataLayer w /\ fbq w' = fbq w /\ scripts w' = scripts w /\
  widget w' = widget w.
Proof.
  unfold persist. intros H. apply bind_normal in H as (text & _ & H).
  unfold setCookie in H. apply bind_normal in H as (j & _ & H).
  injection H as <-. repeat split.
Qed.

Lemma persist_advances (h : Host) (w w' : World) (v : value) :
  persist h w v = Normal w' -> advances w w'.
Proof.
  intros H. apply persist_effects in H as (D & F & S & _). split.
  - exists []. now rewrite List.app_nil_r.
  - left. now split.
Qed.

Lemma update_advances (h : Host) (w w' : World) (v : value) :
  updateConsentMode h w v = Normal w' -> advances w w'.
Proof.
  intros H. apply updateConsentMode_effects in H as (G & _ & _ & F & S & _).
  split; [exact G|left; now split].
Qed.

Lemma decide_and_load_advances (h : Host) (w w' : World) (v : value) :
  (w1 <- persist h w v ;;
   w2 <- updateConsentMode h w1 v ;;
   loadCookiesAccordingToConsent w2 v) = Normal w' ->
  advances w w'.
Proof.
  intros H. apply bind_normal in H as (w1 & E1 & H).
  apply bind_normal in H as (w2 & E2 & H).
  apply persist_advances in E1. apply update_advances in E2.
  apply loadCookies_effects in H as [A _].
  exact (advances_trans _ _ _ (advances_trans _ _ _ E1 E2) A).
Qed.

Lemma onWidget_advances (w w' : World) (f : Widget -> Widget) :
  onWidget w f = Normal w' -> advances w w'.
Proof. intros H. apply onWidget_same in H as [S _]. now apply sameRecords_advances. Qed.

Lemma listener_advances (h : Host) (b : Button) (w w' : World) :
  listener h b w = Normal w' -> advances w w'.
Proof.
  destruct b; cbn [listener]; intros H.
  - apply bind_normal in H as (w1 & E & H).
    apply decide_and_load_advances in E. apply onWidget_advances in H.
    exact (advances_trans _ _ _ E H).
  - apply bind_normal in H as (w1 & E & H).
    unfold rejectAllCookies in E. apply bind_normal in E as (w0 & E0 & E).
    apply persist_advances in E0. apply update_advances in E.
    apply onWidget_advances in H.
    exact (advances_trans _ _ _ (advances_trans _ _ _ E0 E) H).
  - apply showCookieSettings_same in H. now apply sameRecords_advances.
  - apply bind_normal in H as (w1 & E & H).
    apply decide_and_load_advances in E. apply onWidget_advances in H.
    exact (advances_trans _ _ _ E H).
  - apply bind_normal in H as (w1 & E & H).
    unfold rejectAllCookies in E. apply bind_normal in E as (w0 & E0 & E).
    apply persist_advances in E0. apply update_advances in E.
    apply onWidget_advances in H.
    exact (advances_trans _ _ _ (advances_trans _ _ _ E0 E) H).
  - apply bind_normal in H as (w1 & E & H).
    unfold saveCustomSettings in E. destruct (widget w); [|discriminate].
    apply decide_and_load_advances in E. apply onWidget_advances in H.
    exact (advances_trans _ _ _ E H).
  - apply bind_normal in H as (w1 & E & H).
    apply onWidget_advances in E. apply onWidget_advances in H.
    exact (advances_trans _ _ _ E H).
Qed.

Lemma click_advances (h : Host) (b : Button) (w w' : World) :
  click h b w = Normal w' -> advances w w'.
Proof.
  unfold click. destruct (widget w) as [x|].
  - destruct (listening x); [apply listener_advances|].
    intros [= <-]. apply advances_refl.
  - intros [= <-]. apply advances_refl.
Qed.

Lemma clicks_advances (h : Host) (bs : list Button) (w w' : World) :
  clicks h bs w = Normal w' -> advances w w'.
Proof.
  unfold clicks. revert w; induction bs as [|b bs IH]; intros w; cbn [forEach].
  - intros [= <-]. apply advances_refl.
  - intros H. apply bind_normal in H as (w1 & E & H).
    apply click_advances in E. exact (advances_trans _ _ _ E (IH _ H)).
Qed.

Lemma initialize_advances (h : Host) (w w' : World) :
  initializeCookieConsent h w = Normal w' -> advances w w'.
Proof.
  unfold initializeCookieConsent. intros H.
  apply bind_normal in H as (w1 & E & H). apply onWidget_advances in H.
  apply (fun A => advances_trans _ _ _ A H).
  destruct (getCookie w "cookie_consent") as [c|];
    [|now apply onWidget_advances in E].
  destruct (JsString.nonEmpty c); [|now apply onWidget_advances in E].
  apply bind_normal in E as (v & _ & E).
  apply bind_normal in E as (w0 & E0 & E).
  apply update_advances in E0. apply loadCookies_effects in E as [A _].
  exact (advances_trans _ _ _ E0 A).
Qed.

Lemma inject_same (w w' : World) (s : Snapshot.t) :
  injectConsentHTML w s = Normal w' ->
  sameRecords w w' /\ widget w = None /\
  markupFree s = true /\
  widget w' = Some (plainWidget (Nat.ltb 0 (List.length (Snapshot.uncategorized s)))).
Proof.
  unfold injectConsentHTML, freshWidget.
  destruct (widget w) eqn:E; [discriminate|].
  destruct (markupFree s); [|discriminate]. cbn [bind].
  intros [= <-]. split; [repeat split|]. repeat split.
Qed.

Lemma onDOMContentLoaded_advances (h : Host) (w w' : World) :
  onDOMContentLoaded h w = Normal w' -> advances w w'.
Proof.
  unfold onDOMContentLoaded. intros H.
  apply bind_normal in H as (s & _ & H).
  apply bind_normal in H as (w1 & E1 & H).
  apply initialize_advances in H.
  apply (advances_trans _ w1); [|exact H].
  apply sameRecords_advances. now apply inject_same in E1.
Qed.

End RunFacts.

Module SessionSafety.
Import JsString JsonPrint CookieJar PersistFacts UpdateFacts WriterFacts
       DecisionFacts JarFacts GetCookieFacts JarInvariant SessionFacts RunFacts
       StoreScan.

Lemma wfEntry_decision (d : Decision.t) :
  wfEntry ("cookie_consent", render (Decision.toValue d)) = true.
Proof. unfold wfEntry. cbn [fst snd]. now rewrite decision_no_semicolon. Qed.

Lemma pixelStep_ready (w w' : World) :
  pixelStep w w' -> pixelReady w = true -> pixelReady w' = true.
Proof.
  unfold pixelReady. intros [[F S]|(N & F & S)] H.
  - now rewrite F, S.
  - now rewrite F.
Qed.

(** After a writer has handed the decision [d] to the setter, a display
    switch returns and leaves a page the next click can start from. *)
Lemma stored_then_switch (w w1 : World) (d : Decision.t) (x : Widget)
  (f : Widget -> Widget) :
  wf (jar w) = true -> consentStored w ->
  Decision.timeValue (Decision.timestamp d) = true ->
  jar w1 = (if secureOrigin w
            then store (jar w) "cookie_consent" (render (Decision.toValue d))
            else jar w) ->
  widget w1 = Some x ->
  exists w',
    onWidget w1 f = Normal w' /\ widget w' = Some (f x) /\
    wf (jar w') = true /\ consentStored w'.
Proof.
  intros Hwf Hc Hd Hj Hx. unfold onWidget. rewrite Hx.
  eexists. split; [reflexivity|]. split; [reflexivity|].
  unfold consentStored. cbn [jar withWidget]. rewrite Hj.
  destruct (secureOrigin w).
  - split; [apply wf_store; [exact Hwf|apply wfEntry_decision]|].
    right. exists d. split; [exact Hd|]. apply find_store.
  - split; [exact Hwf|exact Hc].
Qed.

Lemma loadable_ready (c : Decision.Categories) (w : World) :
  pixelReady w = true -> loadable c w = true.
Proof. unfold loadable. intros ->. apply orb_true_r. Qed.

Lemma listener_safe (h : Host) (b : Button) (w : World) (x : Widget) :
  wf (jar w) = true -> widget w = Some x -> consentStored w ->
  pixelReady w = true ->
  exists w' x',
    listener h b w = Normal w' /\ widget w' = Some x' /\
    listening x' = listening x /\ wf (jar w') = true /\ consentStored w' /\
    pixelReady w' = true.
Proof.
  intros Hwf Hx Hc Hp.
  assert (Main : exists w' x',
            listener h b w = Normal w' /\ widget w' = Some x' /\
            listening x' = listening x /\ wf (jar w') = true /\ consentStored w').
  { assert (Accept : forall f, (forall y, listening (f y) = listening y) ->
              exists w' x',
                (w1 <- acceptAllCookies h w ;; onWidget w1 f) = Normal w' /\
                widget w' = Some x' /\ listening x' = listening x /\
                wf (jar w') = true /\ consentStored w').
    { intros f Hf.
      destruct (decide_and_load h w (acceptAllData (now w)) (nowValid w)
                  (loadable_ready _ w Hp)) as (w1 & E & Hj & Hw & _).
      rewrite Hx in Hw.
      destruct (stored_then_switch w w1 (acceptAllData (now w)) x f Hwf Hc
                  (nowValid w) Hj Hw) as (w' & E' & Hw' & Hwf' & Hc').
      exists w', (f x). unfold acceptAllCookies. cbn zeta. rewrite E. cbn [bind]. auto. }
    assert (Reject : forall f, (forall y, listening (f y) = listening y) ->
              exists w' x',
                (w1 <- rejectAllCookies h w ;; onWidget w1 f) = Normal w' /\
                widget w' = Some x' /\ listening x' = listening x /\
                wf (jar w') = true /\ consentStored w').
    { intros f Hf.
      destruct (decide_only h w (rejectAllData (now w)) (nowValid w))
        as (w1 & E & Hj & Hw & _).
      rewrite Hx in Hw.
      destruct (stored_then_switch w w1 (rejectAllData (now w)) x f Hwf Hc
                  (nowValid w) Hj Hw) as (w' & E' & Hw' & Hwf' & Hc').
      exists w', (f x). unfold rejectAllCookies. cbn zeta. rewrite E. cbn [bind]. auto. }
    destruct b; cbn [listener].
    - apply Accept. reflexivity.
    - apply Reject. reflexivity.
    - destruct Hc as [Hn|(d & Hd & Hs)].
      + rewrite (showCookieSettings_absent w x Hwf Hx Hn).
        eexists. eexists. split; [reflexivity|]. split; [reflexivity|].
        split; [reflexivity|]. split; [exact Hwf|]. now left.
      + rewrite (showCookieSettings_stored w x d Hwf Hx Hd Hs).
        eexists. eexists. split; [reflexivity|]. split; [reflexivity|].
        split; [reflexivity|]. split; [exact Hwf|]. right. now exists d.
    - apply Accept. reflexivity.
    - apply Reject. reflexivity.
    - destruct (decide_and_load h w (customData x (now w)) (nowValid w)
                  (loadable_ready _ w Hp)) as (w1 & E & Hj & Hw & _).
      rewrite Hx in Hw.
      destruct (stored_then_switch w w1 (customData x (now w)) x
                  (setModalDisplay "none") Hwf Hc (nowValid w) Hj Hw)
        as (w' & E' & Hw' & Hwf' & Hc').
      exists w', (setModalDisplay "none" x).
      unfold saveCustomSettings. rewrite Hx. cbn zeta. rewrite E. cbn [bind]. auto.
    - unfold hideCookieSettings, showCookieBanner, onWidget. rewrite Hx.
      cbn [bind widget withWidget].
      eexists. eexists. split; [reflexivity|]. split; [reflexivity|].
      split; [reflexivity|]. split; [exact Hwf|exact Hc]. }
  destruct Main as (w' & x' & E & Hx' & Hl' & Hwf' & Hc').
  exists w', x'. repeat (split; [assumption|]).
  destruct (listener_advances h b w w' E) as [_ P].
  exact (pixelStep_ready w w' P Hp).
Qed.

(** A run of clicks never throws where the pixel can be inserted.  On a
    page whose markup is in place and whose listeners are registered, where
    [fbq] is defined or the document has a script element, with a
    well-formed cookie store in which the consent cookie is absent or holds
    the text of a decision, every sequence of clicks on the seven controls
    runs to its end: each listener returns, and it leaves the markup, the
    listeners, a well-formed store, a consent cookie that is absent or holds
    the text of a decision, and a page where the pixel can be inserted. *)
Theorem clicks_never_throw (h : Host) (bs : list Button) (w : World) (x : Widget) :
  wf (jar w) = true -> widget w = Some x -> listening x = true ->
  consentStored w -> pixelReady w = true ->
  exists w' x',
    clicks h bs w = Normal w' /\ widget w' = Some x' /\ listening x' = true /\
    wf (jar w') = true /\ consentStored w' /\ pixelReady w' = true.
Proof.
  unfold clicks. revert w x.
  induction bs as [|b bs IH]; intros w x Hwf Hx Hl Hc Hp; cbn [forEach].
  - exists w, x. repeat split; assumption.
  - unfold click at 1. rewrite Hx, Hl.
    destruct (listener_safe h b w x Hwf Hx Hc Hp)
      as (w1 & x1 & E & Hx1 & Hl1 & Hwf1 & Hc1 & Hp1).
    rewrite E. cbn [bind]. apply (IH w1 x1); congruence.
Qed.

Lemma clicks_never_throw_witness :
  let w := valueOr (onDOMContentLoaded fixedHost blankPage) blankPage in
  let x := setListening (setBannerDisplay "block" (plainWidget false)) in
  wf (jar w) = true /\ widget w = Some x /\ listening x = true /\
  consentStored w /\ pixelReady w = true /\
  exists w' x',
    clicks fixedHost [adjustConsentBtn; saveSettingsBtn; adjustConsentBtn; closeModal;
                      rejectAllBtn; acceptAllBtn] w = Normal w' /\
    widget w' = Some x' /\ listening x' = true /\
    wf (jar w') = true /\ consentStored w' /\ pixelReady w' = true.
Proof.
  intros w x.
  split; [reflexivity|]. split; [reflexivity|]. split; [reflexivity|].
  split; [left; reflexivity|]. split; [reflexivity|].
  exact (clicks_never_throw fixedHost _ w x eq_refl eq_refl eq_refl
           (or_introl eq_refl) eq_refl).
Defined.

End SessionSafety.

(** * Page load *)

Module PageLoad.
Import JsString JsonPrint CookieJar PersistFacts UpdateFacts WriterFacts
       DecisionFacts JarFacts GetCookieFacts JarInvariant SessionFacts RunFacts
       StoreScan.

Lemma find_in_names (name : string) (j : CookieJar.t) (v : string) :
  find name j = Some v -> In name (map fst j).
Proof.
  induction j as [|[n v'] j IH]; cbn [find map fst]; [discriminate|].
  destruct (String.eqb n name) eqn:E.
  - apply String.eqb_eq in E. now left.
  - intros H. right. now apply IH.
Qed.

(** A store that holds the consent cookie has an uncategorized cookie: the
    name [cookie_consent] contains no pattern of the database. *)
Lemma consent_cookie_uncategorized (j : CookieJar.t) (v : string) :
  find "cookie_consent" j = Some v ->
  In "cookie_consent" (namesIn Category.uncategorized j).
Proof.
  intros H. unfold namesIn. apply filter_In.
  split; [exact (find_in_names _ _ _ H)|reflexivity].
Qed.

Lemma uncategorized_toggle (h : Host) (now : Z) (doc : string) (s : Snapshot.t)
  (j : CookieJar.t) :
  Forall2 (describes h now doc) (Snapshot.uncategorized s)
          (namesIn Category.uncategorized j) ->
  uncategorizedChecked
    (plainWidget (Nat.ltb 0 (List.length (Snapshot.uncategorized s))))
  = match namesIn Category.uncategorized j with
    | [] => None
    | _ :: _ => Some false
    end.
Proof.
  intros H. apply Forall2_length in H.
  cbn [plainWidget uncategorizedChecked]. rewrite H.
  now destruct (namesIn Category.uncategorized j).
Qed.

(** ** The texts of the cookie tables *)

Lemma description_plain (n : string) : hasChar "<" (descriptionFor n) = false.
Proof.
  unfold descriptionFor. destruct (firstMatch cookieDatabase n); [|reflexivity].
  unfold getCookieDescription, descriptions. cbn [find].
  repeat (match goal with
          | |- context [String.eqb ?a n] => destruct (String.eqb a n)
          end; [reflexivity|]).
  reflexivity.
Qed.

Lemma duration_plain (h : Host) (now : Z) (doc n d : string) :
  getCookieDuration h now doc n = Normal d -> hasChar "<" d = false.
Proof.
  unfold getCookieDuration.
  destruct (RegExpModel.classify n); [|discriminate|discriminate].
  destruct (RegExpModel.search (RegExpModel.cookieAt n) doc);
    [|now intros [= <-]].
  destruct (RegExpModel.search (RegExpModel.expiresAt n) doc);
    [|now intros [= <-]].
  destruct (dateParse h s); [|now intros [= <-]].
  destruct (now <? z)%Z; now intros [= <-].
Qed.

Lemma describes_plain (h : Host) (now : Z) (doc : string) (x : Cookie.t)
  (n : string) :
  describes h now doc x n -> hasChar "<" n = false -> plainText x = true.
Proof.
  intros (Hn & Hd & Hdur) H. unfold plainText.
  rewrite Hn, H, Hd, description_plain, (duration_plain _ _ _ _ _ Hdur).
  reflexivity.
Qed.

Lemma namesIn_plain (c : Category.t) (j : CookieJar.t) :
  plainNames j = true -> Forall (fun n => hasChar "<" n = false) (namesIn c j).
Proof.
  unfold plainNames, namesIn. intros H. apply Forall_forall. intros n Hin.
  apply filter_In in Hin as [Hin _]. apply in_map_iff in Hin as (p & <- & Hp).
  rewrite forallb_forall in H. specialize (H p Hp).
  now apply negb_true_iff in H.
Qed.

Lemma rows_plain (h : Host) (now : Z) (doc : string) (l : list Cookie.t)
  (names : list string) :
  Forall2 (describes h now doc) l names ->
  Forall (fun n => hasChar "<" n = false) names ->
  forallb plainText l = true.
Proof.
  induction 1 as [|x n l names Hx _ IH]; intros Hf; [reflexivity|].
  inversion Hf as [|? ? Hn Hrest]; subst. cbn [forallb].
  now rewrite (describes_plain _ _ _ _ _ Hx Hn), IH.
Qed.

(** The markup of a scanned store whose names hold no [<] is the plain
    one. *)
Lemma scan_markupFree (h : Host) (now : Z) (j : CookieJar.t) (s : Snapshot.t) :
  (forall c, Forall2 (describes h now (read j)) (Snapshot.get s c) (namesIn c j)) ->
  plainNames j = true -> markupFree s = true.
Proof.
  intros H Hp. unfold markupFree.
  change (Snapshot.functional s) with (Snapshot.get s Category.functional).
  change (Snapshot.analytics s) with (Snapshot.get s Category.analytics).
  change (Snapshot.performance s) with (Snapshot.get s Category.performance).
  change (Snapshot.advertising s) with (Snapshot.get s Category.advertising).
  change (Snapshot.uncategorized s) with (Snapshot.get s Category.uncategorized).
  rewrite (rows_plain _ _ _ _ _ (H Category.functional) (namesIn_plain _ _ Hp)).
  rewrite (rows_plain _ _ _ _ _ (H Category.analytics) (namesIn_plain _ _ Hp)).
  rewrite (rows_plain _ _ _ _ _ (H Category.performance) (namesIn_plain _ _ Hp)).
  rewrite (rows_plain _ _ _ _ _ (H Category.advertising) (namesIn_plain _ _ Hp)).
  rewrite (rows_plain _ _ _ _ _ (H Category.uncategorized) (namesIn_plain _ _ Hp)).
  reflexivity.
Qed.

(** The first visit.  With no consent cookie in the store, stored names
    the scan handles and that hold no [<], and no markup in the page yet,
    the [DOMContentLoaded] listener returns: the markup is injected with
    the functional toggle on and the others off, the banner's [display] is
    [block], the listeners are registered, and the uncategorized toggle
    exists exactly when some stored name contains no pattern.  Nothing is
    pushed on the data layer, no loader runs and the store is not written. *)
Theorem first_visit_shows_banner (h : Host) (w : World) :
  wf (jar w) = true -> forallb scannable (jar w) = true ->
  plainNames (jar w) = true ->
  find "cookie_consent" (jar w) = None -> widget w = None ->
  exists w' x',
    onDOMContentLoaded h w = Normal w' /\
    widget w' = Some x' /\
    bannerDisplay x' = "block" /\ listening x' = true /\
    functionalChecked x' = true /\ analyticsChecked x' = false /\
    performanceChecked x' = false /\ advertisingChecked x' = false /\
    uncategorizedChecked x'
    = match namesIn Category.uncategorized (jar w) with
      | [] => None
      | _ :: _ => Some false
      end /\
    jar w' = jar w /\ dataLayer w' = dataLayer w /\ console w' = console w /\
    fbq w' = fbq w /\ scripts w' = scripts w /\ loaderCalls w' = loaderCalls w.
Proof.
  intros Hwf Hs Hp Hf Hw.
  destruct (scan_store h (now w) (jar w) Hwf Hs) as (s & E & H).
  unfold onDOMContentLoaded. rewrite E. cbn [bind].
  unfold injectConsentHTML, freshWidget.
  rewrite Hw, (scan_markupFree h (now w) (jar w) s H Hp). cbn [bind].
  unfold initializeCookieConsent.
  rewrite getCookie_withWidget, (getCookie_find w "cookie_consent" Hwf eq_refl), Hf.
  unfold showCookieBanner, onWidget. cbn [bind widget withWidget].
  eexists. eexists. split; [reflexivity|]. split; [reflexivity|].
  split; [reflexivity|]. split; [reflexivity|].
  split; [reflexivity|]. split; [reflexivity|].
  split; [reflexivity|]. split; [reflexivity|].
  split; [|repeat split].
  exact (uncategorized_toggle _ _ _ _ _ (H Category.uncategorized)).
Qed.

Lemma first_visit_shows_banner_witness :
  wf (jar blankPage) = true /\ forallb scannable (jar blankPage) = true /\
  plainNames (jar blankPage) = true /\
  find "cookie_consent" (jar blankPage) = None /\ widget blankPage = None /\
  exists w' x',
    onDOMContentLoaded fixedHost blankPage = Normal w' /\
    widget w' = Some x' /\
    bannerDisplay x' = "block" /\ listening x' = true /\
    uncategorizedChecked x' = None.
Proof.
  split; [reflexivity|]. split; [reflexivity|]. split; [reflexivity|].
  split; [reflexivity|]. split; [reflexivity|].
  destruct (first_visit_shows_banner fixedHost blankPage
              eq_refl eq_refl eq_refl eq_refl eq_refl)
    as (w' & x' & E & Hx & Hb & Hl & _ & _ & _ & _ & Hu & _).
  exists w', x'. repeat split; assumption.
Defined.

(** A later visit.  With the text of a decision in the consent cookie of a
    store whose names the scan handles and that hold no [<], and no markup
    in the page yet, the [DOMContentLoaded] listener ends in a TypeError
    when the decision allows advertising and the pixel cannot be inserted.
    Otherwise it returns: the banner's [display] is left as the markup has
    it, the listeners are registered, the consent update and the event with
    the signal of the stored status are pushed, the loaders of the stored
    categories run, and the store is not written (the stored timestamp
    stays).  The panel has the uncategorized toggle, because the consent
    cookie itself is listed among the uncategorized cookies. *)
Theorem later_visit_applies_decision (h : Host) (w : World) (d : Decision.t) :
  wf (jar w) = true -> forallb scannable (jar w) = true ->
  plainNames (jar w) = true ->
  Decision.timeValue (Decision.timestamp d) = true ->
  find "cookie_consent" (jar w) = Some (render (Decision.toValue d)) ->
  widget w = None ->
  if Decision.advertising (Decision.categories d) && negb (pixelReady w)
  then onDOMContentLoaded h w = Throw TypeError
  else
    exists w' x' cs pushed,
      onDOMContentLoaded h w = Normal w' /\
      widget w' = Some x' /\ bannerDisplay x' = EmptyString /\
      listening x' = true /\ uncategorizedChecked x' = Some false /\
      consentStatesOf (Decision.toValue d) = Normal cs /\
      dataLayer w' =
        (dataLayer w ++
         [VArr [VStr "consent"; VStr "update"; cs];
          consentUpdateEvent cs
            (Decision.signalName (Decision.signalFor (Decision.status d)))
            (toISOString h (now w))] ++ pushed)%list /\
      loaderCalls w' = (loaderCalls w ++ loadersOf (Decision.categories d))%list /\
      jar w' = jar w.
Proof.
  intros Hwf Hs Hpl Hd Hf Hw.
  destruct (scan_store h (now w) (jar w) Hwf Hs) as (s & E & H).
  pose proof (uncategorized_toggle _ _ _ _ _ (H Category.uncategorized)) as Hu.
  pose proof (consent_cookie_uncategorized _ _ Hf) as Hin.
  destruct (namesIn Category.uncategorized (jar w)) as [|n l] eqn:En;
    [destruct Hin|].
  set (x0 := plainWidget (Nat.ltb 0 (List.length (Snapshot.uncategorized s)))) in *.
  set (w0 := withWidget w (Some x0)).
  destruct (updateConsentMode_decision h w0 d)
    as (w1 & cs & E1 & Hcs & Hdl & Hj1 & Hw1 & _ & Hf1 & Hs1 & Hl1 & _).
  assert (Key : onDOMContentLoaded h w
                = (w2 <- loadCookiesAccordingToConsent w1 (Decision.toValue d) ;;
                   onWidget w2 setListening)).
  { unfold onDOMContentLoaded. rewrite E. cbn [bind].
    unfold injectConsentHTML, freshWidget.
    rewrite Hw, (scan_markupFree h (now w) (jar w) s H Hpl). cbn [bind].
    fold x0. fold w0. unfold initializeCookieConsent. unfold w0 at 1.
    rewrite getCookie_withWidget, (getCookie_find w "cookie_consent" Hwf eq_refl), Hf.
    change (nonEmpty (render (Decision.toValue d))) with true. cbv iota.
    rewrite (decision_parse d Hd). cbn [bind]. rewrite E1. reflexivity. }
  assert (P : loadable (Decision.categories d) w1
              = negb (Decision.advertising (Decision.categories d)
                      && negb (pixelReady w))).
  { rewrite loadable_spec. now rewrite (pixelReady_frame w0 w1 Hf1 Hs1). }
  rewrite Key.
  destruct (Decision.advertising (Decision.categories d) && negb (pixelReady w));
    cbn [negb] in P.
  - now rewrite (loadCookies_blocked w1 d P).
  - destruct (loadCookies_decision w1 d P) as (w2 & E2 & Hl2 & Hj2 & Hw2 & _).
    destruct (loadCookies_effects w1 w2 _ E2) as ([[pushed Hg] _] & _).
    rewrite E2. cbn [bind]. unfold onWidget. rewrite Hw2, Hw1.
    cbn [widget withWidget w0].
    eexists. exists (setListening x0), cs, pushed.
    split; [reflexivity|]. split; [reflexivity|]. split; [reflexivity|].
    split; [reflexivity|]. split; [exact Hu|]. split; [exact Hcs|].
    cbn [dataLayer loaderCalls jar withWidget].
    rewrite Hg, Hdl, Hl2, Hl1, Hj2, Hj1.
    cbn [dataLayer loaderCalls jar withWidget w0 now].
    rewrite <- List.app_assoc. repeat split.
Qed.

Lemma later_visit_applies_decision_witness :
  let w := withWidget (valueOr (rejectAllCookies fixedHost samplePage) samplePage) None in
  let d := rejectAllData (now samplePage) in
  wf (jar w) = true /\ forallb scannable (jar w) = true /\
  plainNames (jar w) = true /\
  Decision.timeValue (Decision.timestamp d) = true /\
  find "cookie_consent" (jar w) = Some (render (Decision.toValue d)) /\
  widget w = None /\
  exists w' x' cs pushed,
    onDOMContentLoaded fixedHost w = Normal w' /\
    widget w' = Some x' /\ bannerDisplay x' = EmptyString /\
    listening x' = true /\ uncategorizedChecked x' = Some false /\
    consentStatesOf (Decision.toValue d) = Normal cs /\
    dataLayer w' =
      (dataLayer w ++
       [VArr [VStr "consent"; VStr "update"; cs];
        consentUpdateEvent cs "G100" (toISOString fixedHost (now w))] ++ pushed)%list /\
    loaderCalls w' = (loaderCalls w ++ [])%list /\
    jar w' = jar w.
Proof.
  intros w d.
  split; [reflexivity|]. split; [reflexivity|]. split; [reflexivity|].
  split; [reflexivity|]. split; [reflexivity|]. split; [reflexivity|].
  exact (later_visit_applies_decision fixedHost w d eq_refl eq_refl eq_refl
           eq_refl eq_refl eq_refl).
Defined.

(** ** The whole session *)

Lemma session_advances (h : Host) (bs : list Button) (w w' : World) :
  session h bs w = Normal w' ->
  advances (scriptStart w) w'.
Proof.
  unfold session. intros H. apply bind_normal in H as (w1 & E & H).
  apply onDOMContentLoaded_advances in E. apply clicks_advances in H.
  exact (advances_trans _ _ _ E H).
Qed.

(** The pixel is set up at most once.  Through page load and any run of
    clicks that returns, the script elements of the document and the pixel
    queue are either left as they were, or, when [fbq] was undefined, the
    pixel was set up exactly once: one script element inserted before the
    first script of the document, the queue holding the two calls.
    Accepting several times does not insert the script again. *)
Theorem pixel_loaded_once (h : Host) (bs : list Button) (w w' : World) :
  session h bs w = Normal w' ->
  (fbq w' = fbq w /\ scripts w' = scripts w) \/
  (fbq w = None /\ fbq w' = Some pixelQueue /\
   scripts w' = pixelScript :: scripts w).
Proof. intros H. exact (proj2 (session_advances h bs w w' H)). Qed.

Lemma pixel_loaded_once_witness :
  let bs := [acceptAllBtn; adjustConsentBtn; acceptAllSettingsBtn] in
  let w' := valueOr (session fixedHost bs blankPage) blankPage in
  session fixedHost bs blankPage = Normal w' /\
  ((fbq w' = fbq blankPage /\ scripts w' = scripts blankPage) \/
   (fbq blankPage = None /\ fbq w' = Some pixelQueue /\
    scripts w' = pixelScript :: scripts blankPage)).
Proof.
  intros bs w'.
  assert (E : session fixedHost bs blankPage = Normal w') by (vm_compute; reflexivity).
  split; [exact E|].
  exact (pixel_loaded_once fixedHost bs blankPage w' E).
Defined.

(** The default consent stays first.  The data layer is only ever pushed
    to: through page load and any run of clicks that returns, the entries it
    held when the script started are still there, in place, directly followed
    by the default consent command (everything denied but functionality and
    security storage), and every consent update comes after it. *)
Theorem default_consent_stays_first (h : Host) (bs : list Button) (w w' : World) :
  session h bs w = Normal w' ->
  exists pushed,
    dataLayer w' =
      (dataLayer w ++
       VArr [VStr "consent"; VStr "default"; defaultConsent] :: pushed)%list.
Proof.
  intros H. destruct (session_advances h bs w w' H) as [[pushed E] _].
  exists pushed. rewrite E. cbn [scriptStart gtag dataLayer withDataLayer].
  now rewrite <- List.app_assoc.
Qed.

Lemma default_consent_stays_first_witness :
  let bs := [adjustConsentBtn; saveSettingsBtn; acceptAllBtn] in
  let w' := valueOr (session fixedHost bs blankPage) blankPage in
  session fixedHost bs blankPage = Normal w' /\
  exists pushed,
    dataLayer w' =
      (dataLayer blankPage ++
       VArr [VStr "consent"; VStr "default"; defaultConsent] :: pushed)%list.
Proof.
  intros bs w'.
  assert (E : session fixedHost bs blankPage = Normal w') by (vm_compute; reflexivity).
  split; [exact E|].
  exact (default_consent_stays_first fixedHost bs blankPage w' E).
Defined.

(** Opening and closing the panel records nothing.  The listeners of the
    Customize button and of the close control change the widget only: the
    cookie store, the data layer, the console, the pixel, the script elements
    and the loader calls are as before, whatever the consent cookie holds. *)
Theorem panel_controls_record_nothing (h : Host) (b : Button) (w w' : World) :
  b = adjustConsentBtn \/ b = closeModal ->
  listener h b w = Normal w' ->
  jar w' = jar w /\ dataLayer w' = dataLayer w /\ console w' = console w /\
  fbq w' = fbq w /\ scripts w' = scripts w /\ loaderCalls w' = loaderCalls w.
Proof.
  intros [-> | ->]; cbn [listener]; intros H.
  - exact (showCookieSettings_same _ _ H).
  - apply bind_normal in H as (w1 & E & H).
    apply onWidget_same in E as [S1 _]. apply onWidget_same in H as [S2 _].
    exact (sameRecords_trans _ _ _ S1 S2).
Qed.

Lemma panel_controls_record_nothing_witness :
  let w' := valueOr (listener fixedHost adjustConsentBtn samplePage) samplePage in
  (adjustConsentBtn = adjustConsentBtn \/ adjustConsentBtn = closeModal) /\
  listener fixedHost adjustConsentBtn samplePage = Normal w' /\
  jar w' = jar samplePage /\ dataLayer w' = dataLayer samplePage /\
  console w' = console samplePage /\ fbq w' = fbq samplePage /\
  scripts w' = scripts samplePage /\ loaderCalls w' = loaderCalls samplePage.
Proof.
  intros w'.
  assert (E : listener fixedHost adjustConsentBtn samplePage = Normal w')
    by (vm_compute; reflexivity).
  split; [now left|]. split; [exact E|].
  exact (panel_controls_record_nothing fixedHost adjustConsentBtn samplePage w'
           (or_introl eq_refl) E).
Defined.

End PageLoad.

(** * What the consent update depends on *)

Module ConsentDependence.
Import UpdateFacts.

(** The consent update and the loaders read the status and three of the
    five categories.  Two decisions that agree on the status and on
    analytics, performance and advertising produce the same pushes, the same
    console lines and the same loader calls: the uncategorized choice, the
    functional flag, the stored [gcs] field and the timestamp change nothing
    but the text of the cookie. *)
Theorem consent_ignores_uncategorized (h : Host) (w : World) (d1 d2 : Decision.t) :
  Decision.status d1 = Decision.status d2 ->
  Decision.analytics (Decision.categories d1)
  = Decision.analytics (Decision.categories d2) ->
  Decision.performance (Decision.categories d1)
  = Decision.performance (Decision.categories d2) ->
  Decision.advertising (Decision.categories d1)
  = Decision.advertising (Decision.categories d2) ->
  updateConsentMode h w (Decision.toValue d1)
  = updateConsentMode h w (Decision.toValue d2) /\
  loadCookiesAccordingToConsent w (Decision.toValue d1)
  = loadCookiesAccordingToConsent w (Decision.toValue d2).
Proof.
  intros Hs Ha Hp Hd. split.
  - unfold updateConsentMode.
    rewrite !consentStatesOf_decision, !gcsSignalOf_decision.
    now rewrite Hs, Ha, Hp, Hd.
  - unfold loadCookiesAccordingToConsent.
    destruct (categoryOf_decision d1) as (_ & A1 & P1 & D1 & _).
    destruct (categoryOf_decision d2) as (_ & A2 & P2 & D2 & _).
    rewrite A1, P1, D1, A2, P2, D2. now rewrite Ha, Hp, Hd.
Qed.

Lemma consent_ignores_uncategorized_witness :
  let d1 := Decision.Build_t Decision.custom Decision.G101
              (Decision.Build_Categories true true false false true) 1 in
  let d2 := Decision.Build_t Decision.custom Decision.G111
              (Decision.Build_Categories false true false false false) 2 in
  updateConsentMode fixedHost samplePage (Decision.toValue d1)
  = updateConsentMode fixedHost samplePage (Decision.toValue d2) /\
  loadCookiesAccordingToConsent samplePage (Decision.toValue d1)
  = loadCookiesAccordingToConsent samplePage (Decision.toValue d2).
Proof.
  intros d1 d2.
  exact (consent_ignores_uncategorized fixedHost samplePage d1 d2
           eq_refl eq_refl eq_refl eq_refl).
Defined.

(** The consent states [updateConsentMode] computes for a decision are
    those of the default consent command exactly when analytics, performance
    and advertising are all refused; rejecting everything re-sends the
    default. *)
Theorem update_equals_default_iff (d : Decision.t) :
  consentStatesOf (Decision.toValue d) = Normal defaultConsent <->
  Decision.analytics (Decision.categories d) = false /\
  Decision.performance (Decision.categories d) = false /\
  Decision.advertising (Decision.categories d) = false.
Proof.
  rewrite consentStatesOf_decision. unfold defaultConsent, grant. cbn [truthy].
  destruct (Decision.analytics (Decision.categories d)),
           (Decision.performance (Decision.categories d)),
           (Decision.advertising (Decision.categories d));
    split; intros H; try discriminate H;
    try (destruct H as (H1 & H2 & H3); discriminate); auto.
Qed.

End ConsentDependence.

(** * Accept All, step by step *)

Module AcceptFacts.
Import JsonPrint CookieJar PersistFacts UpdateFacts WriterFacts.

(** The consent states of a visitor who accepts everything. *)
Lemma accept_states (t : Z) :
  consentStatesOf (Decision.toValue (acceptAllData t))
  = Normal (VObj [
      ("ad_storage", VStr "granted");
      ("analytics_storage", VStr "granted");
      ("ad_user_data", VStr "granted");
      ("ad_personalization", VStr "granted");
      ("personalization_storage", VStr "granted");
      ("functionality_storage", VStr "granted");
      ("security_storage", VStr "granted")]).
Proof. reflexivity. Qed.

Lemma loadAnalytics_fields (w : World) :
  dataLayer (loadAnalyticsCookies w) =
    (dataLayer w ++
     (if gaDefined w then []
      else [VArr [VStr "js"; VDate (now w)];
            VArr [VStr "config"; VStr "YOUR_GA4_MEASUREMENT_ID"]]))%list /\
  fbq (loadAnalyticsCookies w) = fbq w /\
  scripts (loadAnalyticsCookies w) = scripts w.
Proof.
  unfold loadAnalyticsCookies.
  cbn [gaDefined withLoaderCalls consoleLog withConsole].
  destruct (gaDefined w); cbn.
  - now rewrite List.app_nil_r.
  - now rewrite <- List.app_assoc.
Qed.

Lemma loadPerformance_fields (w : World) :
  dataLayer (loadPerformanceCookies w) = dataLayer w /\
  fbq (loadPerformanceCookies w) = fbq w /\
  scripts (loadPerformanceCookies w) = scripts w.
Proof. repeat split. Qed.

(** The Accept All button.  On a page with the markup where the pixel can
    be inserted ([fbq] is defined or the document has a script element) its
    listener returns: the data layer receives the consent update with all
    seven keys granted and the event with signal G111, then, unless [ga] is
    defined, the two analytics commands; the three loaders run in the order
    analytics, advertising, performance; the pixel is set up if [fbq] was
    undefined, its script element inserted before the first script of the
    document; the banner's [display] is [none].  On a secure origin the
    store then holds the accepted decision; elsewhere the Secure cookie is
    refused and the store holds what it held.  Where the pixel cannot be
    inserted the listener ends in a TypeError. *)
Theorem accept_all_loads_everything (h : Host) (w : World) (x : Widget) :
  widget w = Some x ->
  if pixelReady w
  then
    exists w' x' cs,
      listener h acceptAllBtn w = Normal w' /\
      persisted w'
      = (if secureOrigin w
         then Some (Decision.toValue (acceptAllData (now w)))
         else persisted w) /\
      consentStatesOf (Decision.toValue (acceptAllData (now w))) = Normal cs /\
      (forall k, In k ["ad_storage"; "analytics_storage"; "ad_user_data";
                       "ad_personalization"; "personalization_storage";
                       "functionality_storage"; "security_storage"] ->
                 get cs k = Normal (VStr "granted")) /\
      dataLayer w' =
        (dataLayer w ++
         [VArr [VStr "consent"; VStr "update"; cs];
          consentUpdateEvent cs "G111" (toISOString h (now w))] ++
         (if gaDefined w then []
          else [VArr [VStr "js"; VDate (now w)];
                VArr [VStr "config"; VStr "YOUR_GA4_MEASUREMENT_ID"]]))%list /\
      loaderCalls w' =
        (loaderCalls w ++
         [Category.analytics; Category.advertising; Category.performance])%list /\
      fbq w' = match fbq w with Some q => Some q | None => Some pixelQueue end /\
      scripts w' = match fbq w with
                   | Some _ => scripts w
                   | None => pixelScript :: scripts w
                   end /\
      widget w' = Some x' /\
      bannerDisplay x' = "none" /\ modalDisplay x' = modalDisplay x
  else listener h acceptAllBtn w = Throw TypeError.
Proof.
  intros Hx. destruct (pixelReady w) eqn:Hp.
  - destruct (persist_decision h w (acceptAllData (now w)) (nowValid w))
      as (w1 & E1 & Hj1 & Hd1 & _ & Hw1 & Hg1 & Hf1 & Hs1 & Hl1 & Hn1 & _).
    destruct (updateConsentMode_decision h w1 (acceptAllData (now w)))
      as (w2 & cs & E2 & Hcs & Hd2 & Hj2 & Hw2 & Hg2 & Hf2 & Hs2 & Hl2 & Hn2).
    assert (E3 : loadCookiesAccordingToConsent w2
                   (Decision.toValue (acceptAllData (now w)))
                 = (wb <- loadAdvertisingCookies (loadAnalyticsCookies w2) ;;
                    Normal (loadPerformanceCookies wb)))
      by reflexivity.
    set (wa := loadAnalyticsCookies w2) in *.
    destruct (loadAnalytics_frame w2) as (La & Ja & Wa & Na).
    destruct (loadAnalytics_fields w2) as (Da & Fa & Sa).
    fold wa in La, Ja, Wa, Na, Da, Fa, Sa.
    assert (Pa : pixelReady wa = true).
    { rewrite (pixelReady_frame w2 wa Fa Sa), (pixelReady_frame w1 w2 Hf2 Hs2),
        (pixelReady_frame w w1 Hf1 Hs1). exact Hp. }
    destruct (loadAdvertising_ready wa Pa)
      as (wb & Eb & Lb & Jb & Wb & Nb & Db & _ & Fb & Sb).
    rewrite Eb in E3. cbn [bind] in E3.
    set (w3 := loadPerformanceCookies wb) in *.
    destruct (loadPerformance_frame wb) as (Lc & Jc & Wc & Nc).
    destruct (loadPerformance_fields wb) as (Dc & Fc & Sc).
    fold w3 in Lc, Jc, Wc, Nc, Dc, Fc, Sc.
    assert (Hw3 : widget w3 = Some x) by congruence.
    exists (withWidget w3 (Some (setBannerDisplay "none" x))),
           (setBannerDisplay "none" x), cs.
    split.
    { cbn [listener]. unfold acceptAllCookies. cbn zeta. rewrite E1. cbn [bind].
      rewrite E2. cbn [bind]. rewrite E3. cbn [bind].
      unfold hideCookieBanner, onWidget. now rewrite Hw3. }
    split.
    { assert (J : jar (withWidget w3 (Some (setBannerDisplay "none" x))) = jar w1)
        by (cbn [jar withWidget]; congruence).
      unfold persisted at 1. rewrite J. fold (persisted w1).
      destruct (secureOrigin w).
      - exact (persisted_store w w1 (acceptAllData (now w)) (nowValid w) Hj1).
      - unfold persisted. now rewrite Hj1. }
    split; [exact Hcs|].
    split.
    { rewrite accept_states in Hcs. injection Hcs as <-.
      intros k Hk. cbn [In] in Hk.
      repeat (destruct Hk as [<-|Hk]; [reflexivity|]). destruct Hk. }
    cbn [dataLayer loaderCalls fbq scripts widget withWidget].
    split.
    { rewrite Dc, Db, Da, Hd2, Hd1, Hg2, Hg1, Hn2, Hn1, <- List.app_assoc.
      reflexivity. }
    split.
    { rewrite Lc, Lb, La, Hl2, Hl1, <- !List.app_assoc. reflexivity. }
    split; [rewrite Fc, Fb, Fa, Hf2, Hf1; reflexivity|].
    split; [rewrite Sc, Sb, Fa, Sa, Hf2, Hf1, Hs2, Hs1; reflexivity|].
    split; [reflexivity|]. split; reflexivity.
  - cbn [listener]. unfold acceptAllCookies. cbn zeta.
    rewrite (decide_and_load_blocked h w (acceptAllData (now w)) (nowValid w));
      [reflexivity|].
    unfold loadable. now rewrite Hp.
Qed.

Lemma accept_all_loads_everything_witness :
  widget samplePage = Some (plainWidget false) /\
  exists w' x' cs,
    listener fixedHost acceptAllBtn samplePage = Normal w' /\
    persisted w' = Some (Decision.toValue (acceptAllData (now samplePage))) /\
    consentStatesOf (Decision.toValue (acceptAllData (now samplePage))) = Normal cs /\
    loaderCalls w' = [Category.analytics; Category.advertising; Category.performance] /\
    scripts w' = [pixelScript; "cookie-consent.js"] /\
    widget w' = Some x' /\ bannerDisplay x' = "none".
Proof.
  split; [reflexivity|].
  destruct (accept_all_loads_everything fixedHost samplePage
              (plainWidget false) eq_refl)
    as (w' & x' & cs & E & Hp & Hcs & _ & _ & Hl & _ & Hs & Hw & Hb & _).
  exists w', x', cs. split; [exact E|]. split; [exact Hp|]. split; [exact Hcs|].
  split; [exact Hl|]. split; [exact Hs|]. split; [exact Hw|exact Hb].
Defined.

End AcceptFacts.

(** * Initialisation on a foreign consent cookie *)

Module ForeignCookie.
Import SessionFacts RunFacts.

(** A consent cookie this script did not write.  When the cookie holds
    any JSON text whose value has a [categories] property other than
    [undefined] and [null], initialisation takes it for a decision.  The
    consent states follow the truthiness of the three categories read; one
    that is missing reads as [undefined] and counts as refused.  The call
    returns, with the banner's [display] as it was, the listeners registered
    and the store not written, unless the advertising category is truthy and
    the pixel cannot be inserted: then it ends in a TypeError. *)
Theorem initialize_accepts_any_categories (h : Host) (w : World) (x : Widget)
  (text : string) (v : value) :
  widget w = Some x -> getCookie w "cookie_consent" = Some text ->
  JsString.nonEmpty text = true -> parse text = Normal v ->
  lacksCategories v = false ->
  exists a p d,
    categoryOf v "analytics" = Normal a /\
    categoryOf v "performance" = Normal p /\
    categoryOf v "advertising" = Normal d /\
    consentStatesOf v = Normal (VObj [
      ("ad_storage", grant d); ("analytics_storage", grant a);
      ("ad_user_data", grant d); ("ad_personalization", grant d);
      ("personalization_storage", grant p);
      ("functionality_storage", VStr "granted");
      ("security_storage", VStr "granted")]) /\
    if truthy d && negb (pixelReady w)
    then initializeCookieConsent h w = Throw TypeError
    else exists w' x',
           initializeCookieConsent h w = Normal w' /\
           widget w' = Some x' /\
           bannerDisplay x' = bannerDisplay x /\
           modalDisplay x' = modalDisplay x /\
           listening x' = true /\ jar w' = jar w.
Proof.
  intros Hx Hg Hn Hp Hl.
  destruct (UpdateFacts.categories_readable v Hl) as (a & p & d & Ha & Hp' & Hd).
  exists a, p, d. split; [exact Ha|]. split; [exact Hp'|]. split; [exact Hd|].
  destruct (UpdateFacts.update_foreign h w v a p d Hl Ha Hp' Hd)
    as (Ecs & w1 & E1 & Hj1 & Hw1 & Hf1 & Hs1 & _).
  split; [exact Ecs|].
  unfold initializeCookieConsent. rewrite Hg, Hn, Hp. cbn [bind].
  rewrite E1. cbn [bind].
  pose proof (UpdateFacts.loadCookies_values w1 v a p d Ha Hp' Hd) as O.
  rewrite (UpdateFacts.pixelReady_frame _ _ Hf1 Hs1) in O.
  destruct (truthy d && negb (pixelReady w)).
  - now rewrite O.
  - destruct O as (w2 & E2 & Hj2 & Hw2 & _). rewrite E2. cbn [bind].
    unfold onWidget. rewrite Hw2, Hw1, Hx.
    eexists. eexists. split; [reflexivity|].
    cbn [widget withWidget jar]. split; [reflexivity|].
    split; [reflexivity|]. split; [reflexivity|]. split; [reflexivity|].
    now rewrite Hj2.
Qed.

Lemma initialize_accepts_any_categories_witness :
  let w := withJar samplePage [("cookie_consent", "{" ++ quoted "categories" ++ ":1}")] in
  let v := VObj [("categories", VNum 1 0)] in
  widget w = Some (plainWidget false) /\
  getCookie w "cookie_consent" = Some ("{" ++ quoted "categories" ++ ":1}") /\
  JsString.nonEmpty ("{" ++ quoted "categories" ++ ":1}") = true /\
  parse ("{" ++ quoted "categories" ++ ":1}") = Normal v /\
  lacksCategories v = false /\
  consentStatesOf v = Normal defaultConsent /\
  exists w' x',
    initializeCookieConsent fixedHost w = Normal w' /\
    widget w' = Some x' /\ listening x' = true.
Proof.
  intros w v.
  split; [reflexivity|]. split; [reflexivity|]. split; [reflexivity|].
  split; [reflexivity|]. split; [reflexivity|].
  destruct (initialize_accepts_any_categories fixedHost w
              (plainWidget false) _ v eq_refl eq_refl eq_refl eq_refl eq_refl)
    as (a & p & d & Ha & Hp & Hd & Hcs & O).
  injection Ha as <-. injection Hp as <-. injection Hd as <-.
  split; [exact Hcs|].
  destruct O as (w' & x' & E & Hw & _ & _ & Hl & _).
  exists w', x'. split; [exact E|]. split; [exact Hw|exact Hl].
Defined.

End ForeignCookie.
